(** * fscad: bounding-box placement, traversal and unit conversion

    A shallow embedding of [fscad.py], the scripting layer over the host CAD
    object model ([adsk.core], [adsk.fusion]).

    - Python values that cross the unit boundary are the type [pyvalue];
      Python floats are idealised as rationals ([Q]), so that [== 0] is
      [Qeq_bool] and results are compared with [Qeq].
    - A raised exception is the [Raise] case of [result]; host failures are
      [RuntimeError].
    - The geometry kernel is opaque to the script: its pure services are the
      fields of [Kernel], and every function that calls them takes the
      kernel as an argument.
    - The active design is the record [Design]: the timeline of the host,
      the placement transform of every occurrence (by occurrence id), the
      attributes attached to faces and bodies, and the supply of fresh ids.
      Stateful functions live in the monad [M]. *)

From Stdlib Require Import ZArith QArith Qminmax List String Bool Lia.
From stdpp Require Import base gmap strings.
Import ListNotations.
Local Open Scope Q_scope.

(** ** Exceptions and results *)

Inductive exn : Type :=
| TypeError
| ValueError (msg : string)
| IndexError
| AttributeError
| UnboundLocalError
| RuntimeError.

Inductive result (A : Type) : Type :=
| Ok (a : A)
| Raise (e : exn).
Arguments Ok {A} a.
Arguments Raise {A} e.

Definition rbind {A B} (r : result A) (k : A -> result B) : result B :=
  match r with
  | Ok a => k a
  | Raise e => Raise e
  end.

#[global] Instance result_ret : MRet result := fun _ a => Ok a.
#[global] Instance result_bind : MBind result := fun _ _ k r => rbind r k.

(** [list(map(f, xs))]: left to right, the first exception wins. *)
Fixpoint rmap {A B} (f : A -> result B) (xs : list A) : result (list B) :=
  match xs with
  | [] => Ok []
  | x :: xs' =>
      (y ← f x; ys ← rmap f xs'; Ok (y :: ys))
  end.

(** ** Host geometry values ([adsk.core]) *)

Record Point3D : Type := mkPoint3D { px : Q; py : Q; pz : Q }.
Record Vector3D : Type := mkVector3D { vx : Q; vy : Q; vz : Q }.

Definition asArray (p : Point3D) : list Q := [px p; py p; pz p].

Record BoundingBox3D : Type :=
  mkBoundingBox3D { minPoint : Point3D; maxPoint : Point3D }.

Record OrientedBoundingBox3D : Type := mkOrientedBoundingBox3D {
  centerPoint : Point3D;
  lengthDirection : Vector3D;
  widthDirection : Vector3D;
  obb_length : Q;
  obb_width : Q;
  obb_height : Q
}.

(** ** Python values handled by the unit conversion *)

#[warnings="-register-all"]
Inductive pyvalue : Type :=
| VNone
| VNum (q : Q)
| VPoint3D (p : Point3D)
| VVector3D (v : Vector3D)
| VTuple (items : list pyvalue)
| VList (items : list pyvalue).

(** [seq * n] on a tuple or list: [n] copies, concatenated. *)
Fixpoint seq_repeat {A} (n : nat) (xs : list A) : list A :=
  match n with
  | O => []
  | S n' => xs ++ seq_repeat n' xs
  end.

(** [lambda value: value * 10] *)
Definition times10 (value : pyvalue) : result pyvalue :=
  match value with
  | VNum q => Ok (VNum (q * 10))
  | VTuple items => Ok (VTuple (seq_repeat 10 items))
  | VList items => Ok (VList (seq_repeat 10 items))
  | VNone | VPoint3D _ | VVector3D _ => Raise TypeError
  end.

(** [lambda value: value / 10] *)
Definition over10 (value : pyvalue) : result pyvalue :=
  match value with
  | VNum q => Ok (VNum (q / 10))
  | _ => Raise TypeError
  end.

(** [adsk.core.Point3D.create] and [adsk.core.Vector3D.create] take three
    numbers. *)
Definition Point3D_create (x y z : pyvalue) : result pyvalue :=
  match x, y, z with
  | VNum a, VNum b, VNum c => Ok (VPoint3D (mkPoint3D a b c))
  | _, _, _ => Raise TypeError
  end.

Definition Vector3D_create (x y z : pyvalue) : result pyvalue :=
  match x, y, z with
  | VNum a, VNum b, VNum c => Ok (VVector3D (mkVector3D a b c))
  | _, _, _ => Raise TypeError
  end.

Definition _convert_units (value : pyvalue)
    (convert : pyvalue -> result pyvalue) : result pyvalue :=
  match value with
  | VNone => Ok VNone
  | VPoint3D p =>
      (x ← convert (VNum (px p));
       y ← convert (VNum (py p));
       z ← convert (VNum (pz p));
       Point3D_create x y z)
  | VVector3D v =>
      (x ← convert (VNum (vx v));
       y ← convert (VNum (vy v));
       z ← convert (VNum (vz v));
       Vector3D_create x y z)
  | VTuple items => (ys ← rmap convert items; Ok (VTuple ys))
  | VList items => (ys ← rmap convert items; Ok (VList ys))
  | VNum _ => convert value
  end.

Definition _mm (cm_value : pyvalue) : result pyvalue :=
  _convert_units cm_value times10.

Definition _cm (mm_value : pyvalue) : result pyvalue :=
  _convert_units mm_value over10.

(** Reading a converted value back at the type the caller expects. *)
Definition as_num (r : result pyvalue) : result Q :=
  match r with
  | Ok (VNum q) => Ok q
  | Ok _ => Raise TypeError
  | Raise e => Raise e
  end.

Definition as_point (r : result pyvalue) : result Point3D :=
  match r with
  | Ok (VPoint3D p) => Ok p
  | Ok _ => Raise TypeError
  | Raise e => Raise e
  end.

Definition as_vector (r : result pyvalue) : result Vector3D :=
  match r with
  | Ok (VVector3D v) => Ok v
  | Ok _ => Raise TypeError
  | Raise e => Raise e
  end.

(** [seq[i]] on a Python sequence: negative indices count from the end. *)
Definition py_index {A} (xs : list A) (i : Z) : result A :=
  let n := Z.of_nat (List.length xs) in
  let j := if (i <? 0)%Z then (n + i)%Z else i in
  if ((0 <=? j)%Z && (j <? n)%Z)%bool then
    match nth_error xs (Z.to_nat j) with
    | Some x => Ok x
    | None => Raise IndexError
    end
  else Raise IndexError.

(** [collection.item(i)] of the host API: the null reference ([None]) when
    the index is out of range. *)
Definition item {A} (xs : list A) (i : nat) : option A := nth_error xs i.

(** ** Transforms ([adsk.core.Matrix3D])

    A matrix is kept as the expression that built it: the script only
    creates, overwrites, inverts and composes matrices and never reads an
    entry. *)

(** [math.radians(degrees)] *)
Inductive Angle : Type := radians (degrees : Q).

Inductive Matrix3D : Type :=
| Matrix3D_create
| with_translation (m : Matrix3D) (v : Vector3D)
| rotation (angle : Angle) (axis : Vector3D) (origin : Point3D)
| inverse (m : Matrix3D)
| compose (m by_ : Matrix3D).

(** [m.translation = v] *)
Definition set_translation (m : Matrix3D) (v : Vector3D) : Matrix3D :=
  with_translation m v.
(** [m.setToRotation(angle, axis, origin)] overwrites [m]. *)
Definition setToRotation (m : Matrix3D) (angle : Angle) (axis : Vector3D)
    (origin : Point3D) : Matrix3D :=
  rotation angle axis origin.
(** [m.invert()] *)
Definition invert (m : Matrix3D) : Matrix3D := inverse m.
(** [m.transformBy(other)] *)
Definition transformBy (m other : Matrix3D) : Matrix3D := compose m other.

(** ** The scene graph ([adsk.fusion]) *)

Inductive SurfaceTypes : Type :=
| PlaneSurfaceType
| CylinderSurfaceType
| ConeSurfaceType
| SphereSurfaceType
| TorusSurfaceType.

Definition SurfaceTypes_eqb (a b : SurfaceTypes) : bool :=
  match a, b with
  | PlaneSurfaceType, PlaneSurfaceType
  | CylinderSurfaceType, CylinderSurfaceType
  | ConeSurfaceType, ConeSurfaceType
  | SphereSurfaceType, SphereSurfaceType
  | TorusSurfaceType, TorusSurfaceType => true
  | _, _ => false
  end.

(** [face.geometry] *)
Record Surface : Type := mkSurface { surfaceType : SurfaceTypes; origin : Point3D }.

Record BRepFace : Type := mkBRepFace {
  face_id : nat;
  face_body : nat;       (* id of [face.body] *)
  geometry : Surface
}.

Record BRepBody : Type := mkBRepBody { body_id : nat; faces : list BRepFace }.

Inductive Curve3D : Type :=
| Line3D (startPoint endPoint : Point3D)
| Circle3D (center : Point3D) (radius : Q).

Record SketchCurve : Type := mkSketchCurve {
  curve_id : nat;
  worldGeometry : Curve3D
}.

Record Profile : Type := mkProfile { profile_id : nat }.

Record Sketch : Type := mkSketch {
  sketch_id : nat;
  sketch_name : string;
  profiles : list Profile;
  sketchCurves : list SketchCurve;
  referencePlane : nat;
  sketch_context : option nat  (* occurrence id of the assembly context *)
}.

(** An occurrence as the host presents it when it is read: the bodies and
    sketches of its component and its child occurrences, in host order.  The
    placement transform is mutable and lives in the [Design]. *)
#[warnings="-register-all"]
Inductive Occurrence : Type := mkOccurrence {
  occ_id : nat;
  occ_name : string;
  bRepBodies : list BRepBody;
  sketches : list Sketch;
  assemblyContext : option nat;
  isLightBulbOn : bool;
  childOccurrences : list Occurrence
}.

(** Induction over the tree of occurrences. *)
Section OccurrenceInduction.

Variable P : Occurrence -> Prop.
Hypothesis step :
  forall id name bodies sks context visible children,
    Forall P children ->
    P (mkOccurrence id name bodies sks context visible children).

Fixpoint Occurrence_tree_ind (occurrence : Occurrence) : P occurrence :=
  match occurrence with
  | mkOccurrence id name bodies sks context visible children =>
      step id name bodies sks context visible children
        ((fix all (cs : list Occurrence) : Forall P cs :=
            match cs with
            | [] => List.Forall_nil P
            | c :: cs0 => List.Forall_cons P c cs0 (Occurrence_tree_ind c) (all cs0)
            end) children)
  end.

End OccurrenceInduction.

Definition createForAssemblyContext (sketch : Sketch) (context : nat) : Sketch :=
  mkSketch (sketch_id sketch) (sketch_name sketch) (profiles sketch)
    (sketchCurves sketch) (referencePlane sketch) (Some context).

(** *** Traversal *)

Fixpoint _occurrence_bodies (occurrence : Occurrence) : list BRepBody :=
  let bodies := fold_left (fun bodies body => bodies ++ [body])
                  (bRepBodies occurrence) [] in
  fold_left
    (fun bodies child =>
       if isLightBulbOn child then bodies ++ _occurrence_bodies child
       else bodies)
    (childOccurrences occurrence) bodies.

Fixpoint _occurrence_sketches (occurrence : Occurrence) : list Sketch :=
  let sketches := fold_left
    (fun sketches sketch =>
       match assemblyContext occurrence with
       | Some context => sketches ++ [createForAssemblyContext sketch context]
       | None => sketches ++ [sketch]
       end)
    (sketches occurrence) [] in
  fold_left
    (fun sketches child =>
       if isLightBulbOn child then sketches ++ _occurrence_sketches child
       else sketches)
    (childOccurrences occurrence) sketches.

(** ** The geometry kernel

    Bodies made by [adsk.fusion.TemporaryBRepManager] are transient: they get
    ids only when they are added to a component. *)

Record TemporaryBody : Type := mkTemporaryBody {
  temp_faces : list Surface;
  temp_edges : list Curve3D
}.

(** What the measure manager is asked about. *)
Inductive AnyBody : Type :=
| Persistent (body : BRepBody)
| Temporary (body : TemporaryBody).

Inductive FeatureOperations : Type :=
| JoinFeatureOperation
| CutFeatureOperation
| IntersectFeatureOperation
| NewBodyFeatureOperation
| NewComponentFeatureOperation.

Record Kernel : Type := mkKernel {
  (* adsk.fusion.TemporaryBRepManager *)
  createSphere : Point3D -> Q -> result TemporaryBody;
  createCylinderOrCone : Point3D -> Q -> Point3D -> Q -> result TemporaryBody;
  createBox : OrientedBoundingBox3D -> result TemporaryBody;
  createWireFromCurves : list Curve3D -> result TemporaryBody;
  (* app().measureManager: depends on the current placements *)
  getOrientedBoundingBox :
    gmap nat Matrix3D -> AnyBody -> Vector3D -> Vector3D ->
    result OrientedBoundingBox3D;
  (* component.findBRepUsingPoint(point, BRepFaceEntityType) *)
  findBRepUsingPoint : list BRepBody -> Point3D -> list BRepFace;
  (* the bodies a feature produces *)
  extrude_result : list Profile -> Q -> result (list TemporaryBody);
  loft_result : list Profile -> result (list TemporaryBody);
  combine_result :
    FeatureOperations -> BRepBody -> list BRepBody -> result (list TemporaryBody);
  (* sketch.intersectWithSketchPlane(bodies) *)
  intersect_with_plane : nat -> list BRepBody -> result (list Curve3D)
}.

(** ** The active design *)

Inductive AttrText : Type :=
| Text (s : string)
| Uuid (u : nat).   (* [str(uuid)] of the uuid drawn as number [u] *)

Record Attribute : Type := mkAttribute {
  attr_entity : nat;
  attr_group : string;
  attr_name : AttrText;
  attr_value : AttrText
}.

Inductive TimelineItem : Type :=
| NewComponentItem (occurrence : nat)
| BaseFeatureItem (feature component : nat)
| BodyItem (body component feature : nat)
| SketchItem (sketch component plane : nat)
| ExtrudeFeatureItem (feature : nat) (input : list nat) (distance : Q)
| CombineFeatureItem (feature target : nat) (tools : list nat)
    (operation : FeatureOperations)
| LoftFeatureItem (feature : nat) (sections : list nat).

Definition item_feature (it : TimelineItem) : option nat :=
  match it with
  | BaseFeatureItem f _ | ExtrudeFeatureItem f _ _
  | CombineFeatureItem f _ _ _ | LoftFeatureItem f _ => Some f
  | NewComponentItem _ | BodyItem _ _ _ | SketchItem _ _ _ => None
  end.

Record Snapshot : Type := mkSnapshot { captured : gmap nat Matrix3D }.

Record Design : Type := mkDesign {
  timeline : list TimelineItem;
  transforms : gmap nat Matrix3D;
  snapshots : list Snapshot;
  attributes : list Attribute;
  next_id : nat
}.

(** *** State and exceptions *)

Definition M (A : Type) : Type := Design -> Design * result A.

Definition M_ret {A} (a : A) : M A := fun st => (st, Ok a).

Definition M_bind {A B} (m : M A) (k : A -> M B) : M B :=
  fun st =>
    match m st with
    | (st', Ok a) => k a st'
    | (st', Raise e) => (st', Raise e)
    end.

#[global] Instance M_mret : MRet M := fun _ a => M_ret a.
#[global] Instance M_mbind : MBind M := fun _ _ k m => M_bind m k.

Definition lift {A} (r : result A) : M A := fun st => (st, r).
Definition raise {A} (e : exn) : M A := fun st => (st, Raise e).

(** A [for] loop whose body may raise and may change the design. *)
Fixpoint for_each {A} (xs : list A) (body : A -> M unit) : M unit :=
  match xs with
  | [] => M_ret tt
  | x :: xs' => M_bind (body x) (fun _ => for_each xs' body)
  end.

(** A [for] loop that updates a local variable. *)
Fixpoint for_fold {A B} (xs : list A) (acc : B) (body : B -> A -> M B) : M B :=
  match xs with
  | [] => M_ret acc
  | x :: xs' => M_bind (body acc x) (fun acc' => for_fold xs' acc' body)
  end.

Fixpoint rfold_left {A B} (body : B -> A -> result B) (xs : list A) (acc : B)
    : result B :=
  match xs with
  | [] => Ok acc
  | x :: xs' => acc' ← body acc x; rfold_left body xs' acc'
  end.

(** Fresh ids: object ids of the host and the draws of [uuid.uuid4()]. *)
Definition fresh : M nat :=
  fun st =>
    (mkDesign (timeline st) (transforms st) (snapshots st) (attributes st)
       (S (next_id st)),
     Ok (next_id st)).

Definition record (it : TimelineItem) : M unit :=
  fun st =>
    (mkDesign (timeline st ++ [it]) (transforms st) (snapshots st)
       (attributes st) (next_id st),
     Ok tt).

(** [occurrence.transform] (the getter hands out a copy) *)
Definition get_transform (occurrence : Occurrence) : M Matrix3D :=
  fun st =>
    match transforms st !! occ_id occurrence with
    | Some m => (st, Ok m)
    | None => (st, Raise RuntimeError)
    end.

(** [occurrence.transform = m] *)
Definition set_transform (occurrence : Occurrence) (m : Matrix3D) : M unit :=
  fun st =>
    (mkDesign (timeline st) (<[occ_id occurrence := m]> (transforms st))
       (snapshots st) (attributes st) (next_id st),
     Ok tt).

(** [design().snapshots.add()] *)
Definition snapshots_add : M unit :=
  fun st =>
    (mkDesign (timeline st) (transforms st)
       (snapshots st ++ [mkSnapshot (transforms st)])
       (attributes st) (next_id st),
     Ok tt).

(** [entity.attributes.add(group, name, value)] *)
Definition attributes_add (entity : nat) (group : string)
    (name value : AttrText) : M unit :=
  fun st =>
    (mkDesign (timeline st) (transforms st) (snapshots st)
       (attributes st ++ [mkAttribute entity group name value]) (next_id st),
     Ok tt).

(** Removing a feature from the timeline ([deleteMe], [dissolve]). *)
Definition remove_feature (feature : nat) : M unit :=
  fun st =>
    (mkDesign
       (List.filter (fun it =>
                  match item_feature it with
                  | Some f => negb (Nat.eqb f feature)
                  | None => true
                  end) (timeline st))
       (transforms st) (snapshots st) (attributes st) (next_id st),
     Ok tt).

(** ** Bounding boxes *)

Definition _oriented_bounding_box_to_bounding_box
    (oriented : OrientedBoundingBox3D) : BoundingBox3D :=
  mkBoundingBox3D
    (mkPoint3D
       (px (centerPoint oriented) - obb_length oriented / 2)
       (py (centerPoint oriented) - obb_width oriented / 2)
       (pz (centerPoint oriented) - obb_height oriented / 2))
    (mkPoint3D
       (px (centerPoint oriented) + obb_length oriented / 2)
       (py (centerPoint oriented) + obb_width oriented / 2)
       (pz (centerPoint oriented) + obb_height oriented / 2)).

(** [box.combine(other)] of the host: the smallest box around both. *)
Definition combine (box other : BoundingBox3D) : BoundingBox3D :=
  mkBoundingBox3D
    (mkPoint3D
       (Qmin (px (minPoint box)) (px (minPoint other)))
       (Qmin (py (minPoint box)) (py (minPoint other)))
       (Qmin (pz (minPoint box)) (pz (minPoint other))))
    (mkPoint3D
       (Qmax (px (maxPoint box)) (px (maxPoint other)))
       (Qmax (py (maxPoint box)) (py (maxPoint other)))
       (Qmax (pz (maxPoint box)) (pz (maxPoint other)))).

Section WithKernel.

Variable kernel : Kernel.

Definition _sketch_to_wire_body (sketch : Sketch) : result TemporaryBody :=
  let curves := fold_left (fun curves curve => curves ++ [worldGeometry curve])
                  (sketchCurves sketch) [] in
  createWireFromCurves kernel curves.

Definition _get_exact_bounding_box (placements : gmap nat Matrix3D)
    (occurrence : Occurrence) : result (option BoundingBox3D) :=
  let vector1 := mkVector3D 1 0 0 in
  let vector2 := mkVector3D 0 1 0 in
  let bodies := map Persistent (_occurrence_bodies occurrence) in
  bodies ← rfold_left
    (fun bodies sketch =>
       wire ← _sketch_to_wire_body
                (createForAssemblyContext sketch (occ_id occurrence));
       Ok (bodies ++ [Temporary wire]))
    (_occurrence_sketches occurrence) bodies;
  rfold_left
    (fun bounding_box body =>
       oriented ← getOrientedBoundingBox kernel placements body vector1 vector2;
       let body_bounding_box := _oriented_bounding_box_to_bounding_box oriented in
       match bounding_box with
       | None => Ok (Some body_bounding_box)
       | Some bounding_box => Ok (Some (combine bounding_box body_bounding_box))
       end)
    bodies None.

(** ** Primitives *)

(** [root().occurrences.addNewComponent(transform)] *)
Definition addNewComponent (transform : Matrix3D) : M nat :=
  new_id ← fresh;
  _ ← (fun st =>
         (mkDesign (timeline st) (<[new_id := transform]> (transforms st))
            (snapshots st) (attributes st) (next_id st), Ok tt)) : M unit;
  _ ← record (NewComponentItem new_id);
  mret new_id.

(** [component.bRepBodies.add(body, base_feature)]: the transient body
    becomes a body of the component, with ids for itself and its faces. *)
Definition bRepBodies_add (component : nat) (body : TemporaryBody)
    (base_feature : nat) : M BRepBody :=
  new_body ← fresh;
  new_faces ← for_fold (temp_faces body) []
    (fun new_faces surface =>
       new_face ← fresh;
       mret (new_faces ++ [mkBRepFace new_face new_body surface]));
  _ ← record (BodyItem new_body component base_feature);
  mret (mkBRepBody new_body new_faces).

Definition _create_component (bodies : list TemporaryBody) (name : string)
    : M Occurrence :=
  new_occurrence ← addNewComponent Matrix3D_create;
  base_feature ← fresh;
  _ ← record (BaseFeatureItem base_feature new_occurrence);
  added ← for_fold bodies []
    (fun added body =>
       new_body ← bRepBodies_add new_occurrence body base_feature;
       mret (added ++ [new_body]));
  mret (mkOccurrence new_occurrence name added [] None true []).

Definition uuid4 : M nat := fresh.

Definition _mark_face (face : option BRepFace) (face_name : string) : M unit :=
  face_uuid ← uuid4;
  match face with
  | None => raise AttributeError
  | Some face =>
      _ ← attributes_add (face_id face) "fscad" (Text "id") (Uuid face_uuid);
      _ ← attributes_add (face_id face) "fscad" (Uuid face_uuid) (Uuid face_uuid);
      attributes_add (face_body face) "fscad" (Text face_name) (Uuid face_uuid)
  end.

(** [obj.attr] on a reference that may be null. *)
Definition deref {A} (obj : option A) : M A :=
  match obj with
  | Some a => mret a
  | None => raise AttributeError
  end.

(** A Python function that ends without [return] hands back [None]; the
    result of a primitive is therefore [option Occurrence]. *)
Definition sphere (radius : Q) (name : string) : M (option Occurrence) :=
  radius' ← lift (as_num (_cm (VNum radius)));
  sphere_body ← lift (createSphere kernel (mkPoint3D 0 0 0) radius');
  occurrence ← _create_component [sphere_body] name;
  body ← deref (item (bRepBodies occurrence) 0);
  _ ← _mark_face (item (faces body) 0) "surface";
  mret None.

Definition cylinder (height radius : Q) (radius2 : option Q) (name : string)
    : M (option Occurrence) :=
  let radius2 := match radius2 with Some r => VNum r | None => VNone end in
  converted ← lift (_cm (VTuple [VNum height; VNum radius; radius2]));
  match converted with
  | VTuple [height; radius; radius2] =>
      top ← lift (as_point (Point3D_create (VNum 0) (VNum 0) height));
      radius' ← lift (as_num (Ok radius));
      radius2' ← lift (as_num (Ok match radius2 with
                                  | VNone => radius
                                  | _ => radius2
                                  end));
      cylinder_body ← lift (createCylinderOrCone kernel (mkPoint3D 0 0 0)
                                radius' top radius2');
      occurrence ← _create_component [cylinder_body] name;
      body ← deref (item (bRepBodies occurrence) 0);
      _ ← for_each (faces body)
        (fun face =>
           if (SurfaceTypes_eqb (surfaceType (geometry face)) CylinderSurfaceType
               || SurfaceTypes_eqb (surfaceType (geometry face)) ConeSurfaceType)%bool
           then _mark_face (Some face) "side"
           else if Qeq_bool (pz (origin (geometry face))) 0
           then _mark_face (Some face) "bottom"
           else _mark_face (Some face) "top");
      mret None
  | _ => raise (ValueError "not enough values to unpack")
  end.

Definition box (x y z : Q) (name : string) : M (option Occurrence) :=
  converted ← lift (_cm (VTuple [VNum x; VNum y; VNum z]));
  match converted with
  | VTuple [VNum x; VNum y; VNum z] =>
      box_body ← lift (createBox kernel
        (mkOrientedBoundingBox3D
           (mkPoint3D (x / 2) (y / 2) (z / 2))
           (mkVector3D 1 0 0)
           (mkVector3D 0 1 0)
           x y z));
      occurrence ← _create_component [box_body] name;
      let _find_and_mark_face (face_name : string) (_x _y _z : Q) : M unit :=
        let face := findBRepUsingPoint kernel (bRepBodies occurrence)
                      (mkPoint3D _x _y _z) in
        _mark_face (item face 0) face_name in
      _ ← _find_and_mark_face "bottom" (x / 2) (y / 2) 0;
      _ ← _find_and_mark_face "top" (x / 2) (y / 2) z;
      _ ← _find_and_mark_face "left" 0 (y / 2) (z / 2);
      _ ← _find_and_mark_face "right" x (y / 2) (z / 2);
      _ ← _find_and_mark_face "front" (x / 2) 0 (z / 2);
      _ ← _find_and_mark_face "back" (x / 2) y (z / 2);
      mret (Some occurrence)
  | VTuple [_; _; _] => raise TypeError
  | _ => raise (ValueError "not enough values to unpack")
  end.

(** ** Features *)

Record Feature : Type := mkFeature {
  feature_id : nat;
  feature_bodies : list BRepBody;
  parentComponent : nat
}.

(** The root component is not an occurrence; it has the id [0]. *)
Definition root : nat := 0%nat.

(** What a script may hand to [union]. *)
Inductive Entity : Type :=
| SketchEntity (sketch : Sketch)
| OccurrenceEntity (occurrence : Occurrence).

(** Attribute access on an entity of the other kind is an [AttributeError]. *)
Definition the_sketch (entity : Entity) : M Sketch :=
  match entity with
  | SketchEntity sketch => mret sketch
  | OccurrenceEntity _ => raise AttributeError
  end.

Definition the_occurrence (entity : Entity) : M Occurrence :=
  match entity with
  | OccurrenceEntity occurrence => mret occurrence
  | SketchEntity _ => raise AttributeError
  end.

Definition _collection_of {A} (collection : list A) : list A :=
  fold_left (fun object_collection obj => object_collection ++ [obj])
    collection [].

(** The bodies a feature made become bodies of [component]. *)
Definition adopt_bodies (component feature : nat) (made : list TemporaryBody)
    : M (list BRepBody) :=
  for_fold made []
    (fun added body =>
       new_body ← bRepBodies_add component body feature;
       mret (added ++ [new_body])).

(** [loftSections.add(profile)]: the host rejects the null reference. *)
Definition loftSections_add (sections : list Profile) (profile : option Profile)
    : M (list Profile) :=
  match profile with
  | Some profile => mret (sections ++ [profile])
  | None => raise RuntimeError
  end.

Definition loft (sketches : list Sketch) : M Occurrence :=
  loft_input ← for_fold sketches []
    (fun loft_sections sketch =>
       if (1 <? List.length (profiles sketch))%nat then
         raise (ValueError
                  ("Sketch " ++ sketch_name sketch ++ " contains multiple profiles"))
       else loftSections_add loft_sections (item (profiles sketch) 0));
  (* root().features.loftFeatures.add(loft_input), as a new component *)
  made ← lift (loft_result kernel loft_input);
  feature ← fresh;
  new_occurrence ← addNewComponent Matrix3D_create;
  bodies ← adopt_bodies new_occurrence feature made;
  _ ← record (LoftFeatureItem feature (map profile_id loft_input));
  mret (mkOccurrence new_occurrence "" bodies [] None true []).

(** ** Transforms *)

Definition translate (occurrence : Occurrence) (x y z : Q) : M Occurrence :=
  if (Qeq_bool x 0 && Qeq_bool y 0 && Qeq_bool z 0)%bool then mret occurrence
  else
    let bodies_to_move := _collection_of (_occurrence_bodies occurrence) in
    let transform := Matrix3D_create in
    translation ← lift (as_vector (_cm (VVector3D (mkVector3D x y z))));
    let transform := set_translation transform translation in
    original_transform ← get_transform occurrence;
    let original_transform := transformBy original_transform transform in
    _ ← set_transform occurrence original_transform;
    _ ← snapshots_add;
    mret occurrence.

Definition rotate (occurrence : Occurrence) (x y z : Q)
    (center : option (Q * Q * Q)) : M Occurrence :=
  if (Qeq_bool x 0 && Qeq_bool y 0 && Qeq_bool z 0)%bool then mret occurrence
  else
    center ← match center with
             | None => mret (mkPoint3D 0 0 0)
             | Some (cx, cy, cz) =>
                 lift (as_point (_cm (VPoint3D (mkPoint3D cx cy cz))))
             end;
    let bodies_to_rotate := _collection_of (_occurrence_bodies occurrence) in
    let transform1 := Matrix3D_create in
    let transform1 :=
      setToRotation transform1 (radians x) (mkVector3D 1 0 0) center in
    let transform2 := Matrix3D_create in
    let transform2 :=
      setToRotation transform2 (radians y) (mkVector3D 0 1 0) center in
    let transform3 := Matrix3D_create in
    let transform3 :=
      setToRotation transform3 (radians z) (mkVector3D 0 0 1) center in
    let transform2 := invert transform2 in
    let transform3 := invert transform3 in
    let transform1 := transformBy transform1 transform2 in
    let transform1 := transformBy transform1 transform3 in
    transform ← get_transform occurrence;
    let transform := transformBy transform transform1 in
    _ ← set_transform occurrence transform;
    _ ← snapshots_add;
    mret occurrence.

(** ** Union *)

Definition _extrude (sketch : Entity) (amount : Q) : M Feature :=
  sketch ← the_sketch sketch;
  let profiles := _collection_of (profiles sketch) in
  height_value ← lift (as_num (_cm (VNum amount)));
  (* root().features.extrudeFeatures.add(extrude_input), as new bodies *)
  made ← lift (extrude_result kernel profiles height_value);
  feature ← fresh;
  bodies ← adopt_bodies root feature made;
  _ ← record (ExtrudeFeatureItem feature (map profile_id profiles) height_value);
  mret (mkFeature feature bodies root).

(** [combineFeatures.add(combine_input)] joining into a new component. *)
Definition combineFeatures_add (target : option BRepBody) (tools : list BRepBody)
    : M Feature :=
  match target with
  | None => raise RuntimeError
  | Some target =>
      made ← lift (combine_result kernel JoinFeatureOperation target tools);
      feature ← fresh;
      new_occurrence ← addNewComponent Matrix3D_create;
      bodies ← adopt_bodies new_occurrence feature made;
      _ ← record (CombineFeatureItem feature (body_id target)
                    (map body_id tools) JoinFeatureOperation);
      mret (mkFeature feature bodies new_occurrence)
  end.

(** [component.sketches.add(plane)] *)
Definition sketches_add (component plane : nat) : M Sketch :=
  new_sketch ← fresh;
  _ ← record (SketchItem new_sketch component plane);
  mret (mkSketch new_sketch "" [] [] plane None).

(** New sketch curves with the given geometry. *)
Definition add_curves (curves : list Curve3D) : M (list SketchCurve) :=
  for_fold curves []
    (fun added curve =>
       new_curve ← fresh;
       mret (added ++ [mkSketchCurve new_curve curve])).

(** [entity.deleteMe()] on a component or a body: its timeline entries go. *)
Definition delete_entity (entity : nat) : M unit :=
  fun st =>
    (mkDesign
       (List.filter (fun it =>
                       match it with
                       | NewComponentItem o => negb (Nat.eqb o entity)
                       | BodyItem b _ _ => negb (Nat.eqb b entity)
                       | _ => true
                       end) (timeline st))
       (transforms st) (snapshots st) (attributes st) (next_id st),
     Ok tt).

(** A local variable that is read before any assignment reached it. *)
Definition read_local {A} (variable : option A) : M A :=
  match variable with
  | Some a => mret a
  | None => raise UnboundLocalError
  end.

Definition _sketch_union (sketches : list Entity) (name : option string)
    : M Sketch :=
  '(intermediate_features, bodies) ← for_fold sketches ([], [])
    (fun '(intermediate_features, bodies) sketch =>
       extrude_feature ← _extrude sketch 1;
       mret (intermediate_features ++ [extrude_feature],
             fold_left (fun bodies body => bodies ++ [body])
               (feature_bodies extrude_feature) bodies));
  '(combine_feature, result_bodies) ←
    (if (1 <? List.length bodies)%nat then
       first ← lift (py_index bodies 0);
       combine_feature ← combineFeatures_add (Some first)
                           (_collection_of (List.tl bodies));
       mret (Some combine_feature,
             fold_left (fun result_bodies body => result_bodies ++ [body])
               (feature_bodies combine_feature) [])
     else
       first ← lift (py_index bodies 0);
       mret (None, [first])) : M (option Feature * list BRepBody);
  (* line 426: [combine_feature] is read whichever branch ran *)
  feature ← read_local combine_feature;
  first_sketch ← lift (py_index sketches 0);
  first_sketch ← the_sketch first_sketch;
  temp_sketch ← sketches_add (parentComponent feature)
                  (referencePlane first_sketch);
  new_sketch ← sketches_add root (referencePlane first_sketch);
  curves ← lift (intersect_with_plane kernel (referencePlane first_sketch)
                   result_bodies);
  temp_curves ← add_curves curves;
  copied ← add_curves (map worldGeometry (_collection_of temp_curves));
  _ ← remove_feature (feature_id feature);
  _ ← delete_entity (parentComponent feature);
  _ ← for_each intermediate_features
        (fun feature => remove_feature (feature_id feature));
  _ ← for_each bodies (fun body => delete_entity (body_id body));
  let new_name := match name with
                  | Some name => name
                  | None => sketch_name new_sketch
                  end in
  mret (mkSketch (sketch_id new_sketch) new_name [] copied
          (referencePlane new_sketch) None).

(** [occurrence.moveToComponent(target)] followed by
    [createForAssemblyContext(target)] and [isLightBulbOn = False]: the
    occurrence as a hidden child of [target]. *)
Definition moved_and_hidden (occurrence : Occurrence) (target : nat) : Occurrence :=
  mkOccurrence (occ_id occurrence) (occ_name occurrence)
    (bRepBodies occurrence) (sketches occurrence) (Some target) false
    (childOccurrences occurrence).

Definition _occurrence_union (occurrences : list Entity) (name : option string)
    : M Occurrence :=
  '(first_body, bodies) ← for_fold occurrences (None, [])
    (fun '(first_body, bodies) occurrence =>
       occurrence ← the_occurrence occurrence;
       mret (fold_left
               (fun '(first_body, bodies) body =>
                  match first_body with
                  | None => (Some body, bodies)
                  | Some _ => (first_body, bodies ++ [body])
                  end)
               (_occurrence_bodies occurrence) (first_body, bodies)));
  feature ← combineFeatures_add first_body bodies;
  let union_occurrence := parentComponent feature in
  children ← for_fold occurrences []
    (fun children occurrence =>
       occurrence ← the_occurrence occurrence;
       mret (children ++ [moved_and_hidden occurrence union_occurrence]));
  let new_name := match name with
                  | Some name => name
                  | None => ""
                  end in
  mret (mkOccurrence union_occurrence new_name (feature_bodies feature) []
          None true children).

Definition union (entities : list Entity) (name : option string) : M Entity :=
  match entities with
  | SketchEntity _ :: _ =>
      sketch ← _sketch_union entities name; mret (SketchEntity sketch)
  | _ =>
      occurrence ← _occurrence_union entities name;
      mret (OccurrenceEntity occurrence)
  end.

(** ** Placement *)

(** The argument of [minAt], [maxAt] and [midAt]: a number, or a function
    of the coordinate index. *)
Inductive PlacementValue : Type :=
| Constant (value : Q)
| Callable (value : Z -> result Q).

Definition _get_placement_value (value : PlacementValue) (coordinate_index : Z)
    : result Q :=
  match value with
  | Callable value =>
      v ← value coordinate_index; as_num (_cm (VNum v))
  | Constant value => as_num (_cm (VNum value))
  end.

(** A placement is called with the coordinate index and the bounding box;
    the box of an empty occurrence is [None]. *)
Definition Placement : Type := Z -> option BoundingBox3D -> result Q.

Definition attr {A B} (obj : option A) (field : A -> B) : result B :=
  match obj with
  | Some a => Ok (field a)
  | None => Raise AttributeError
  end.

Definition minAt (value : PlacementValue) : Placement :=
  fun coordinate_index bounding_box =>
    target ← _get_placement_value value coordinate_index;
    minPoint ← attr bounding_box minPoint;
    low ← py_index (asArray minPoint) coordinate_index;
    as_num (_mm (VNum (target - low))).

Definition maxAt (value : PlacementValue) : Placement :=
  fun coordinate_index bounding_box =>
    target ← _get_placement_value value coordinate_index;
    maxPoint ← attr bounding_box maxPoint;
    high ← py_index (asArray maxPoint) coordinate_index;
    as_num (_mm (VNum (target - high))).

Definition midAt (value : PlacementValue) : Placement :=
  fun coordinate_index bounding_box =>
    target ← _get_placement_value value coordinate_index;
    minPoint ← attr bounding_box minPoint;
    low ← py_index (asArray minPoint) coordinate_index;
    maxPoint ← attr bounding_box maxPoint;
    high ← py_index (asArray maxPoint) coordinate_index;
    as_num (_mm (VNum (target - (low + high) / 2))).

Definition keep : Placement := fun _ _ => Ok 0.

(** Calling an argument that may have been left at its default [None]. *)
Definition call (placement : option Placement) (coordinate_index : Z)
    (bounding_box : option BoundingBox3D) : M Q :=
  match placement with
  | Some placement => lift (placement coordinate_index bounding_box)
  | None => raise TypeError
  end.

Definition place (occurrence : Occurrence)
    (x_placement y_placement z_placement : option Placement) : M Occurrence :=
  bounding_box ← (fun st =>
    (st, _get_exact_bounding_box (transforms st) occurrence))
    : M (option BoundingBox3D);
  x ← call x_placement 0%Z bounding_box;
  y ← call y_placement 1%Z bounding_box;
  z ← call z_placement 2%Z bounding_box;
  _ ← translate occurrence x y z;
  mret occurrence.

End WithKernel.

(** ** Notions used by the statements *)

(** *** Unit conversion, as the specification words it

    [spec_scale f v] applies [f] to every numeric leaf of [v] and keeps the
    structure: [None] stays [None], a point stays a point, a sequence stays
    a sequence of the same length. *)

Definition scale_leaf (f : Q -> Q) (v : pyvalue) : pyvalue :=
  match v with
  | VNum q => VNum (f q)
  | other => other
  end.

Definition spec_scale (f : Q -> Q) (v : pyvalue) : pyvalue :=
  match v with
  | VNone => VNone
  | VNum q => VNum (f q)
  | VPoint3D p => VPoint3D (mkPoint3D (f (px p)) (f (py p)) (f (pz p)))
  | VVector3D v => VVector3D (mkVector3D (f (vx v)) (f (vy v)) (f (vz v)))
  | VTuple items => VTuple (map (scale_leaf f) items)
  | VList items => VList (map (scale_leaf f) items)
  end.

Definition toInternal_leaf (q : Q) : Q := q / 10.
Definition toDisplay_leaf (q : Q) : Q := q * 10.

Definition is_num (v : pyvalue) : bool :=
  match v with
  | VNum _ => true
  | _ => false
  end.

(** The values the conversion is specified for: [None], a scalar, a point,
    a vector, a tuple or list of two or three numbers. *)
Definition convertible (v : pyvalue) : bool :=
  match v with
  | VNone | VNum _ | VPoint3D _ | VVector3D _ => true
  | VTuple items | VList items =>
      forallb is_num items
      && (Nat.eqb (List.length items) 2 || Nat.eqb (List.length items) 3)
  end.

Inductive Shape : Type :=
| SNone
| SScalar
| SPoint
| SVector
| STuple (n : nat)
| SList (n : nat).

Definition shape (v : pyvalue) : Shape :=
  match v with
  | VNone => SNone
  | VNum _ => SScalar
  | VPoint3D _ => SPoint
  | VVector3D _ => SVector
  | VTuple items => STuple (List.length items)
  | VList items => SList (List.length items)
  end.

(** Equality of values up to the representation of the rationals. *)
Definition leaf_equiv (a b : pyvalue) : Prop :=
  match a, b with
  | VNum x, VNum y => x == y
  | _, _ => False
  end.

Definition value_equiv (a b : pyvalue) : Prop :=
  match a, b with
  | VNone, VNone => True
  | VNum x, VNum y => x == y
  | VPoint3D p, VPoint3D q => px p == px q /\ py p == py q /\ pz p == pz q
  | VVector3D u, VVector3D v => vx u == vx v /\ vy u == vy v /\ vz u == vz v
  | VTuple xs, VTuple ys => Forall2 leaf_equiv xs ys
  | VList xs, VList ys => Forall2 leaf_equiv xs ys
  | _, _ => False
  end.

(** *** Traversal *)

(** Every body in the subtree of an occurrence, hidden children included. *)
Fixpoint all_bodies (occurrence : Occurrence) : list BRepBody :=
  bRepBodies occurrence
  ++ flat_map all_bodies (childOccurrences occurrence).

(** The bodies that sit below a hidden occurrence somewhere in the subtree. *)
Fixpoint hidden_bodies (occurrence : Occurrence) : list BRepBody :=
  flat_map
    (fun child =>
       if isLightBulbOn child then hidden_bodies child else all_bodies child)
    (childOccurrences occurrence).

(** An occurrence that owns no body and no sketch, neither itself nor
    through its visible children. *)
Fixpoint owns_nothing (occurrence : Occurrence) : bool :=
  match bRepBodies occurrence, sketches occurrence with
  | [], [] =>
      forallb (fun child => negb (isLightBulbOn child) || owns_nothing child)
        (childOccurrences occurrence)
  | _, _ => false
  end.

(** *** Placement *)

(** The number a placement argument stands for at a coordinate index. *)
Definition placement_target (value : PlacementValue) (coordinate_index : Z)
    : result Q :=
  match value with
  | Constant value => Ok value
  | Callable value => value coordinate_index
  end.

(** [point.asArray()[i]] for [i] in 0, 1, 2. *)
Definition coordinate (p : Point3D) (i : Z) : Q :=
  if (i =? 0)%Z then px p else if (i =? 1)%Z then py p else pz p.

(** *** The error text of [loft] *)

Definition multiple_profiles_message (sketch : Sketch) : string :=
  "Sketch " ++ sketch_name sketch ++ " contains multiple profiles".

(** *** Transforms *)

(** The design after [occurrence.transform = placed] and
    [snapshots.add()]. *)
Definition moved (st : Design) (id : nat) (placed : Matrix3D) : Design :=
  mkDesign (timeline st) (<[id := placed]> (transforms st))
    (snapshots st ++ [mkSnapshot (<[id := placed]> (transforms st))])
    (attributes st) (next_id st).

(** The pivot of a rotation: the origin, or the centre in internal units. *)
Definition pivot_of (center : option (Q * Q * Q)) : Point3D :=
  match center with
  | None => mkPoint3D 0 0 0
  | Some (cx, cy, cz) => mkPoint3D (cx / 10) (cy / 10) (cz / 10)
  end.

(** *** Union and primitives *)

(** What the kernel makes of the extrusion of one argument of [union]. *)
Definition extruded (kernel : Kernel) (entity : Entity)
    : result (list TemporaryBody) :=
  match entity with
  | SketchEntity sketch => extrude_result kernel (profiles sketch) (1 / 10)
  | OccurrenceEntity _ => Raise AttributeError
  end.

(** The number of bodies that extrusion yields. *)
Definition extruded_count (kernel : Kernel) (entity : Entity) : nat :=
  match extruded kernel entity with
  | Ok made => List.length made
  | Raise _ => 0%nat
  end.

(** The points at which [box] looks for its six faces. *)
Definition box_face_points (x y z : Q) : list Point3D :=
  [mkPoint3D (x / 2) (y / 2) 0;
   mkPoint3D (x / 2) (y / 2) z;
   mkPoint3D 0 (y / 2) (z / 2);
   mkPoint3D x (y / 2) (z / 2);
   mkPoint3D (x / 2) 0 (z / 2);
   mkPoint3D (x / 2) y (z / 2)].

(** The oriented box handed to [createBox]. *)
Definition box_shape (x y z : Q) : OrientedBoundingBox3D :=
  mkOrientedBoundingBox3D (mkPoint3D (x / 2) (y / 2) (z / 2))
    (mkVector3D 1 0 0) (mkVector3D 0 1 0) x y z.

(** ** A small kernel and scene to run the definitions on *)

Definition plane_at (x y z : Q) : Surface :=
  mkSurface PlaneSurfaceType (mkPoint3D x y z).

Definition Point3D_eqb (p q : Point3D) : bool :=
  Qeq_bool (px p) (px q) && Qeq_bool (py p) (py q) && Qeq_bool (pz p) (pz q).

Definition example_kernel : Kernel := {|
  createSphere center radius :=
    Ok (mkTemporaryBody [mkSurface SphereSurfaceType center] []);
  createCylinderOrCone bottom radius top radius2 :=
    Ok (mkTemporaryBody
          [mkSurface (if Qeq_bool radius radius2 then CylinderSurfaceType
                      else ConeSurfaceType) bottom;
           mkSurface PlaneSurfaceType bottom;
           mkSurface PlaneSurfaceType top] []);
  createBox oriented :=
    let c := centerPoint oriented in
    let hx := obb_length oriented / 2 in
    let hy := obb_width oriented / 2 in
    let hz := obb_height oriented / 2 in
    Ok (mkTemporaryBody
          [plane_at (px c) (py c) (pz c - hz);
           plane_at (px c) (py c) (pz c + hz);
           plane_at (px c - hx) (py c) (pz c);
           plane_at (px c + hx) (py c) (pz c);
           plane_at (px c) (py c - hy) (pz c);
           plane_at (px c) (py c + hy) (pz c)] []);
  createWireFromCurves curves := Ok (mkTemporaryBody [] curves);
  getOrientedBoundingBox placements body vector1 vector2 :=
    Ok (mkOrientedBoundingBox3D (mkPoint3D 1 1 1) vector1 vector2 2 2 2);
  findBRepUsingPoint bodies point :=
    List.filter (fun face => Point3D_eqb (origin (geometry face)) point)
      (flat_map faces bodies);
  extrude_result input distance :=
    Ok (map (fun _ => mkTemporaryBody [] []) input);
  loft_result sections := Ok [mkTemporaryBody [] []];
  combine_result operation target tools := Ok [mkTemporaryBody [] []];
  intersect_with_plane plane bodies := Ok []
|}.

Definition empty_design : Design := mkDesign [] ∅ [] [] 1.

Definition example_body (n : nat) : BRepBody := mkBRepBody n [].

Definition leaf_occurrence (id : nat) (bodies : list BRepBody) (visible : bool)
    : Occurrence :=
  mkOccurrence id "Part" bodies [] None visible [].

(** A node with two bodies, a visible child and a hidden child. *)
Definition example_tree : Occurrence :=
  mkOccurrence 1 "Assembly" [example_body 10; example_body 11] [] None true
    [leaf_occurrence 2 [example_body 12] true;
     leaf_occurrence 3 [example_body 13] false].

(** A node without bodies and sketches. *)
Definition empty_occurrence : Occurrence := leaf_occurrence 1 [] true.

(** A design in which [example_tree] is placed. *)
Definition example_design : Design :=
  mkDesign [NewComponentItem 1] {[ 1%nat := Matrix3D_create ]} [] [] 20.

Definition example_profile (n : nat) : Profile := mkProfile n.

Definition example_sketch (name : string) (profiles : list Profile) : Sketch :=
  mkSketch 5 name profiles [] 0 None.

Definition example_box : BoundingBox3D :=
  mkBoundingBox3D (mkPoint3D 5 0 0) (mkPoint3D 7 1 1).

(** * Further functions of the module *)

Section Queries.

Variable kernel : Kernel.

(** ** Measures of a node, in display units *)

Definition minOf (placements : gmap nat Matrix3D) (occurrence : Occurrence)
    : result pyvalue :=
  bounding_box ← _get_exact_bounding_box kernel placements occurrence;
  corner ← attr bounding_box minPoint;
  _mm (VPoint3D corner).

Definition maxOf (placements : gmap nat Matrix3D) (occurrence : Occurrence)
    : result pyvalue :=
  bounding_box ← _get_exact_bounding_box kernel placements occurrence;
  corner ← attr bounding_box maxPoint;
  _mm (VPoint3D corner).

Definition midOf (placements : gmap nat Matrix3D) (occurrence : Occurrence)
    : result pyvalue :=
  bounding_box ← _get_exact_bounding_box kernel placements occurrence;
  low ← attr bounding_box minPoint;
  high ← attr bounding_box maxPoint;
  _mm (VPoint3D (mkPoint3D
         ((px low + px high) / 2)
         ((py low + py high) / 2)
         ((pz low + pz high) / 2))).

Definition sizeOf (placements : gmap nat Matrix3D) (occurrence : Occurrence)
    : result pyvalue :=
  bounding_box ← _get_exact_bounding_box kernel placements occurrence;
  high ← attr bounding_box maxPoint;
  _mm (VPoint3D (mkPoint3D
         (px high - px high)
         (py high - py high)
         (pz high - pz high))).

(** ** Anchors: functions of the coordinate index

    The bounding box is measured when the anchor is built; it is read when
    the anchor is called. *)

Definition atMin (placements : gmap nat Matrix3D) (entity : Occurrence)
    : result (Z -> result Q) :=
  bounding_box ← _get_exact_bounding_box kernel placements entity;
  Ok (fun coordinate_index =>
        corner ← attr bounding_box minPoint;
        low ← py_index (asArray corner) coordinate_index;
        as_num (_mm (VNum low))).

Definition atMax (placements : gmap nat Matrix3D) (entity : Occurrence)
    : result (Z -> result Q) :=
  bounding_box ← _get_exact_bounding_box kernel placements entity;
  Ok (fun coordinate_index =>
        corner ← attr bounding_box maxPoint;
        high ← py_index (asArray corner) coordinate_index;
        as_num (_mm (VNum high))).

Definition atMid (placements : gmap nat Matrix3D) (entity : Occurrence)
    : result (Z -> result Q) :=
  bounding_box ← _get_exact_bounding_box kernel placements entity;
  Ok (fun coordinate_index =>
        corner ← attr bounding_box minPoint;
        low ← py_index (asArray corner) coordinate_index;
        corner ← attr bounding_box maxPoint;
        high ← py_index (asArray corner) coordinate_index;
        as_num (_mm (VNum ((low + high) / 2)))).

End Queries.

(** ** One-axis moves *)

Definition tx (occurrence : Occurrence) (translation : Q) : M Occurrence :=
  translate occurrence translation 0 0.

Definition ty (occurrence : Occurrence) (translation : Q) : M Occurrence :=
  translate occurrence 0 translation 0.

Definition tz (occurrence : Occurrence) (translation : Q) : M Occurrence :=
  translate occurrence 0 0 translation.

Definition rx (occurrence : Occurrence) (angle : Q)
    (center : option (Q * Q * Q)) : M Occurrence :=
  rotate occurrence angle 0 0 center.

Definition ry (occurrence : Occurrence) (angle : Q)
    (center : option (Q * Q * Q)) : M Occurrence :=
  rotate occurrence 0 angle 0 center.

Definition rz (occurrence : Occurrence) (angle : Q)
    (center : option (Q * Q * Q)) : M Occurrence :=
  rotate occurrence 0 0 angle center.

(** ** Bringing two nodes into contact *)

(** The result of [measureManager.measureMinimumDistance]. *)
Record MeasureResults : Type := mkMeasureResults {
  positionOne : Point3D;
  positionTwo : Point3D
}.

Section Measuring.

(** [app().measureManager.measureMinimumDistance(one, two)], which depends
    on the current placements. *)
Variable measureMinimumDistance :
  gmap nat Matrix3D -> Occurrence -> Occurrence -> result MeasureResults.

(** [touching] ends without [return]. *)
Definition touching (anchor_occurrence target_occurrence : Occurrence)
    : M unit :=
  measure_result ← (fun st =>
    (st, measureMinimumDistance (transforms st) target_occurrence
           anchor_occurrence)) : M MeasureResults;
  dx ← lift (_mm (VNum (px (positionTwo measure_result)
                        - px (positionOne measure_result))));
  dy ← lift (_mm (VNum (py (positionTwo measure_result)
                        - py (positionOne measure_result))));
  dz ← lift (_mm (VNum (pz (positionTwo measure_result)
                        - pz (positionOne measure_result))));
  deltas ← lift (_mm (VTuple [dx; dy; dz]));
  match deltas with
  | VTuple [VNum x; VNum y; VNum z] =>
      _ ← translate target_occurrence x y z; mret tt
  | _ => raise TypeError
  end.

End Measuring.

(** ** Joiner: collect entities in a [with] block, join them on exit *)

Record Joiner : Type := mkJoiner {
  _entities : list Entity;
  _name : option string;
  _join_method : list Entity -> option string -> M Entity;
  _occurrence : option Entity   (* [None]: the attribute is not set *)
}.

Definition Joiner_init (join_method : list Entity -> option string -> M Entity)
    (name : option string) : Joiner :=
  mkJoiner [] name join_method None.

(** [__exit__(error_type, value, trace)]; [error_type] is [None] when the
    block ended without an exception.  The method returns [None], so an
    exception of the block is raised again by the [with] statement. *)
Definition Joiner_exit (self : Joiner) (error_type : option exn) : M Joiner :=
  match error_type with
  | None =>
      occurrence ← _join_method self (_entities self) (_name self);
      mret (mkJoiner (_entities self) (_name self) (_join_method self)
              (Some occurrence))
  | Some _ => mret self
  end.

(** [joiner(entity)] *)
Definition Joiner_call (self : Joiner) (entity : Entity) : Joiner * Entity :=
  (mkJoiner (_entities self ++ [entity]) (_name self) (_join_method self)
     (_occurrence self),
   entity).

Definition Joiner_result (self : Joiner) : result Entity :=
  match _occurrence self with
  | Some occurrence => Ok occurrence
  | None => Raise AttributeError
  end.

(** [with Joiner(join_method, name) as join: block]: the block is a
    computation over the joiner; the joiner after the statement is returned
    when the block and the join went through. *)
Definition with_Joiner
    (join_method : list Entity -> option string -> M Entity)
    (name : option string) (block : Joiner -> M Joiner) : M Joiner :=
  fun st =>
    let self := Joiner_init join_method name in
    match block self st with
    | (st', Ok self') => Joiner_exit self' None st'
    | (st', Raise e) =>
        match Joiner_exit self (Some e) st' with
        | (st'', Ok _) => (st'', Raise e)
        | (st'', Raise e') => (st'', Raise e')
        end
    end.

(** A block that only registers entities, in order. *)
Definition register_all (entities : list Entity) (self : Joiner) : M Joiner :=
  mret (fold_left (fun self entity => fst (Joiner_call self entity))
          entities self).

(** ** Profiles through a curve *)

Section Profiles.

(** Host data: the sketch a curve belongs to, and for every profile its
    loops, each the list of the sketch curves its profile curves lie on
    ([profileCurve.sketchEntity]). *)
Variable parentSketch : SketchCurve -> Sketch.
Variable profileLoops : Profile -> list (list SketchCurve).

Definition same_entity (a b : SketchCurve) : bool :=
  Nat.eqb (curve_id a) (curve_id b).

(** The innermost loop: [true] when it ended by [break]. *)
Fixpoint curve_loop (contained_curve : SketchCurve)
    (profile_curves : list SketchCurve) : bool :=
  match profile_curves with
  | [] => false
  | profileCurve :: rest =>
      if same_entity profileCurve contained_curve then true
      else curve_loop contained_curve rest
  end.

(** The loop over the loops of one profile: [for ... else: continue; break]
    leaves it after the first loop that holds the curve. *)
Fixpoint loops_loop (contained_curve : SketchCurve) (profile : Profile)
    (loops : list (list SketchCurve)) (ret : list Profile) : list Profile :=
  match loops with
  | [] => ret
  | loop :: rest =>
      if curve_loop contained_curve loop then ret ++ [profile]
      else loops_loop contained_curve profile rest ret
  end.

Definition _find_profiles (contained_curve : SketchCurve) : list Profile :=
  let sketch := parentSketch contained_curve in
  fold_left
    (fun ret profile =>
       loops_loop contained_curve profile (profileLoops profile) ret)
    (profiles sketch) [].

End Profiles.

(** ** Notions used by the statements about these functions *)

(** A value whose elements, if it is a tuple or a list, are all numbers. *)
Definition all_numbers (v : pyvalue) : bool :=
  match v with
  | VTuple items | VList items => forallb is_num items
  | _ => true
  end.

Definition is_sequence (v : pyvalue) : bool :=
  match v with
  | VTuple _ | VList _ => true
  | _ => false
  end.

(** A profile one of whose loops runs along the curve. *)
Definition runs_along (profileLoops : Profile -> list (list SketchCurve))
    (contained_curve : SketchCurve) (profile : Profile) : bool :=
  existsb (existsb (fun c => same_entity c contained_curve))
    (profileLoops profile).

(** How many of three amounts are not zero. *)
Definition nonzero_count (x y z : Q) : nat :=
  ((if Qeq_bool x 0 then 0 else 1)
   + (if Qeq_bool y 0 then 0 else 1)
   + (if Qeq_bool z 0 then 0 else 1))%nat.

(** *** Anchored placement *)

(** The three anchors of a box along an axis. *)
Inductive Anchor : Type :=
| AtMin
| AtMax
| AtMid.

(** [minAt], [maxAt] or [midAt], by anchor. *)
Definition anchor_placement (anchor : Anchor) (value : PlacementValue)
    : Placement :=
  match anchor with
  | AtMin => minAt value
  | AtMax => maxAt value
  | AtMid => midAt value
  end.


(** The coordinate of an anchor of a box, in the units of the box. *)
Definition anchor_coordinate (anchor : Anchor) (b : BoundingBox3D) (i : Z) : Q :=
  match anchor with
  | AtMin => coordinate (minPoint b) i
  | AtMax => coordinate (maxPoint b) i
  | AtMid => (coordinate (minPoint b) i + coordinate (maxPoint b) i) / 2
  end.

(** *** Grouping and joining *)

(** A sequence seen as its first element and the rest, the way
    [_occurrence_union] keeps the bodies it collects. *)
Definition split_first {A} (xs : list A) : option A * list A :=
  match xs with
  | [] => (None, [])
  | x :: rest => (Some x, rest)
  end.

(** The visible bodies of several nodes, node after node. *)
Definition visible_bodies (occurrences : list Occurrence) : list BRepBody :=
  flat_map _occurrence_bodies occurrences.

(** [occurrence.moveToComponent(target)]: the occurrence as a child of
    [target], as visible as it was. *)
Definition moved_into (occurrence : Occurrence) (target : nat) : Occurrence :=
  mkOccurrence (occ_id occurrence) (occ_name occurrence)
    (bRepBodies occurrence) (sketches occurrence) (Some target)
    (isLightBulbOn occurrence) (childOccurrences occurrence).

Definition component (occurrences : list Occurrence) (name : string)
    : M Occurrence :=
  new_occurrence ← addNewComponent Matrix3D_create;
  moved ← for_fold occurrences []
    (fun moved occurrence =>
       mret (moved ++ [moved_into occurrence new_occurrence]));
  mret (mkOccurrence new_occurrence name [] [] None true moved).

(** ** Intersection and difference *)

Definition _get_parent_component (occurrence : Occurrence) : nat :=
  match assemblyContext occurrence with
  | None => root
  | Some context => context
  end.

(** [name or fallback]: the empty string counts as no name. *)
Definition name_or (name : option string) (fallback : string) : string :=
  match name with
  | Some name => if String.eqb name "" then fallback else name
  | None => fallback
  end.

Section Booleans.

Variable kernel : Kernel.

(** [body.copyToComponent(occurrence)]: a body with the same faces and ids
    of its own. *)
Definition copyToComponent (body : BRepBody) (component : nat) : M BRepBody :=
  feature ← fresh;
  bRepBodies_add component (mkTemporaryBody (map geometry (faces body)) [])
    feature.

(** [component.features.combineFeatures.add(combine_input)] with the tool
    bodies kept: the bodies the target body turns into. *)
Definition combine_in_place (component : nat) (operation : FeatureOperations)
    (target : BRepBody) (tools : list BRepBody) : M (list BRepBody) :=
  made ← lift (combine_result kernel operation target tools);
  feature ← fresh;
  bodies ← adopt_bodies component feature made;
  _ ← record (CombineFeatureItem feature (body_id target) (map body_id tools)
                operation);
  mret bodies.

(** The target is given by its component and the bodies the host lists for
    it when the function is entered; the bodies it has afterwards are
    returned. *)
Definition _do_intersection (target_component : nat)
    (target_bodies : list BRepBody) (tool_occurrence : Occurrence)
    : M (list BRepBody) :=
  let tool_bodies := _collection_of (_occurrence_bodies tool_occurrence) in
  for_fold target_bodies []
    (fun bodies target_body =>
       made ← combine_in_place target_component IntersectFeatureOperation
                target_body tool_bodies;
       mret (bodies ++ made)).

Definition _do_difference (target_component : nat)
    (target_bodies : list BRepBody) (tool_occurrence : Occurrence)
    : M (list BRepBody) :=
  let tool_bodies := fold_left (fun tool_bodies tool_body =>
                                  tool_bodies ++ [tool_body])
                       (_occurrence_bodies tool_occurrence) [] in
  for_fold target_bodies []
    (fun bodies target_body =>
       made ← combine_in_place target_component CutFeatureOperation
                target_body tool_bodies;
       mret (bodies ++ made)).

Definition intersection (occurrences : list Occurrence) (name : option string)
    : M Occurrence :=
  base_occurrence ← lift (py_index occurrences 0);
  result_occurrence ← addNewComponent Matrix3D_create;
  let result_name := name_or name (occ_name base_occurrence) in
  bodies ← for_fold (_occurrence_bodies base_occurrence) []
    (fun bodies body =>
       copy ← copyToComponent body result_occurrence;
       mret (bodies ++ [copy]));
  bodies ← for_fold (List.tl occurrences) bodies
    (fun bodies tool_occurrence =>
       _do_intersection result_occurrence bodies tool_occurrence);
  children ← for_fold occurrences []
    (fun children occurrence =>
       mret (children ++ [moved_and_hidden occurrence result_occurrence]));
  mret (mkOccurrence result_occurrence result_name bodies []
          (assemblyContext base_occurrence) true children).

Definition difference (occurrences : list Occurrence) (name : option string)
    : M Occurrence :=
  base_occurrence ← lift (py_index occurrences 0);
  result_occurrence ← addNewComponent Matrix3D_create;
  let result_name := name_or name (occ_name base_occurrence) in
  bodies ← for_fold (_occurrence_bodies base_occurrence) []
    (fun bodies body =>
       copy ← copyToComponent body result_occurrence;
       mret (bodies ++ [copy]));
  bodies ← for_fold (List.tl occurrences) bodies
    (fun bodies tool_occurrence =>
       _do_difference result_occurrence bodies tool_occurrence);
  children ← for_fold occurrences []
    (fun children occurrence =>
       mret (children ++ [moved_and_hidden occurrence result_occurrence]));
  mret (mkOccurrence result_occurrence result_name bodies []
          (assemblyContext base_occurrence) true children).

End Booleans.

(** ** Duplicating a node *)

(** [component.occurrences.addExistingComponent(component, transform)]: a
    further occurrence of the component of [occurrence], below [parent]. *)
Definition addExistingComponent (parent : nat) (occurrence : Occurrence)
    (transform : Matrix3D) : M Occurrence :=
  new_id ← fresh;
  _ ← (fun st =>
         (mkDesign (timeline st) (<[new_id := transform]> (transforms st))
            (snapshots st) (attributes st) (next_id st), Ok tt)) : M unit;
  mret (mkOccurrence new_id (occ_name occurrence) (bRepBodies occurrence)
          (sketches occurrence) (Some parent) true
          (childOccurrences occurrence)).

(** [func] is called for its effect; [values] may hold anything [func]
    takes. *)
Definition duplicate {V R} (func : Occurrence -> V -> M R) (values : list V)
    (occurrence : Occurrence) : M Occurrence :=
  result_occurrence ← addNewComponent Matrix3D_create;
  let occurrence := moved_into occurrence result_occurrence in
  first ← lift (py_index values 0);
  _ ← func occurrence first;
  copies ← for_fold (List.tl values) []
    (fun copies value =>
       duplicate_occurrence ← addExistingComponent result_occurrence occurrence
                                Matrix3D_create;
       _ ← func duplicate_occurrence value;
       mret (copies ++ [duplicate_occurrence]));
  mret (mkOccurrence result_occurrence (occ_name occurrence) [] [] None true
          (occurrence :: copies)).

(** *** Enclosure of boxes *)

(** [outer] reaches at least as far as [inner] on every axis, both ways. *)
Definition encloses (outer inner : BoundingBox3D) : Prop :=
  (px (minPoint outer) <= px (minPoint inner)
   /\ py (minPoint outer) <= py (minPoint inner)
   /\ pz (minPoint outer) <= pz (minPoint inner))
  /\ (px (maxPoint inner) <= px (maxPoint outer)
      /\ py (maxPoint inner) <= py (maxPoint outer)
      /\ pz (maxPoint inner) <= pz (maxPoint outer)).

(** The measurement that [_get_exact_bounding_box] asks of the kernel. *)
Definition measure_along_world_axes (kernel : Kernel)
    (placements : gmap nat Matrix3D) (body : AnyBody)
    : result OrientedBoundingBox3D :=
  getOrientedBoundingBox kernel placements body (mkVector3D 1 0 0)
    (mkVector3D 0 1 0).

(** The wire body of a sketch of the node, taken in the context of the
    node. *)
Definition wire_in_context (kernel : Kernel) (occurrence : Occurrence)
    (sketch : Sketch) : result TemporaryBody :=
  _sketch_to_wire_body kernel
    (createForAssemblyContext sketch (occ_id occurrence)).

(** *** Extrude features in the timeline *)

Definition is_extrusion (it : TimelineItem) : bool :=
  match it with
  | ExtrudeFeatureItem _ _ _ => true
  | _ => false
  end.

(** The number of extrude features in the timeline of the design. *)
Definition extrusions (st : Design) : nat :=
  List.length (List.filter is_extrusion (timeline st)).

(** A kernel like [example_kernel] whose box is open at the top: the body
    has no face above. *)
Definition lidless_kernel : Kernel := {|
  createSphere := createSphere example_kernel;
  createCylinderOrCone := createCylinderOrCone example_kernel;
  createBox oriented :=
    let c := centerPoint oriented in
    let hx := obb_length oriented / 2 in
    let hy := obb_width oriented / 2 in
    let hz := obb_height oriented / 2 in
    Ok (mkTemporaryBody
          [plane_at (px c) (py c) (pz c - hz);
           plane_at (px c - hx) (py c) (pz c);
           plane_at (px c + hx) (py c) (pz c);
           plane_at (px c) (py c - hy) (pz c);
           plane_at (px c) (py c + hy) (pz c)] []);
  createWireFromCurves := createWireFromCurves example_kernel;
  getOrientedBoundingBox := getOrientedBoundingBox example_kernel;
  findBRepUsingPoint := findBRepUsingPoint example_kernel;
  extrude_result := extrude_result example_kernel;
  loft_result := loft_result example_kernel;
  combine_result := combine_result example_kernel;
  intersect_with_plane := intersect_with_plane example_kernel
|}.

(** * Properties *)

(** ** Unit conversion *)

Lemma rmap_over10_numbers (items : list pyvalue) :
  forallb is_num items = true ->
  rmap over10 items = Ok (map (scale_leaf toInternal_leaf) items).
Proof.
  induction items as [|v items IH]; intros Hnum; [reflexivity|].
  simpl in Hnum. apply andb_prop in Hnum as [Hv Hrest].
  destruct v; try discriminate Hv.
  simpl. rewrite (IH Hrest). reflexivity.
Qed.

Lemma rmap_times10_numbers (items : list pyvalue) :
  forallb is_num items = true ->
  rmap times10 items = Ok (map (scale_leaf toDisplay_leaf) items).
Proof.
  induction items as [|v items IH]; intros Hnum; [reflexivity|].
  simpl in Hnum. apply andb_prop in Hnum as [Hv Hrest].
  destruct v; try discriminate Hv.
  simpl. rewrite (IH Hrest). reflexivity.
Qed.

Lemma scale_leaf_numbers (f : Q -> Q) (items : list pyvalue) :
  forallb is_num items = true ->
  forallb is_num (map (scale_leaf f) items) = true.
Proof.
  induction items as [|v items IH]; intros Hnum; [reflexivity|].
  simpl in Hnum. apply andb_prop in Hnum as [Hv Hrest].
  destruct v; try discriminate Hv.
  simpl. auto.
Qed.

Lemma convertible_scale (f : Q -> Q) (v : pyvalue) :
  convertible v = true -> convertible (spec_scale f v) = true.
Proof.
  destruct v; simpl; auto; intros H; apply andb_prop in H as [Hnum Hlen];
    rewrite (scale_leaf_numbers f _ Hnum), length_map; exact Hlen.
Qed.

Lemma _cm_convertible (v : pyvalue) :
  convertible v = true -> _cm v = Ok (spec_scale toInternal_leaf v).
Proof.
  destruct v; simpl; intros H; try reflexivity;
    apply andb_prop in H as [Hnum _];
    unfold _cm; simpl; rewrite (rmap_over10_numbers _ Hnum); reflexivity.
Qed.

Lemma _mm_convertible (v : pyvalue) :
  convertible v = true -> _mm v = Ok (spec_scale toDisplay_leaf v).
Proof.
  destruct v; simpl; intros H; try reflexivity;
    apply andb_prop in H as [Hnum _];
    unfold _mm; simpl; rewrite (rmap_times10_numbers _ Hnum); reflexivity.
Qed.

Lemma shape_scale (f : Q -> Q) (v : pyvalue) : shape (spec_scale f v) = shape v.
Proof. destruct v; simpl; try reflexivity; now rewrite length_map. Qed.

Lemma display_of_internal (q : Q) : toDisplay_leaf (toInternal_leaf q) == q.
Proof. unfold toDisplay_leaf, toInternal_leaf. field. Qed.

Lemma internal_of_display (q : Q) : toInternal_leaf (toDisplay_leaf q) == q.
Proof. unfold toDisplay_leaf, toInternal_leaf. field. Qed.

Lemma leaves_round_trip (f g : Q -> Q) (items : list pyvalue) :
  (forall q, g (f q) == q) ->
  forallb is_num items = true ->
  Forall2 leaf_equiv (map (scale_leaf g) (map (scale_leaf f) items)) items.
Proof.
  intros Hgf. induction items as [|v items IH]; intros Hnum; [constructor|].
  simpl in Hnum. apply andb_prop in Hnum as [Hv Hrest].
  destruct v; try discriminate Hv.
  simpl. constructor; [apply Hgf | apply IH, Hrest].
Qed.

Lemma scale_round_trip (f g : Q -> Q) (v : pyvalue) :
  (forall q, g (f q) == q) ->
  convertible v = true ->
  value_equiv (spec_scale g (spec_scale f v)) v.
Proof.
  intros Hgf. destruct v; simpl; intros H; auto;
    apply andb_prop in H as [Hnum _]; now apply leaves_round_trip.
Qed.

(** C4. On [None], a scalar, a point, a vector and a tuple or list of two
    or three numbers, [_cm] (display to internal) divides every numeric
    leaf by 10 and [_mm] (internal to display) multiplies it by 10, both
    keep the structure of the value, [None] is passed through, and the two
    conversions undo each other in either order. *)
Theorem unit_conversion_round_trip (v : pyvalue) :
  convertible v = true ->
  _cm v = Ok (spec_scale toInternal_leaf v)
  /\ _mm v = Ok (spec_scale toDisplay_leaf v)
  /\ shape (spec_scale toInternal_leaf v) = shape v
  /\ shape (spec_scale toDisplay_leaf v) = shape v
  /\ (exists back, rbind (_cm v) _mm = Ok back /\ value_equiv back v)
  /\ (exists back, rbind (_mm v) _cm = Ok back /\ value_equiv back v)
  /\ _cm VNone = Ok VNone
  /\ _mm VNone = Ok VNone.
Proof.
  intros H.
  split; [now apply _cm_convertible|].
  split; [now apply _mm_convertible|].
  split; [apply shape_scale|].
  split; [apply shape_scale|].
  split; [|split; [|split; reflexivity]].
  - exists (spec_scale toDisplay_leaf (spec_scale toInternal_leaf v)).
    rewrite (_cm_convertible v H). simpl.
    rewrite (_mm_convertible _ (convertible_scale _ v H)).
    split; [reflexivity|].
    apply scale_round_trip; [apply display_of_internal | exact H].
  - exists (spec_scale toInternal_leaf (spec_scale toDisplay_leaf v)).
    rewrite (_mm_convertible v H). simpl.
    rewrite (_cm_convertible _ (convertible_scale _ v H)).
    split; [reflexivity|].
    apply scale_round_trip; [apply internal_of_display | exact H].
Qed.

Lemma unit_conversion_round_trip_witness :
  convertible (VTuple [VNum 10; VNum 25; VNum (1 # 3)]) = true
  /\ _cm (VTuple [VNum 10; VNum 25; VNum (1 # 3)])
     = Ok (spec_scale toInternal_leaf (VTuple [VNum 10; VNum 25; VNum (1 # 3)])).
Proof.
  split; [reflexivity|].
  apply (unit_conversion_round_trip (VTuple [VNum 10; VNum 25; VNum (1 # 3)])).
  reflexivity.
Defined.

(** ** Traversal *)

Lemma append_loop {A} (xs acc : list A) :
  fold_left (fun acc x => acc ++ [x]) xs acc = acc ++ xs.
Proof.
  revert acc. induction xs as [|x xs IH]; intros acc; simpl.
  - now rewrite app_nil_r.
  - rewrite IH, <- app_assoc. reflexivity.
Qed.

Lemma extend_visible_loop {A} (collect : Occurrence -> list A)
    (children : list Occurrence) (acc : list A) :
  fold_left
    (fun acc child => if isLightBulbOn child then acc ++ collect child else acc)
    children acc
  = acc ++ flat_map collect (List.filter isLightBulbOn children).
Proof.
  revert acc. induction children as [|c cs IH]; intros acc; simpl.
  - now rewrite app_nil_r.
  - rewrite IH. destruct (isLightBulbOn c); simpl; [|reflexivity].
    now rewrite <- app_assoc.
Qed.

Lemma _occurrence_bodies_eq (occurrence : Occurrence) :
  _occurrence_bodies occurrence
  = bRepBodies occurrence
    ++ flat_map _occurrence_bodies
         (List.filter isLightBulbOn (childOccurrences occurrence)).
Proof.
  destruct occurrence as [id name bodies sks context visible children].
  simpl. rewrite append_loop. simpl. apply extend_visible_loop.
Qed.

Lemma append_map_loop {A B} (g : A -> B) (xs : list A) (acc : list B) :
  fold_left (fun acc x => acc ++ [g x]) xs acc = acc ++ map g xs.
Proof.
  revert acc. induction xs as [|x xs IH]; intros acc; simpl.
  - now rewrite app_nil_r.
  - rewrite IH, <- app_assoc. reflexivity.
Qed.

Lemma _occurrence_sketches_eq (occurrence : Occurrence) :
  _occurrence_sketches occurrence
  = map (fun sketch =>
           match assemblyContext occurrence with
           | Some context => createForAssemblyContext sketch context
           | None => sketch
           end) (sketches occurrence)
    ++ flat_map _occurrence_sketches
         (List.filter isLightBulbOn (childOccurrences occurrence)).
Proof.
  destruct occurrence as [id name bodies sks context visible children].
  simpl. rewrite extend_visible_loop. f_equal.
  destruct context as [c|].
  - apply (append_map_loop (fun sk => createForAssemblyContext sk c)).
  - rewrite (append_map_loop (fun sk => sk)). reflexivity.
Qed.

Lemma flat_map_filter {A B} (p : A -> bool) (f : A -> list B) (xs : list A) :
  flat_map f (List.filter p xs)
  = flat_map (fun x => if p x then f x else []) xs.
Proof.
  induction xs as [|x xs IH]; simpl; [reflexivity|].
  destruct (p x); simpl; now rewrite IH.
Qed.

Lemma _occurrence_bodies_in_all (occurrence : Occurrence) (body : BRepBody) :
  In body (_occurrence_bodies occurrence) -> In body (all_bodies occurrence).
Proof.
  revert body. induction occurrence as
    [id name bodies sks context visible children IH] using Occurrence_tree_ind.
  intros body. rewrite _occurrence_bodies_eq. simpl.
  rewrite !in_app_iff, !in_flat_map. intros [Hown | (c & Hc & Hb)].
  - now left.
  - right. apply List.filter_In in Hc as [Hc _]. exists c. split; [exact Hc|].
    rewrite List.Forall_forall in IH. now apply IH.
Qed.

Lemma hidden_bodies_in_all (occurrence : Occurrence) (body : BRepBody) :
  In body (hidden_bodies occurrence) -> In body (all_bodies occurrence).
Proof.
  revert body. induction occurrence as
    [id name bodies sks context visible children IH] using Occurrence_tree_ind.
  intros body. simpl.
  rewrite in_app_iff, !in_flat_map. intros (c & Hc & Hb).
  right. exists c. split; [exact Hc|].
  rewrite List.Forall_forall in IH.
  destruct (isLightBulbOn c); [now apply IH | exact Hb].
Qed.

Lemma NoDup_app_disjoint {A} (xs ys : list A) (a : A) :
  List.NoDup (xs ++ ys) -> In a xs -> In a ys -> False.
Proof.
  induction xs as [|x xs IH]; simpl; intros Hnd Hx Hy; [easy|].
  inversion Hnd as [|? ? Hnotin Hnd']; subst.
  destruct Hx as [-> | Hx].
  - apply Hnotin, in_or_app. now right.
  - now apply IH.
Qed.

Lemma NoDup_app_left {A} (xs ys : list A) :
  List.NoDup (xs ++ ys) -> List.NoDup xs.
Proof.
  induction xs as [|x xs IH]; simpl; intros Hnd; [constructor|].
  inversion Hnd as [|? ? Hnotin Hnd']; subst.
  constructor; [|now apply IH].
  intros Hin. apply Hnotin, in_or_app. now left.
Qed.

Lemma NoDup_app_right {A} (xs ys : list A) :
  List.NoDup (xs ++ ys) -> List.NoDup ys.
Proof.
  induction xs as [|x xs IH]; simpl; intros Hnd; [exact Hnd|].
  inversion Hnd; subst. now apply IH.
Qed.

(** Two selections out of the parts of a duplicate-free concatenation meet
    only inside one part. *)
Lemma disjoint_selections {A B} (whole left right : A -> list B)
    (xs : list A) (b : B) :
  List.NoDup (flat_map whole xs) ->
  (forall x b, In b (left x) -> In b (whole x)) ->
  (forall x b, In b (right x) -> In b (whole x)) ->
  List.Forall (fun x => List.NoDup (whole x) ->
                 In b (left x) -> In b (right x) -> False) xs ->
  In b (flat_map left xs) -> In b (flat_map right xs) -> False.
Proof.
  intros Hnd Hleft Hright Hparts.
  induction Hparts as [|x xs Hx Hparts IH]; simpl in *; [easy|].
  rewrite !in_app_iff. intros [Hl | Hl] [Hr | Hr].
  - eapply Hx; eauto using NoDup_app_left.
  - eapply (NoDup_app_disjoint _ _ b Hnd); [now apply Hleft|].
    apply in_flat_map in Hr as (y & Hy & Hr). apply in_flat_map.
    exists y; split; [exact Hy | now apply Hright].
  - eapply (NoDup_app_disjoint _ _ b Hnd); [now apply Hright|].
    apply in_flat_map in Hl as (y & Hy & Hl). apply in_flat_map.
    exists y; split; [exact Hy | now apply Hleft].
  - apply IH; eauto using NoDup_app_right.
Qed.

Lemma hidden_bodies_not_collected (occurrence : Occurrence) :
  List.NoDup (all_bodies occurrence) ->
  forall body,
    In body (hidden_bodies occurrence) ->
    In body (_occurrence_bodies occurrence) -> False.
Proof.
  induction occurrence as
    [id name bodies sks context visible children IH] using Occurrence_tree_ind.
  intros Hnd body Hhidden. rewrite _occurrence_bodies_eq. simpl in *.
  rewrite flat_map_filter, in_app_iff. intros [Hown | Hseen].
  - apply (NoDup_app_disjoint _ _ body Hnd Hown).
    apply in_flat_map in Hhidden as (c & Hc & Hb). apply in_flat_map.
    exists c; split; [exact Hc|].
    destruct (isLightBulbOn c); [now apply hidden_bodies_in_all | exact Hb].
  - apply (disjoint_selections all_bodies
             (fun c => if isLightBulbOn c then hidden_bodies c else all_bodies c)
             (fun c => if isLightBulbOn c then _occurrence_bodies c else [])
             children body); auto.
    + eauto using NoDup_app_right.
    + intros c b. destruct (isLightBulbOn c); auto using hidden_bodies_in_all.
    + intros c b. destruct (isLightBulbOn c); [apply _occurrence_bodies_in_all | easy].
    + eapply List.Forall_impl; [|exact IH]. intros c Hc Hndc.
      destruct (isLightBulbOn c); [now apply Hc | easy].
Qed.

(** C3. [_occurrence_bodies] returns the bodies the node owns, in order,
    followed by the results for its children whose light bulb is on, in
    child order; when no body occurs twice in the tree, nothing that sits
    below a hidden occurrence is returned. *)
Theorem occurrence_bodies_visible_only (occurrence : Occurrence) :
  _occurrence_bodies occurrence
  = bRepBodies occurrence
    ++ flat_map _occurrence_bodies
         (List.filter isLightBulbOn (childOccurrences occurrence))
  /\ (List.NoDup (all_bodies occurrence) ->
      forall body,
        In body (hidden_bodies occurrence) ->
        ~ In body (_occurrence_bodies occurrence)).
Proof.
  split; [apply _occurrence_bodies_eq|].
  intros Hnd body Hhidden Hin.
  exact (hidden_bodies_not_collected occurrence Hnd body Hhidden Hin).
Qed.

Lemma occurrence_bodies_visible_only_witness :
  _occurrence_bodies example_tree
  = [example_body 10; example_body 11; example_body 12]
  /\ In (example_body 13) (hidden_bodies example_tree)
  /\ ~ In (example_body 13) (_occurrence_bodies example_tree).
Proof.
  split; [reflexivity|]. split; [simpl; now left|].
  apply (proj2 (occurrence_bodies_visible_only example_tree)).
  - repeat constructor; simpl; intuition discriminate.
  - simpl. now left.
Defined.

(** ** Bounding box of an empty node *)

Lemma owns_nothing_collects_nothing (occurrence : Occurrence) :
  owns_nothing occurrence = true ->
  _occurrence_bodies occurrence = [] /\ _occurrence_sketches occurrence = [].
Proof.
  induction occurrence as
    [id name bodies sks context visible children IH] using Occurrence_tree_ind.
  rewrite _occurrence_bodies_eq, _occurrence_sketches_eq. simpl.
  destruct bodies; [|discriminate]. destruct sks; [|discriminate]. simpl.
  intros Hchildren.
  induction IH as [|c cs Hc _ IHcs]; simpl in *; [easy|].
  apply andb_prop in Hchildren as [Hhead Htail].
  destruct (IHcs Htail) as [Hb Hs].
  destruct (isLightBulbOn c); simpl in *; [|easy].
  destruct (Hc Hhead) as [Hcb Hcs]. rewrite Hcb, Hcs. easy.
Qed.

(** C1 (as the code has it). For a node that owns no body and no sketch,
    also not through its visible children, [_get_exact_bounding_box] asks
    the kernel nothing and returns [None]: it does not raise. *)
Theorem empty_node_has_no_box (kernel : Kernel)
    (placements : gmap nat Matrix3D) (occurrence : Occurrence) :
  owns_nothing occurrence = true ->
  _get_exact_bounding_box kernel placements occurrence = Ok None.
Proof.
  intros Hempty.
  destruct (owns_nothing_collects_nothing occurrence Hempty) as [Hb Hs].
  unfold _get_exact_bounding_box. rewrite Hb, Hs. reflexivity.
Qed.

Lemma empty_node_has_no_box_witness :
  owns_nothing empty_occurrence = true
  /\ _get_exact_bounding_box example_kernel ∅ empty_occurrence = Ok None.
Proof.
  split; [reflexivity|].
  apply (empty_node_has_no_box example_kernel ∅ empty_occurrence).
  reflexivity.
Defined.

(** The claim that the computation fails on such a node does not hold: on
    the node without bodies and sketches no exception is raised. *)
Lemma empty_node_does_not_raise :
  owns_nothing empty_occurrence = true
  /\ ~ (exists e : exn,
          _get_exact_bounding_box example_kernel ∅ empty_occurrence = Raise e).
Proof.
  split; [reflexivity|]. intros [e He]. discriminate He.
Qed.

(** ** Placement functions *)

Lemma _cm_number (q : Q) : as_num (_cm (VNum q)) = Ok (q / 10).
Proof. reflexivity. Qed.

Lemma _mm_number (q : Q) : as_num (_mm (VNum q)) = Ok (q * 10).
Proof. reflexivity. Qed.

Lemma _get_placement_value_target (value : PlacementValue) (i : Z) (target : Q) :
  placement_target value i = Ok target ->
  _get_placement_value value i = Ok (target / 10).
Proof.
  destruct value as [c|f]; simpl; intros H.
  - now inversion H.
  - rewrite H. reflexivity.
Qed.

Lemma asArray_index (p : Point3D) (i : Z) :
  (0 <= i < 3)%Z -> py_index (asArray p) i = Ok (coordinate p i).
Proof.
  intros Hi.
  assert (i = 0 \/ i = 1 \/ i = 2)%Z as [-> | [-> | ->]] by lia; reflexivity.
Qed.

(** C2 (as the code has it). For an axis index in 0, 1, 2 and a box [b],
    the placement [minAt v] yields [(v / 10 - b.min[i]) * 10], that is [v]
    minus ten times [b.min[i]]: the box is in internal units and the offset
    in display units.  [maxAt] and [midAt] do the same with [b.max[i]] and
    with the mean of [b.min[i]] and [b.max[i]].  [keep] yields 0 for every
    index and every box.  [v] is a number, or a function that is called
    with the axis index when the placement is evaluated, and with nothing
    else. *)
Theorem placement_offsets (value : PlacementValue) (i : Z)
    (b : BoundingBox3D) (target : Q) :
  (0 <= i < 3)%Z ->
  placement_target value i = Ok target ->
  let low := coordinate (minPoint b) i in
  let high := coordinate (maxPoint b) i in
  minAt value i (Some b) = Ok ((target / 10 - low) * 10)
  /\ (target / 10 - low) * 10 == target - 10 * low
  /\ maxAt value i (Some b) = Ok ((target / 10 - high) * 10)
  /\ (target / 10 - high) * 10 == target - 10 * high
  /\ midAt value i (Some b) = Ok ((target / 10 - (low + high) / 2) * 10)
  /\ (target / 10 - (low + high) / 2) * 10 == target - 10 * ((low + high) / 2)
  /\ (forall j box, keep j box = Ok 0)
  /\ (forall f g box, f i = g i ->
        minAt (Callable f) i box = minAt (Callable g) i box
        /\ maxAt (Callable f) i box = maxAt (Callable g) i box
        /\ midAt (Callable f) i box = midAt (Callable g) i box).
Proof.
  intros Hi Htarget low high.
  pose proof (_get_placement_value_target value i target Htarget) as Hvalue.
  repeat split.
  - unfold minAt. rewrite Hvalue. simpl. rewrite asArray_index by exact Hi.
    reflexivity.
  - field.
  - unfold maxAt. rewrite Hvalue. simpl. rewrite asArray_index by exact Hi.
    reflexivity.
  - field.
  - unfold midAt. rewrite Hvalue. simpl.
    rewrite !asArray_index by exact Hi. reflexivity.
  - field.
  - unfold minAt. simpl. now rewrite H.
  - unfold maxAt. simpl. now rewrite H.
  - unfold midAt. simpl. now rewrite H.
Qed.

Lemma placement_offsets_witness :
  minAt (Constant 0) 0%Z (Some example_box) = Ok ((0 / 10 - 5) * 10)
  /\ maxAt (Callable (fun i => Ok (inject_Z i + 10))) 0%Z (Some example_box)
     = Ok (((0 + 10) / 10 - 7) * 10).
Proof.
  split.
  - apply (placement_offsets (Constant 0) 0%Z example_box 0);
      [lia | reflexivity].
  - apply (placement_offsets (Callable (fun i => Ok (inject_Z i + 10))) 0%Z
             example_box (0 + 10)); [lia | reflexivity].
Defined.

(** The offset is not [v - b.min[i]] with the box as it is handed to the
    placement: for [v = 0] and [b.min.x = 5] the result is -50, not -5. *)
Lemma minAt_converts_the_box :
  exists offset,
    minAt (Constant 0) 0%Z (Some example_box) = Ok offset
    /\ offset == -50
    /\ ~ offset == 0 - coordinate (minPoint example_box) 0%Z.
Proof.
  exists ((0 / 10 - 5) * 10). split; [reflexivity|].
  split; [reflexivity|]. intros H. discriminate H.
Qed.

(** ** Translation and rotation *)

Lemma all_zero_test (x y z : Q) :
  (Qeq_bool x 0 && Qeq_bool y 0 && Qeq_bool z 0)%bool = true
  <-> (x == 0 /\ y == 0 /\ z == 0).
Proof.
  rewrite !andb_true_iff, !Qeq_bool_iff. tauto.
Qed.

Lemma not_all_zero_test (x y z : Q) :
  ~ (x == 0 /\ y == 0 /\ z == 0) ->
  (Qeq_bool x 0 && Qeq_bool y 0 && Qeq_bool z 0)%bool = false.
Proof.
  intros H. apply not_true_is_false. now rewrite all_zero_test.
Qed.

Lemma translate_moves (occurrence : Occurrence) (x y z : Q) (st : Design)
    (m : Matrix3D) :
  ~ (x == 0 /\ y == 0 /\ z == 0) ->
  transforms st !! occ_id occurrence = Some m ->
  translate occurrence x y z st
  = (moved st (occ_id occurrence)
       (compose m (with_translation Matrix3D_create
                     (mkVector3D (x / 10) (y / 10) (z / 10)))),
     Ok occurrence).
Proof.
  intros Hnz Hm. unfold translate. rewrite (not_all_zero_test _ _ _ Hnz).
  unfold mbind, M_mbind, M_bind, lift, get_transform. simpl.
  rewrite Hm. reflexivity.
Qed.

Lemma rotate_moves (occurrence : Occurrence) (x y z : Q)
    (center : option (Q * Q * Q)) (st : Design) (m : Matrix3D) :
  ~ (x == 0 /\ y == 0 /\ z == 0) ->
  transforms st !! occ_id occurrence = Some m ->
  rotate occurrence x y z center st
  = (moved st (occ_id occurrence)
       (compose m
          (compose
             (compose
                (rotation (radians x) (mkVector3D 1 0 0) (pivot_of center))
                (inverse
                   (rotation (radians y) (mkVector3D 0 1 0) (pivot_of center))))
             (inverse
                (rotation (radians z) (mkVector3D 0 0 1) (pivot_of center))))),
     Ok occurrence).
Proof.
  intros Hnz Hm. unfold rotate. rewrite (not_all_zero_test _ _ _ Hnz).
  destruct center as [[[cx cy] cz]|];
    unfold mbind, M_mbind, M_bind, lift, get_transform; simpl;
    rewrite Hm; reflexivity.
Qed.

(** C5. With all three deltas (angles) zero, [translate] and [rotate] hand
    back the node and leave the design as it is: no transform changes and
    no snapshot is added.  With deltas (angles) that are not all zero, on a
    node placed in the design, both hand back the same node and add exactly
    one snapshot. *)
Theorem zero_transform_is_noop (occurrence : Occurrence) (x y z : Q)
    (center : option (Q * Q * Q)) (st : Design) :
  (x == 0 -> y == 0 -> z == 0 ->
     translate occurrence x y z st = (st, Ok occurrence)
     /\ rotate occurrence x y z center st = (st, Ok occurrence))
  /\ (~ (x == 0 /\ y == 0 /\ z == 0) ->
      is_Some (transforms st !! occ_id occurrence) ->
      (exists st' snapshot,
          translate occurrence x y z st = (st', Ok occurrence)
          /\ snapshots st' = snapshots st ++ [snapshot])
      /\ (exists st' snapshot,
          rotate occurrence x y z center st = (st', Ok occurrence)
          /\ snapshots st' = snapshots st ++ [snapshot])).
Proof.
  split.
  - intros Hx Hy Hz.
    assert ((Qeq_bool x 0 && Qeq_bool y 0 && Qeq_bool z 0)%bool = true) as Hzero
      by now apply all_zero_test.
    unfold translate, rotate. rewrite Hzero. split; reflexivity.
  - intros Hnz [m Hm]. split.
    + rewrite (translate_moves _ _ _ _ _ m Hnz Hm). eexists _, _.
      split; reflexivity.
    + rewrite (rotate_moves _ _ _ _ _ _ m Hnz Hm). eexists _, _.
      split; reflexivity.
Qed.

Lemma zero_transform_is_noop_witness :
  (translate example_tree 0 0 0 example_design = (example_design, Ok example_tree)
   /\ rotate example_tree 0 0 0 None example_design
      = (example_design, Ok example_tree))
  /\ (exists st' snapshot,
        translate example_tree 5 0 0 example_design = (st', Ok example_tree)
        /\ snapshots st' = snapshots example_design ++ [snapshot]).
Proof.
  pose proof (zero_transform_is_noop example_tree 0 0 0 None example_design)
    as [Hzero _].
  pose proof (zero_transform_is_noop example_tree 5 0 0 None example_design)
    as [_ Hmove].
  split.
  - apply Hzero; reflexivity.
  - apply Hmove.
    + intros (H & _ & _). discriminate H.
    + exists Matrix3D_create. reflexivity.
Defined.

(** C7. With angles that are not all zero, on a node placed in the design,
    [rotate] builds the rotations about the x, y and z axis through the
    pivot (the origin, or the given centre in internal units), inverts the
    y and the z rotation, composes x, then inverted y, then inverted z, and
    composes the result onto the transform the node had; the node keeps its
    identity, its transform in the design is replaced, and one snapshot is
    added. *)
Theorem rotate_composition (occurrence : Occurrence) (x y z : Q)
    (center : option (Q * Q * Q)) (st : Design) (m : Matrix3D) :
  ~ (x == 0 /\ y == 0 /\ z == 0) ->
  transforms st !! occ_id occurrence = Some m ->
  let pivot := match center with
               | None => mkPoint3D 0 0 0
               | Some (cx, cy, cz) => mkPoint3D (cx / 10) (cy / 10) (cz / 10)
               end in
  let about_x := rotation (radians x) (mkVector3D 1 0 0) pivot in
  let about_y := rotation (radians y) (mkVector3D 0 1 0) pivot in
  let about_z := rotation (radians z) (mkVector3D 0 0 1) pivot in
  let placed :=
    transformBy m
      (transformBy (transformBy about_x (invert about_y)) (invert about_z)) in
  exists st',
    rotate occurrence x y z center st = (st', Ok occurrence)
    /\ transforms st' = <[occ_id occurrence := placed]> (transforms st)
    /\ snapshots st' = snapshots st ++ [mkSnapshot (transforms st')]
    /\ timeline st' = timeline st
    /\ attributes st' = attributes st.
Proof.
  intros Hnz Hm pivot about_x about_y about_z placed.
  rewrite (rotate_moves _ _ _ _ _ _ m Hnz Hm).
  eexists. split; [reflexivity|]. repeat split.
Qed.

Lemma rotate_composition_witness :
  exists st',
    rotate example_tree 90 0 45 (Some (10, 0, 0)) example_design
    = (st', Ok example_tree)
    /\ transforms st'
       = <[1%nat :=
            compose Matrix3D_create
              (compose
                 (compose
                    (rotation (radians 90) (mkVector3D 1 0 0)
                       (mkPoint3D (10 / 10) (0 / 10) (0 / 10)))
                    (inverse
                       (rotation (radians 0) (mkVector3D 0 1 0)
                          (mkPoint3D (10 / 10) (0 / 10) (0 / 10)))))
                 (inverse
                    (rotation (radians 45) (mkVector3D 0 0 1)
                       (mkPoint3D (10 / 10) (0 / 10) (0 / 10)))))]>
           (transforms example_design).
Proof.
  destruct (rotate_composition example_tree 90 0 45 (Some (10, 0, 0))
              example_design Matrix3D_create) as (st' & Hrun & Htr & _).
  - intros (H & _ & _). discriminate H.
  - reflexivity.
  - exists st'. split; [exact Hrun | exact Htr].
Defined.

(** ** Running stateful code *)

Lemma bind_Ok {A B} (m : M A) (k : A -> M B) (st st' : Design) (a : A) :
  m st = (st', Ok a) -> M_bind m k st = k a st'.
Proof. intros H. unfold M_bind. now rewrite H. Qed.

Lemma bind_Raise {A B} (m : M A) (k : A -> M B) (st st' : Design) (e : exn) :
  m st = (st', Raise e) -> M_bind m k st = (st', Raise e).
Proof. intros H. unfold M_bind. now rewrite H. Qed.

Ltac run_monad :=
  unfold mbind, mret, M_mbind, M_mret, M_ret, lift, raise.

(** A loop whose body does not touch the design on the first elements. *)
Lemma for_fold_prefix {A B} (body : B -> A -> M B) (step : B -> A -> B)
    (before rest : list A) :
  List.Forall (fun x => forall acc st, body acc x st = (st, Ok (step acc x)))
    before ->
  forall acc st,
    for_fold (before ++ rest) acc body st
    = for_fold rest (fold_left step before acc) body st.
Proof.
  induction 1 as [|x before Hx _ IH]; intros acc st; simpl; [reflexivity|].
  rewrite (bind_Ok _ _ _ _ _ (Hx acc st)). apply IH.
Qed.

(** A loop whose body always returns, with the growth of a measure. *)
Lemma for_fold_measure {A B} (size : B -> nat) (weight : A -> nat)
    (body : B -> A -> M B) (xs : list A) :
  List.Forall
    (fun x => forall acc st, exists st' acc',
         body acc x st = (st', Ok acc')
         /\ size acc' = (size acc + weight x)%nat) xs ->
  forall acc st, exists st' out,
    for_fold xs acc body st = (st', Ok out)
    /\ size out = (size acc + list_sum (map weight xs))%nat.
Proof.
  induction 1 as [|x xs Hx _ IH]; intros acc st; simpl.
  - exists st, acc. split; [reflexivity | lia].
  - destruct (Hx acc st) as (st1 & acc1 & Hrun & Hsize).
    destruct (IH acc1 st1) as (st2 & out & Hrest & Hout).
    exists st2, out. rewrite (bind_Ok _ _ _ _ _ Hrun). split; [exact Hrest | lia].
Qed.

Lemma for_each_returns {A} (body : A -> M unit) (xs : list A) :
  (forall x st, exists st', body x st = (st', Ok tt)) ->
  forall st, exists st', for_each xs body st = (st', Ok tt).
Proof.
  intros Hbody. induction xs as [|x xs IH]; intros st; simpl.
  - now exists st.
  - destruct (Hbody x st) as (st1 & Hrun).
    rewrite (bind_Ok _ _ _ _ _ Hrun). apply IH.
Qed.

(** ** Placing with a missing placement *)

Lemma place_missing_placement (kernel : Kernel) (occurrence : Occurrence)
    (y_placement z_placement : option Placement) (st : Design)
    (bounding_box : option BoundingBox3D) :
  _get_exact_bounding_box kernel (transforms st) occurrence = Ok bounding_box ->
  place kernel occurrence None y_placement z_placement st
  = (st, Raise TypeError).
Proof.
  intros Hbox. unfold place. run_monad. unfold M_bind. rewrite Hbox.
  reflexivity.
Qed.

(** C6 (what the code does). [place] calls each placement as it is: with an
    argument left at [None] the call raises [TypeError] and the node is not
    moved, also when the other axes are given as [keep]. *)
Theorem place_without_placement_raises :
  place example_kernel example_tree None None None example_design
  = (example_design, Raise TypeError)
  /\ place example_kernel example_tree (Some keep) None (Some keep)
       example_design
     = (example_design, Raise TypeError).
Proof. split; reflexivity. Qed.

(** ** Loft *)

Lemma loft_accepts_single_profile (sections : list Profile) (sketch : Sketch)
    (st : Design) :
  List.length (profiles sketch) = 1%nat ->
  (if (1 <? List.length (profiles sketch))%nat
   then raise (ValueError (multiple_profiles_message sketch))
   else loftSections_add sections (item (profiles sketch) 0)) st
  = (st, Ok (sections ++ profiles sketch)).
Proof.
  destruct (profiles sketch) as [|p [|q ps]]; simpl; try discriminate.
  reflexivity.
Qed.

(** C8 (as the code has it). When a sketch of the input has more than one
    profile and every sketch before it has exactly one, [loft] raises the
    [ValueError] whose text names that sketch, and the design stays as it
    was: no loft feature is created. *)
Theorem loft_rejects_multiple_profiles (kernel : Kernel)
    (before after : list Sketch) (sketch : Sketch) (st : Design) :
  List.Forall (fun s => List.length (profiles s) = 1%nat) before ->
  (1 < List.length (profiles sketch))%nat ->
  loft kernel (before ++ sketch :: after) st
  = (st, Raise (ValueError
                  ("Sketch " ++ sketch_name sketch ++ " contains multiple profiles"))).
Proof.
  intros Hbefore Hmany. unfold loft. run_monad.
  apply bind_Raise.
  rewrite (for_fold_prefix _ (fun sections s => sections ++ profiles s)).
  - simpl. apply bind_Raise. apply Nat.ltb_lt in Hmany. rewrite Hmany.
    reflexivity.
  - eapply List.Forall_impl; [|exact Hbefore].
    intros s Hs acc st0. apply (loft_accepts_single_profile acc s st0 Hs).
Qed.

Lemma loft_rejects_multiple_profiles_witness :
  loft example_kernel
    [example_sketch "base" [example_profile 1];
     example_sketch "top" [example_profile 2; example_profile 3]]
    empty_design
  = (empty_design, Raise (ValueError "Sketch top contains multiple profiles")).
Proof.
  apply (loft_rejects_multiple_profiles example_kernel
           [example_sketch "base" [example_profile 1]] []
           (example_sketch "top" [example_profile 2; example_profile 3])
           empty_design).
  - repeat constructor.
  - simpl. lia.
Defined.

Lemma loft_without_profile (kernel : Kernel) (sketch : Sketch)
    (after : list Sketch) (st : Design) :
  profiles sketch = [] ->
  loft kernel (sketch :: after) st = (st, Raise RuntimeError).
Proof.
  intros Hnone. unfold loft. run_monad. apply bind_Raise. simpl.
  apply bind_Raise. rewrite Hnone. reflexivity.
Qed.

(** A sketch without a profile does not have exactly one profile, and
    [loft] does not answer it with a [ValueError]. *)
Lemma loft_misses_empty_sketch :
  List.length (profiles (example_sketch "base" [])) <> 1%nat
  /\ ~ (exists msg,
          snd (loft example_kernel [example_sketch "base" []] empty_design)
          = Raise (ValueError msg)).
Proof.
  split; [discriminate|]. intros [msg H].
  rewrite (loft_without_profile example_kernel (example_sketch "base" []) []
             empty_design eq_refl) in H.
  discriminate H.
Qed.

(** ** Union of sketches *)

Lemma _collection_of_eq {A} (collection : list A) :
  _collection_of collection = collection.
Proof. unfold _collection_of. now rewrite append_loop. Qed.

Lemma list_sum_ones {A} (xs : list A) :
  list_sum (map (fun _ => 1%nat) xs) = List.length xs.
Proof. induction xs; simpl; auto. Qed.

(** Runs the loop of the goal, given that its body always returns and
    grows [size] by [weight]. *)
Ltac loop_with size weight :=
  match goal with
  | |- context [for_fold ?xs ?a ?f ?s] =>
      let H := fresh "Hbody" in
      enough (H : List.Forall
                    (fun x => forall acc st, exists st' acc',
                         f acc x st = (st', Ok acc')
                         /\ size acc' = (size acc + weight x)%nat) xs);
      [ destruct (for_fold_measure size weight f xs H a s)
          as (st1 & out & Hrun & Hsize) | ]
  | |- context [M_bind (for_fold ?xs ?a ?f) ?k ?s] =>
      let H := fresh "Hbody" in
      enough (H : List.Forall
                    (fun x => forall acc st, exists st' acc',
                         f acc x st = (st', Ok acc')
                         /\ size acc' = (size acc + weight x)%nat) xs);
      [ destruct (for_fold_measure size weight f xs H a s)
          as (st1 & out & Hrun & Hsize) | ]
  end.

Lemma bRepBodies_add_returns (component : nat) (body : TemporaryBody)
    (feature : nat) (st : Design) :
  exists st' new_body,
    bRepBodies_add component body feature st = (st', Ok new_body)
    /\ List.length (faces new_body) = List.length (temp_faces body).
Proof.
  unfold bRepBodies_add. run_monad. unfold M_bind at 1. simpl.
  loop_with (@List.length BRepFace) (fun _ : Surface => 1%nat).
  - rewrite (bind_Ok _ _ _ _ _ Hrun). eexists _, _. split; [reflexivity|].
    simpl. rewrite Hsize, list_sum_ones. reflexivity.
  - apply List.Forall_forall. intros surface _ acc st0.
    eexists _, _. split; [reflexivity|]. rewrite length_app. reflexivity.
Qed.

Lemma adopt_bodies_returns (component feature : nat)
    (made : list TemporaryBody) (st : Design) :
  exists st' bodies,
    adopt_bodies component feature made st = (st', Ok bodies)
    /\ List.length bodies = List.length made.
Proof.
  unfold adopt_bodies.
  loop_with (@List.length BRepBody) (fun _ : TemporaryBody => 1%nat).
  - exists st1, out. split; [exact Hrun|].
    rewrite Hsize, list_sum_ones. reflexivity.
  - apply List.Forall_forall. intros body _ acc st0. run_monad.
    destruct (bRepBodies_add_returns component body feature st0)
      as (st1 & new_body & Hrun & _).
    rewrite (bind_Ok _ _ _ _ _ Hrun). eexists _, _. split; [reflexivity|].
    rewrite length_app. reflexivity.
Qed.

Lemma _extrude_returns (kernel : Kernel) (entity : Entity)
    (made : list TemporaryBody) (st : Design) :
  extruded kernel entity = Ok made ->
  exists st' feature,
    _extrude kernel entity 1 st = (st', Ok feature)
    /\ List.length (feature_bodies feature) = List.length made.
Proof.
  destruct entity as [sketch|occurrence]; simpl; [|discriminate].
  intros Hmade. unfold _extrude. run_monad. unfold the_sketch, M_bind at 1.
  run_monad. rewrite _collection_of_eq.
  unfold M_bind at 1. rewrite _cm_number.
  unfold M_bind at 1. rewrite Hmade.
  unfold M_bind at 1. unfold fresh at 1.
  match goal with
  | |- context [M_bind (adopt_bodies ?c ?f ?m) _ ?s] =>
      destruct (adopt_bodies_returns c f m s) as (st1 & bodies & Hrun & Hlen)
  end.
  rewrite (bind_Ok _ _ _ _ _ Hrun). eexists _, _. split; [reflexivity|].
  exact Hlen.
Qed.

Lemma extrusions_counted (kernel : Kernel) (entities : list Entity) :
  forall mades,
    rmap (extruded kernel) entities = Ok mades ->
    List.Forall (fun e => exists made, extruded kernel e = Ok made) entities
    /\ list_sum (map (extruded_count kernel) entities)
       = List.length (concat mades).
Proof.
  induction entities as [|e es IH]; simpl; intros mades H.
  - inversion H; subst. split; [constructor | reflexivity].
  - unfold mbind, result_bind, rbind in H.
    unfold extruded_count at 1.
    destruct (extruded kernel e) as [made|err] eqn:He; [|discriminate].
    destruct (rmap (extruded kernel) es) as [rest|err] eqn:Hes; [|discriminate].
    inversion H; subst. destruct (IH rest eq_refl) as [Hall Hsum].
    split.
    + constructor; [now exists made | exact Hall].
    + simpl. rewrite length_app, Hsum. reflexivity.
Qed.

Lemma extrude_loop (kernel : Kernel) (entities : list Entity)
    (mades : list (list TemporaryBody)) (st : Design) :
  rmap (extruded kernel) entities = Ok mades ->
  exists st' features bodies,
    for_fold entities ([], [])
      (fun '(intermediate_features, bodies) sketch =>
         extrude_feature ← _extrude kernel sketch 1;
         mret (intermediate_features ++ [extrude_feature],
               fold_left (fun bodies body => bodies ++ [body])
                 (feature_bodies extrude_feature) bodies)) st
    = (st', Ok (features, bodies))
    /\ List.length bodies = List.length (concat mades).
Proof.
  intros Hmades.
  destruct (extrusions_counted kernel entities mades Hmades) as [Hall Hsum].
  loop_with (fun acc : list Feature * list BRepBody => List.length (snd acc))
    (extruded_count kernel).
  - destruct out as [features bodies]. exists st1, features, bodies.
    split; [exact Hrun|]. simpl in Hsize. rewrite Hsize, Hsum. reflexivity.
  - eapply List.Forall_impl; [|exact Hall].
    intros e [made He] [fs bs] st0. run_monad.
    destruct (_extrude_returns kernel e made st0 He) as (st1 & f & Hrun & Hlen).
    rewrite (bind_Ok _ _ _ _ _ Hrun). eexists _, _. split; [reflexivity|].
    simpl. rewrite append_loop, length_app, Hlen.
    unfold extruded_count. rewrite He. reflexivity.
Qed.

Lemma union_of_sketches (kernel : Kernel) (entities : list Entity)
    (mades : list (list TemporaryBody)) (name : option string) (st : Design) :
  rmap (extruded kernel) entities = Ok mades ->
  entities <> [] ->
  union kernel entities name st
  = M_bind (_sketch_union kernel entities name)
      (fun sketch => M_ret (SketchEntity sketch)) st.
Proof.
  destruct entities as [|[sketch|occurrence] rest]; [easy | reflexivity |].
  simpl. unfold mbind, result_bind, rbind. discriminate.
Qed.

(** C9 (as the code has it). When every argument of [union] is a sketch,
    every extrusion succeeds and the extrusions yield exactly one body in
    total, [union] raises [UnboundLocalError]: [combine_feature] is only
    assigned when there is more than one body and is read afterwards. *)
Theorem sketch_union_single_body_unbound (kernel : Kernel)
    (entities : list Entity) (mades : list (list TemporaryBody))
    (name : option string) (st : Design) :
  rmap (extruded kernel) entities = Ok mades ->
  List.length (concat mades) = 1%nat ->
  exists st', union kernel entities name st = (st', Raise UnboundLocalError).
Proof.
  intros Hmades Hone.
  assert (entities <> []) as Hne.
  { intros ->. simpl in Hmades. inversion Hmades; subst. discriminate Hone. }
  rewrite (union_of_sketches kernel entities mades name st Hmades Hne).
  destruct (extrude_loop kernel entities mades st Hmades)
    as (st1 & features & bodies & Hloop & Hlen).
  rewrite Hone in Hlen.
  destruct bodies as [|body [|? ?]]; try discriminate Hlen.
  exists st1. apply bind_Raise. unfold _sketch_union. run_monad.
  rewrite (bind_Ok _ _ _ _ _ Hloop). reflexivity.
Qed.

Lemma sketch_union_single_body_unbound_witness :
  exists st',
    union example_kernel
      [SketchEntity (example_sketch "outline" [example_profile 1])]
      None empty_design
    = (st', Raise UnboundLocalError).
Proof.
  apply (sketch_union_single_body_unbound example_kernel
           [SketchEntity (example_sketch "outline" [example_profile 1])]
           [[mkTemporaryBody [] []]] None empty_design);
    reflexivity.
Defined.

Lemma sketch_union_no_body (kernel : Kernel) (entities : list Entity)
    (mades : list (list TemporaryBody)) (name : option string) (st : Design) :
  rmap (extruded kernel) entities = Ok mades ->
  entities <> [] ->
  List.length (concat mades) = 0%nat ->
  exists st', union kernel entities name st = (st', Raise IndexError).
Proof.
  intros Hmades Hne Hzero.
  rewrite (union_of_sketches kernel entities mades name st Hmades Hne).
  destruct (extrude_loop kernel entities mades st Hmades)
    as (st1 & features & bodies & Hloop & Hlen).
  rewrite Hzero in Hlen.
  destruct bodies as [|? ?]; try discriminate Hlen.
  exists st1. apply bind_Raise. unfold _sketch_union. run_monad.
  rewrite (bind_Ok _ _ _ _ _ Hloop). reflexivity.
Qed.

(** With extrusions that yield no body at all, which is at most one body,
    the error is the [IndexError] of [bodies[0]] and not the unbound
    variable. *)
Lemma sketch_union_without_body_is_index_error :
  rmap (extruded example_kernel) [SketchEntity (example_sketch "outline" [])]
  = Ok [[]]
  /\ (List.length (concat [@nil TemporaryBody]) <= 1)%nat
  /\ snd (union example_kernel [SketchEntity (example_sketch "outline" [])]
            None empty_design)
     = Raise IndexError
  /\ snd (union example_kernel [SketchEntity (example_sketch "outline" [])]
            None empty_design)
     <> Raise UnboundLocalError.
Proof.
  split; [reflexivity|]. split; [simpl; lia|].
  split; [reflexivity | discriminate].
Qed.

(** ** Primitives *)

Lemma _create_component_single (body : TemporaryBody) (name : string)
    (st : Design) :
  exists st' new_body,
    _create_component [body] name st
    = (st', Ok (mkOccurrence (next_id st) name [new_body] [] None true []))
    /\ List.length (faces new_body) = List.length (temp_faces body).
Proof.
  unfold _create_component, addNewComponent. run_monad.
  unfold M_bind at 1. unfold M_bind at 1. unfold fresh at 1.
  unfold M_bind at 1. unfold M_bind at 1. unfold record at 1.
  unfold M_bind at 1. unfold fresh at 1. cbn [fst snd next_id].
  unfold M_bind at 1. unfold record at 1. cbn [for_fold].
  match goal with
  | |- context [M_bind (M_bind (M_bind (bRepBodies_add ?c ?b ?f) _) _) _ ?s] =>
      destruct (bRepBodies_add_returns c b f s) as (st1 & new_body & Hrun & Hlen)
  end.
  unfold M_bind at 1. unfold M_bind at 1.
  rewrite (bind_Ok _ _ _ _ _ Hrun). exists st1, new_body.
  split; [reflexivity | exact Hlen].
Qed.

Lemma _mark_face_returns (face : BRepFace) (face_name : string) (st : Design) :
  exists st', _mark_face (Some face) face_name st = (st', Ok tt).
Proof. eexists. reflexivity. Qed.

Lemma sphere_returns_None (kernel : Kernel) (radius : Q) (name : string)
    (st : Design) (body : TemporaryBody) :
  createSphere kernel (mkPoint3D 0 0 0) (radius / 10) = Ok body ->
  temp_faces body <> [] ->
  exists st', sphere kernel radius name st = (st', Ok None).
Proof.
  intros Hmade Hfaces. unfold sphere. run_monad.
  unfold M_bind at 1. rewrite _cm_number.
  unfold M_bind at 1. rewrite Hmade.
  destruct (_create_component_single body name st)
    as (st1 & new_body & Hrun & Hlen).
  rewrite (bind_Ok _ _ _ _ _ Hrun). simpl.
  destruct (faces new_body) as [|face rest] eqn:Hnew.
  - destruct (temp_faces body); [easy | discriminate Hlen].
  - unfold deref. run_monad. unfold M_bind at 1. rewrite Hnew. simpl.
    destruct (_mark_face_returns face "surface" st1) as (st2 & Hmark).
    rewrite (bind_Ok _ _ _ _ _ Hmark). now exists st2.
Qed.

Lemma cylinder_returns_None (kernel : Kernel) (height radius radius2 : Q)
    (name : string) (st : Design) (body : TemporaryBody) :
  createCylinderOrCone kernel (mkPoint3D 0 0 0) (radius / 10)
    (mkPoint3D 0 0 (height / 10)) (radius2 / 10) = Ok body ->
  exists st',
    cylinder kernel height radius (Some radius2) name st = (st', Ok None).
Proof.
  intros Hmade. unfold cylinder. run_monad.
  unfold M_bind at 1. cbn [_cm _convert_units rmap over10 mbind result_bind rbind].
  unfold M_bind at 1. cbn [as_point Point3D_create].
  unfold M_bind at 1. cbn [as_num].
  unfold M_bind at 1. unfold M_bind at 1. rewrite Hmade.
  destruct (_create_component_single body name st)
    as (st1 & new_body & Hrun & Hlen).
  rewrite (bind_Ok _ _ _ _ _ Hrun). cbn [bRepBodies item nth_error deref].
  run_monad. unfold M_bind at 1.
  match goal with
  | |- context [M_bind (for_each ?xs ?f) _ ?s] =>
      destruct (for_each_returns f xs) with (st := s) as (st2 & Hmarks)
  end.
  - intros face st0.
    destruct (_ || _)%bool; [|destruct (Qeq_bool _ _)];
      apply _mark_face_returns.
  - rewrite (bind_Ok _ _ _ _ _ Hmarks). now exists st2.
Qed.

Lemma cylinder_default_radius2 (kernel : Kernel) (height radius : Q)
    (name : string) (st : Design) :
  cylinder kernel height radius None name st = (st, Raise TypeError).
Proof. reflexivity. Qed.

Ltac split_binds :=
  repeat match goal with
         | |- context [match ?m ?s with _ => _ end] =>
             let r := fresh "r" in
             destruct (m s) as [? [?|?]]; simpl; try discriminate
         | |- context [match ?x with _ => _ end] =>
             destruct x; simpl; try discriminate
         end.

Lemma sphere_never_a_node (kernel : Kernel) (radius : Q) (name : string)
    (st : Design) (node : Occurrence) :
  snd (sphere kernel radius name st) <> Ok (Some node).
Proof.
  unfold sphere. run_monad. unfold M_bind, deref. run_monad. simpl.
  split_binds.
Qed.

Lemma cylinder_never_a_node (kernel : Kernel) (height radius : Q)
    (radius2 : option Q) (name : string) (st : Design) (node : Occurrence) :
  snd (cylinder kernel height radius radius2 name st) <> Ok (Some node).
Proof.
  destruct radius2 as [radius2|]; [|rewrite cylinder_default_radius2; discriminate].
  unfold cylinder. run_monad.
  unfold M_bind at 1. cbn [_cm _convert_units rmap over10 mbind result_bind rbind].
  unfold M_bind at 1. cbn [as_point Point3D_create].
  unfold M_bind at 1. cbn [as_num].
  unfold M_bind, deref. run_monad. simpl.
  split_binds.
Qed.

Lemma find_and_mark_returns (found : list BRepFace) (face_name : string)
    (st : Design) :
  found <> [] ->
  exists st', _mark_face (item found 0) face_name st = (st', Ok tt).
Proof.
  destruct found as [|face rest]; [easy|]. intros _.
  apply _mark_face_returns.
Qed.

Lemma box_returns_node (kernel : Kernel) (x y z : Q) (name : string)
    (st st1 : Design) (body : TemporaryBody) (node : Occurrence) :
  createBox kernel (box_shape (x / 10) (y / 10) (z / 10)) = Ok body ->
  _create_component [body] name st = (st1, Ok node) ->
  List.Forall (fun p => findBRepUsingPoint kernel (bRepBodies node) p <> [])
    (box_face_points (x / 10) (y / 10) (z / 10)) ->
  exists st', box kernel x y z name st = (st', Ok (Some node)).
Proof.
  intros Hmade Hnode Hfound. unfold box. run_monad.
  unfold M_bind at 1. cbn [_cm _convert_units rmap over10 mbind result_bind rbind].
  unfold M_bind at 1. fold (box_shape (x / 10) (y / 10) (z / 10)).
  rewrite Hmade. rewrite (bind_Ok _ _ _ _ _ Hnode).
  unfold box_face_points in Hfound.
  repeat match goal with
         | H : List.Forall _ (_ :: _) |- _ =>
             let Hp := fresh "Hp" in
             apply List.Forall_cons_iff in H as [Hp H]
         end.
  destruct (find_and_mark_returns _ "bottom" st1 Hp) as (st2 & H2).
  rewrite (bind_Ok _ _ _ _ _ H2).
  destruct (find_and_mark_returns _ "top" st2 Hp0) as (st3 & H3).
  rewrite (bind_Ok _ _ _ _ _ H3).
  destruct (find_and_mark_returns _ "left" st3 Hp1) as (st4 & H4).
  rewrite (bind_Ok _ _ _ _ _ H4).
  destruct (find_and_mark_returns _ "right" st4 Hp2) as (st5 & H5).
  rewrite (bind_Ok _ _ _ _ _ H5).
  destruct (find_and_mark_returns _ "front" st5 Hp3) as (st6 & H6).
  rewrite (bind_Ok _ _ _ _ _ H6).
  destruct (find_and_mark_returns _ "back" st6 Hp4) as (st7 & H7).
  rewrite (bind_Ok _ _ _ _ _ H7).
  now exists st7.
Qed.

(** What the primitives return when they return: [sphere] returns [None]
    for every radius the kernel makes a sphere of, and [cylinder] returns
    [None] when [radius2] is passed and the kernel makes the body; neither
    ever returns a node.  [box] returns the node it created, provided the
    kernel makes the body and finds a face at each of the six face points.
    The call of [cylinder] that leaves [radius2] out is the subject of
    [cylinder_without_radius2_raises]. *)
Theorem primitives_return_values (kernel : Kernel) (name : string)
    (st : Design) :
  (forall radius body,
      createSphere kernel (mkPoint3D 0 0 0) (radius / 10) = Ok body ->
      temp_faces body <> [] ->
      exists st', sphere kernel radius name st = (st', Ok None))
  /\ (forall height radius radius2 body,
      createCylinderOrCone kernel (mkPoint3D 0 0 0) (radius / 10)
        (mkPoint3D 0 0 (height / 10)) (radius2 / 10) = Ok body ->
      exists st',
        cylinder kernel height radius (Some radius2) name st = (st', Ok None))
  /\ (forall radius node,
      snd (sphere kernel radius name st) <> Ok (Some node))
  /\ (forall height radius radius2 node,
      snd (cylinder kernel height radius radius2 name st) <> Ok (Some node))
  /\ (forall x y z body,
      createBox kernel (box_shape (x / 10) (y / 10) (z / 10)) = Ok body ->
      exists st1 node,
        _create_component [body] name st = (st1, Ok node)
        /\ occ_id node = next_id st
        /\ occ_name node = name
        /\ (List.Forall
              (fun p => findBRepUsingPoint kernel (bRepBodies node) p <> [])
              (box_face_points (x / 10) (y / 10) (z / 10)) ->
            exists st',
              box kernel x y z name st = (st', Ok (Some node)))).
Proof.
  split; [intros; eapply sphere_returns_None; eauto|].
  split; [intros; eapply cylinder_returns_None; eauto|].
  split; [intros; apply sphere_never_a_node|].
  split; [intros; apply cylinder_never_a_node|].
  intros x y z body Hmade.
  destruct (_create_component_single body name st)
    as (st1 & new_body & Hrun & _).
  exists st1, (mkOccurrence (next_id st) name [new_body] [] None true []).
  split; [exact Hrun|]. split; [reflexivity|]. split; [reflexivity|].
  intros Hfound. eapply box_returns_node; eauto.
Qed.

Lemma primitives_return_values_witness :
  (exists st', sphere example_kernel 5 "Sphere" empty_design = (st', Ok None))
  /\ (exists st',
        cylinder example_kernel 10 5 (Some 5) "Cylinder" empty_design
        = (st', Ok None))
  /\ (exists st' node,
        box example_kernel 10 20 30 "Box" empty_design = (st', Ok (Some node))
        /\ occ_id node = 1%nat).
Proof.
  pose proof (primitives_return_values example_kernel "Sphere" empty_design)
    as (Hsphere & _).
  pose proof (primitives_return_values example_kernel "Cylinder" empty_design)
    as (_ & Hcylinder & _).
  pose proof (primitives_return_values example_kernel "Box" empty_design)
    as (_ & _ & _ & _ & Hbox).
  split; [|split].
  - apply (Hsphere 5 (mkTemporaryBody
                        [mkSurface SphereSurfaceType (mkPoint3D 0 0 0)] []));
      [reflexivity | discriminate].
  - eapply (Hcylinder 10 5 5). reflexivity.
  - destruct (Hbox 10 20 30 _ eq_refl) as (st1 & node & Hrun & Hid & _ & Hfound).
    vm_compute in Hrun. injection Hrun as Hst Hnode. subst node.
    destruct Hfound as (st' & Hbox_run).
    + repeat constructor; vm_compute; discriminate.
    + exists st'. eexists. split; [exact Hbox_run | reflexivity].
Defined.

(** C10 (defect in the code). [cylinder] declares [radius2=None] and means
    to fall back on [radius] when it is left out ([radius if radius2 is None
    else radius2]), but it converts the tuple [(height, radius, radius2)]
    to internal units first.  With [radius2] left at its default the
    conversion divides [None] by 10: for every kernel, height, radius, name
    and design the call raises [TypeError], creates nothing and leaves the
    design as it was, so it does not return [None], let alone a node. *)
Theorem cylinder_without_radius2_raises (kernel : Kernel) (height radius : Q)
    (name : string) (st : Design) :
  cylinder kernel height radius None name st = (st, Raise TypeError)
  /\ snd (cylinder kernel height radius None name st) <> Ok None
  /\ forall node,
       snd (cylinder kernel height radius None name st) <> Ok (Some node).
Proof.
  rewrite cylinder_default_radius2. split; [reflexivity|].
  split; [|intros node]; discriminate.
Qed.

(** * Properties of the further functions *)

(** ** Unit conversion beyond numbers *)

Lemma rmap_over10_cases (items : list pyvalue) :
  rmap over10 items
  = if forallb is_num items
    then Ok (map (scale_leaf toInternal_leaf) items)
    else Raise TypeError.
Proof.
  induction items as [|v items IH]; [reflexivity|].
  simpl. destruct v; simpl; try reflexivity.
  rewrite IH. destruct (forallb is_num items); reflexivity.
Qed.

(** X1. [_cm] goes through exactly when the elements of a tuple or list
    are all numbers (any length); then it divides every number by 10 and
    keeps the structure, and otherwise it raises [TypeError].  [None], a
    number, a point and a vector always go through. *)
Theorem _cm_succeeds_on_numbers_only (v : pyvalue) :
  _cm v
  = if all_numbers v then Ok (spec_scale toInternal_leaf v)
    else Raise TypeError.
Proof.
  destruct v; try reflexivity; unfold _cm; simpl;
    rewrite rmap_over10_cases; destruct (forallb is_num items); reflexivity.
Qed.

Lemma times10_raises_TypeError (v : pyvalue) (e : exn) :
  times10 v = Raise e -> e = TypeError.
Proof. destruct v; simpl; intros H; now inversion H. Qed.

Lemma rmap_times10_raises_TypeError (items : list pyvalue) (e : exn) :
  rmap times10 items = Raise e -> e = TypeError.
Proof.
  induction items as [|v items IH]; simpl; [discriminate|].
  unfold mbind, result_bind, rbind.
  destruct (times10 v) eqn:Hv.
  - destruct (rmap times10 items); [discriminate|].
    intros H. inversion H; subst. now apply IH.
  - intros H. inversion H; subst. eapply times10_raises_TypeError, Hv.
Qed.

Lemma rmap_times10_keeps_nesting (items converted : list pyvalue) :
  rmap times10 items = Ok converted ->
  existsb is_sequence items = true ->
  forallb is_num converted = false.
Proof.
  revert converted. induction items as [|v items IH]; simpl; [discriminate|].
  unfold mbind, result_bind, rbind. intros converted.
  destruct (times10 v) as [y|] eqn:Hv; [|discriminate].
  destruct (rmap times10 items) as [ys|]; [|discriminate].
  intros H Hnested. inversion H; subst. simpl.
  apply orb_prop in Hnested as [Hhead | Htail].
  - destruct v; try discriminate Hhead; simpl in Hv; inversion Hv; reflexivity.
  - rewrite (IH ys eq_refl Htail). apply andb_false_r.
Qed.

Lemma nested_sequence_fails (items : list pyvalue) :
  existsb is_sequence items = true ->
  (converted ← rmap times10 items; rmap over10 converted) = Raise TypeError
  /\ rmap over10 items = Raise TypeError.
Proof.
  intros Hnested. split.
  - unfold mbind, result_bind, rbind.
    destruct (rmap times10 items) as [converted|e] eqn:Hrun.
    + rewrite rmap_over10_cases,
        (rmap_times10_keeps_nesting items converted Hrun Hnested).
      reflexivity.
    + now rewrite (rmap_times10_raises_TypeError items e Hrun).
  - rewrite rmap_over10_cases.
    assert (forallb is_num items = false) as ->; [|reflexivity].
    induction items as [|v items IH]; simpl in *; [discriminate|].
    apply orb_prop in Hnested as [Hhead | Htail].
    + destruct v; try discriminate Hhead; reflexivity.
    + rewrite (IH Htail). apply andb_false_r.
Qed.

(** X2. A tuple or list that holds a tuple or list never survives the round
    trip: [_mm] repeats the inner sequence ten times instead of scaling its
    numbers, so [_cm] of the result raises [TypeError], and [_cm] of the
    value itself raises [TypeError] as well. *)
Theorem nested_sequence_never_round_trips (items : list pyvalue) :
  existsb is_sequence items = true ->
  rbind (_mm (VTuple items)) _cm = Raise TypeError
  /\ rbind (_mm (VList items)) _cm = Raise TypeError
  /\ _cm (VTuple items) = Raise TypeError
  /\ _cm (VList items) = Raise TypeError
  /\ (forall inner,
        _mm (VTuple [VTuple inner]) = Ok (VTuple [VTuple (seq_repeat 10 inner)])).
Proof.
  intros Hnested.
  destruct (nested_sequence_fails items Hnested) as [Hround Hdirect].
  unfold _mm, _cm. simpl.
  unfold mbind, result_bind, rbind in *.
  repeat split; try (now rewrite Hdirect).
  - destruct (rmap times10 items) as [converted|e]; simpl;
      [|now inversion Hround].
    destruct (rmap over10 converted); [discriminate | now inversion Hround].
  - destruct (rmap times10 items) as [converted|e]; simpl;
      [|now inversion Hround].
    destruct (rmap over10 converted); [discriminate | now inversion Hround].
Qed.

Lemma nested_sequence_never_round_trips_witness :
  rbind (_mm (VTuple [VNum 1; VTuple [VNum 2; VNum 3]])) _cm = Raise TypeError.
Proof.
  apply (nested_sequence_never_round_trips [VNum 1; VTuple [VNum 2; VNum 3]]).
  reflexivity.
Defined.

(** ** Bounding boxes and measures *)

(** X3. The box made from an oriented box has the oriented box's centre as
    its midpoint and its length, width and height as its extents along x,
    y and z; with extents that are not negative its minimum is below its
    maximum on every axis. *)
Theorem oriented_box_conversion (oriented : OrientedBoundingBox3D) :
  let b := _oriented_bounding_box_to_bounding_box oriented in
  ((px (minPoint b) + px (maxPoint b)) / 2 == px (centerPoint oriented)
   /\ (py (minPoint b) + py (maxPoint b)) / 2 == py (centerPoint oriented)
   /\ (pz (minPoint b) + pz (maxPoint b)) / 2 == pz (centerPoint oriented))
  /\ (px (maxPoint b) - px (minPoint b) == obb_length oriented
      /\ py (maxPoint b) - py (minPoint b) == obb_width oriented
      /\ pz (maxPoint b) - pz (minPoint b) == obb_height oriented)
  /\ (0 <= obb_length oriented -> 0 <= obb_width oriented ->
      0 <= obb_height oriented ->
      px (minPoint b) <= px (maxPoint b)
      /\ py (minPoint b) <= py (maxPoint b)
      /\ pz (minPoint b) <= pz (maxPoint b)).
Proof.
  simpl. split; [repeat split; field|]. split; [repeat split; field|].
  intros Hl Hw Hh.
  assert (forall c e : Q, 0 <= e -> c - e / 2 <= c + e / 2) as Hle.
  { intros c e He.
    assert (0 <= e / 2) as Hhalf.
    { apply Qle_shift_div_l; [reflexivity|]. now rewrite Qmult_0_l. }
    unfold Qminus. apply Qplus_le_r. apply Qle_trans with 0; [|exact Hhalf].
    change 0 with (- 0). now apply Qopp_le_compat. }
  repeat split; now apply Hle.
Qed.

Lemma oriented_box_conversion_witness :
  px (minPoint (_oriented_bounding_box_to_bounding_box
                  (mkOrientedBoundingBox3D (mkPoint3D 1 1 1) (mkVector3D 1 0 0)
                     (mkVector3D 0 1 0) 2 4 6)))
  <= px (maxPoint (_oriented_bounding_box_to_bounding_box
                     (mkOrientedBoundingBox3D (mkPoint3D 1 1 1)
                        (mkVector3D 1 0 0) (mkVector3D 0 1 0) 2 4 6))).
Proof.
  apply (oriented_box_conversion
           (mkOrientedBoundingBox3D (mkPoint3D 1 1 1) (mkVector3D 1 0 0)
              (mkVector3D 0 1 0) 2 4 6)); discriminate.
Defined.

(** X4. Whenever the node has a bounding box, [sizeOf] returns the zero
    point: every coordinate is the maximum minus itself. *)
Theorem sizeOf_is_zero (kernel : Kernel) (placements : gmap nat Matrix3D)
    (occurrence : Occurrence) (b : BoundingBox3D) :
  _get_exact_bounding_box kernel placements occurrence = Ok (Some b) ->
  exists size,
    sizeOf kernel placements occurrence = Ok (VPoint3D size)
    /\ px size == 0 /\ py size == 0 /\ pz size == 0.
Proof.
  intros Hbox. unfold sizeOf. rewrite Hbox. simpl.
  eexists. split; [reflexivity|]. simpl. repeat split; ring.
Qed.

Lemma sizeOf_is_zero_witness :
  exists size,
    sizeOf example_kernel ∅ example_tree = Ok (VPoint3D size)
    /\ px size == 0 /\ py size == 0 /\ pz size == 0.
Proof.
  eapply (sizeOf_is_zero example_kernel ∅ example_tree). reflexivity.
Defined.

(** X5. On a node with bounding box [b], [minOf] and [maxOf] return the
    corners of [b] times 10, and [midOf] returns the point halfway between
    them, coordinate by coordinate. *)
Theorem measures_of_a_box (kernel : Kernel) (placements : gmap nat Matrix3D)
    (occurrence : Occurrence) (b : BoundingBox3D) :
  _get_exact_bounding_box kernel placements occurrence = Ok (Some b) ->
  exists low high mid,
    minOf kernel placements occurrence = Ok (VPoint3D low)
    /\ maxOf kernel placements occurrence = Ok (VPoint3D high)
    /\ midOf kernel placements occurrence = Ok (VPoint3D mid)
    /\ low = mkPoint3D (px (minPoint b) * 10) (py (minPoint b) * 10)
               (pz (minPoint b) * 10)
    /\ high = mkPoint3D (px (maxPoint b) * 10) (py (maxPoint b) * 10)
                (pz (maxPoint b) * 10)
    /\ px mid == (px low + px high) / 2
    /\ py mid == (py low + py high) / 2
    /\ pz mid == (pz low + pz high) / 2.
Proof.
  intros Hbox. unfold minOf, maxOf, midOf. rewrite Hbox. simpl.
  eexists _, _, _. repeat split; simpl; field.
Qed.

Lemma measures_of_a_box_witness :
  exists low high mid,
    minOf example_kernel ∅ example_tree = Ok (VPoint3D low)
    /\ maxOf example_kernel ∅ example_tree = Ok (VPoint3D high)
    /\ midOf example_kernel ∅ example_tree = Ok (VPoint3D mid)
    /\ px mid == (px low + px high) / 2.
Proof.
  destruct (measures_of_a_box example_kernel ∅ example_tree
              (mkBoundingBox3D (mkPoint3D (0 # 2) (0 # 2) (0 # 2))
                 (mkPoint3D (4 # 2) (4 # 2) (4 # 2))) eq_refl)
    as (low & high & mid & Hlow & Hhigh & Hmid & _ & _ & Hx & _).
  exists low, high, mid. auto.
Defined.

Lemma no_box_when_owning_nothing (kernel : Kernel)
    (placements : gmap nat Matrix3D) (occurrence : Occurrence) :
  owns_nothing occurrence = true ->
  _get_exact_bounding_box kernel placements occurrence = Ok None.
Proof.
  intros Hempty.
  destruct (owns_nothing_collects_nothing occurrence Hempty) as [Hb Hs].
  unfold _get_exact_bounding_box. rewrite Hb, Hs. reflexivity.
Qed.

(** X6. On a node that owns no body and no sketch, [minOf], [maxOf],
    [midOf] and [sizeOf] raise [AttributeError], since there is no box to
    read.  [atMin], [atMax] and [atMid] are built without an error on such
    a node, and the anchor they return raises [AttributeError] at every
    coordinate index, when it is called. *)
Theorem measures_of_an_empty_node (kernel : Kernel)
    (placements : gmap nat Matrix3D) (occurrence : Occurrence) :
  owns_nothing occurrence = true ->
  minOf kernel placements occurrence = Raise AttributeError
  /\ maxOf kernel placements occurrence = Raise AttributeError
  /\ midOf kernel placements occurrence = Raise AttributeError
  /\ sizeOf kernel placements occurrence = Raise AttributeError
  /\ (exists anchor, atMin kernel placements occurrence = Ok anchor
                     /\ forall i, anchor i = Raise AttributeError)
  /\ (exists anchor, atMax kernel placements occurrence = Ok anchor
                     /\ forall i, anchor i = Raise AttributeError)
  /\ (exists anchor, atMid kernel placements occurrence = Ok anchor
                     /\ forall i, anchor i = Raise AttributeError).
Proof.
  intros Hempty.
  pose proof (no_box_when_owning_nothing kernel placements occurrence Hempty)
    as Hbox.
  unfold minOf, maxOf, midOf, sizeOf, atMin, atMax, atMid. rewrite Hbox.
  simpl. repeat split; eexists; split; reflexivity || (intros; reflexivity).
Qed.

Lemma measures_of_an_empty_node_witness :
  minOf example_kernel ∅ empty_occurrence = Raise AttributeError.
Proof.
  apply (measures_of_an_empty_node example_kernel ∅ empty_occurrence).
  reflexivity.
Defined.

(** ** Placing a node *)

(** X7. With [keep] on all three axes [place] changes nothing and returns
    the node, whenever the bounding box can be computed: also on a node
    without bodies and sketches, whose box is [None]. *)
Theorem place_keep_is_noop (kernel : Kernel) (occurrence : Occurrence)
    (st : Design) (bounding_box : option BoundingBox3D) :
  _get_exact_bounding_box kernel (transforms st) occurrence = Ok bounding_box ->
  place kernel occurrence (Some keep) (Some keep) (Some keep) st
  = (st, Ok occurrence).
Proof.
  intros Hbox. unfold place. run_monad. unfold M_bind. rewrite Hbox.
  reflexivity.
Qed.

Lemma place_keep_is_noop_witness :
  place example_kernel empty_occurrence (Some keep) (Some keep) (Some keep)
    empty_design
  = (empty_design, Ok empty_occurrence).
Proof.
  apply (place_keep_is_noop example_kernel empty_occurrence empty_design None).
  reflexivity.
Defined.

Lemma anchor_placement_offset (anchor : Anchor) (value : PlacementValue)
    (i : Z) (b : BoundingBox3D) (target : Q) :
  (0 <= i < 3)%Z ->
  placement_target value i = Ok target ->
  anchor_placement anchor value i (Some b)
  = Ok ((target / 10 - anchor_coordinate anchor b i) * 10).
Proof.
  intros Hi Htarget.
  pose proof (_get_placement_value_target value i target Htarget) as Hvalue.
  destruct anchor; simpl; unfold minAt, maxAt, midAt; rewrite Hvalue; simpl;
    rewrite !asArray_index by exact Hi; reflexivity.
Qed.

Lemma anchor_placement_no_box (anchor : Anchor) (value : PlacementValue)
    (i : Z) (target : Q) :
  placement_target value i = Ok target ->
  anchor_placement anchor value i None = Raise AttributeError.
Proof.
  intros Htarget.
  pose proof (_get_placement_value_target value i target Htarget) as Hvalue.
  destruct anchor; simpl; unfold minAt, maxAt, midAt; rewrite Hvalue;
    reflexivity.
Qed.

(** X8. On a node that owns no body and no sketch, [place] with [minAt],
    [maxAt] or [midAt] on the x axis raises [AttributeError] and leaves the
    design as it is, whatever the other two placements are. *)
Theorem place_empty_node_raises (kernel : Kernel) (occurrence : Occurrence)
    (anchor : Anchor) (value : PlacementValue) (target : Q)
    (y_placement z_placement : option Placement) (st : Design) :
  owns_nothing occurrence = true ->
  placement_target value 0%Z = Ok target ->
  place kernel occurrence (Some (anchor_placement anchor value))
    y_placement z_placement st
  = (st, Raise AttributeError).
Proof.
  intros Hempty Htarget. unfold place. run_monad. unfold M_bind at 1.
  rewrite (no_box_when_owning_nothing kernel (transforms st) occurrence Hempty).
  unfold M_bind at 1. unfold call. run_monad.
  rewrite (anchor_placement_no_box anchor value 0%Z target Htarget).
  reflexivity.
Qed.

Lemma place_empty_node_raises_witness :
  place example_kernel empty_occurrence (Some (minAt (Constant 0)))
    (Some keep) (Some keep) empty_design
  = (empty_design, Raise AttributeError).
Proof.
  apply (place_empty_node_raises example_kernel empty_occurrence AtMin
           (Constant 0) 0 (Some keep) (Some keep) empty_design);
    reflexivity.
Defined.

Lemma place_runs_translate (kernel : Kernel) (occurrence : Occurrence)
    (x_placement y_placement z_placement : Placement) (st : Design)
    (bounding_box : option BoundingBox3D) (x y z : Q) :
  _get_exact_bounding_box kernel (transforms st) occurrence = Ok bounding_box ->
  x_placement 0%Z bounding_box = Ok x ->
  y_placement 1%Z bounding_box = Ok y ->
  z_placement 2%Z bounding_box = Ok z ->
  place kernel occurrence (Some x_placement) (Some y_placement)
    (Some z_placement) st
  = M_bind (translate occurrence x y z) (fun _ => M_ret occurrence) st.
Proof.
  intros Hbox Hx Hy Hz. unfold place. run_monad. unfold M_bind at 1.
  rewrite Hbox. unfold call. run_monad.
  unfold M_bind at 1. rewrite Hx.
  unfold M_bind at 1. rewrite Hy.
  unfold M_bind at 1. rewrite Hz.
  reflexivity.
Qed.

Lemma scaled_zero (d : Q) : d * 10 == 0 <-> d == 0.
Proof.
  split; intros H.
  - setoid_replace d with (d * 10 / 10) using relation Qeq by field.
    rewrite H. reflexivity.
  - rewrite H. reflexivity.
Qed.

(** X9. [place] with an anchored placement on every axis: let [d] be, per
    axis, the target in internal units minus the anchor coordinate of the
    node's box.  If [d] is zero on all axes the design is unchanged.
    Otherwise the node's transform is composed with the translation by [d]
    and one snapshot is added; the node itself is returned. *)
Theorem place_moves_anchor_to_target (kernel : Kernel)
    (occurrence : Occurrence) (st : Design) (b : BoundingBox3D)
    (m : Matrix3D) (ax ay az : Anchor) (vx_ vy_ vz_ : PlacementValue)
    (tx_ ty_ tz_ : Q) :
  _get_exact_bounding_box kernel (transforms st) occurrence = Ok (Some b) ->
  transforms st !! occ_id occurrence = Some m ->
  placement_target vx_ 0%Z = Ok tx_ ->
  placement_target vy_ 1%Z = Ok ty_ ->
  placement_target vz_ 2%Z = Ok tz_ ->
  let dx := tx_ / 10 - anchor_coordinate ax b 0%Z in
  let dy := ty_ / 10 - anchor_coordinate ay b 1%Z in
  let dz := tz_ / 10 - anchor_coordinate az b 2%Z in
  let run := place kernel occurrence (Some (anchor_placement ax vx_))
               (Some (anchor_placement ay vy_))
               (Some (anchor_placement az vz_)) st in
  (dx == 0 /\ dy == 0 /\ dz == 0 -> run = (st, Ok occurrence))
  /\ (~ (dx == 0 /\ dy == 0 /\ dz == 0) ->
      exists st' t,
        run = (st', Ok occurrence)
        /\ transforms st'
           = <[occ_id occurrence :=
                 transformBy m (set_translation Matrix3D_create t)]>
               (transforms st)
        /\ vx t == dx /\ vy t == dy /\ vz t == dz
        /\ snapshots st' = snapshots st ++ [mkSnapshot (transforms st')]).
Proof.
  intros Hbox Hm Hx Hy Hz dx dy dz run.
  assert (run = M_bind (translate occurrence (dx * 10) (dy * 10) (dz * 10))
                  (fun _ => M_ret occurrence) st) as Hrun.
  { unfold run. apply (place_runs_translate _ _ _ _ _ _ (Some b)); auto;
      apply anchor_placement_offset; auto; lia. }
  split.
  - intros (H0x & H0y & H0z). rewrite Hrun. unfold translate.
    assert ((Qeq_bool (dx * 10) 0 && Qeq_bool (dy * 10) 0
             && Qeq_bool (dz * 10) 0)%bool = true) as ->.
    { apply all_zero_test. now rewrite !scaled_zero. }
    reflexivity.
  - intros Hnz. rewrite Hrun.
    assert (~ (dx * 10 == 0 /\ dy * 10 == 0 /\ dz * 10 == 0)) as Hnz'.
    { now rewrite !scaled_zero. }
    rewrite (bind_Ok _ _ _ _ _ (translate_moves _ _ _ _ _ m Hnz' Hm)).
    eexists _, _. split; [reflexivity|]. split; [reflexivity|].
    simpl. repeat split; field.
Qed.

Lemma place_moves_anchor_to_target_witness :
  exists st' t,
    place example_kernel example_tree (Some (minAt (Constant 0)))
      (Some (maxAt (Constant 30))) (Some (midAt (Constant 10)))
      example_design
    = (st', Ok example_tree)
    /\ transforms st'
       = <[1%nat := transformBy Matrix3D_create
                      (set_translation Matrix3D_create t)]>
           (transforms example_design)
    /\ vx t == 0 /\ vy t == 1 /\ vz t == 0.
Proof.
  destruct (place_moves_anchor_to_target example_kernel example_tree
              example_design
              (mkBoundingBox3D (mkPoint3D (0 # 2) (0 # 2) (0 # 2))
                 (mkPoint3D (4 # 2) (4 # 2) (4 # 2)))
              Matrix3D_create AtMin AtMax AtMid
              (Constant 0) (Constant 30) (Constant 10) 0 30 10
              eq_refl eq_refl eq_refl eq_refl eq_refl) as [_ Hmove].
  destruct Hmove as (st' & t & Hrun & Htr & Hx & Hy & Hz & _).
  - intros (_ & H & _). vm_compute in H. discriminate H.
  - exists st', t. split; [exact Hrun|]. split; [exact Htr|].
    repeat split; [rewrite Hx | rewrite Hy | rewrite Hz]; reflexivity.
Defined.





(** ** Moving nodes *)

(** X11. [translate] with deltas that are not all zero, on a node placed in
    the design: the node's transform becomes the old one composed with the
    translation by the deltas divided by 10; the transform of every other
    node, the timeline, the attributes and the id supply stay as they were;
    the new snapshot holds the placements after the move. *)
Theorem translate_frame (occurrence : Occurrence) (x y z : Q) (st : Design)
    (m : Matrix3D) :
  ~ (x == 0 /\ y == 0 /\ z == 0) ->
  transforms st !! occ_id occurrence = Some m ->
  exists st',
    translate occurrence x y z st = (st', Ok occurrence)
    /\ transforms st' !! occ_id occurrence
       = Some (transformBy m
                 (set_translation Matrix3D_create
                    (mkVector3D (x / 10) (y / 10) (z / 10))))
    /\ (forall other, other <> occ_id occurrence ->
          transforms st' !! other = transforms st !! other)
    /\ snapshots st' = snapshots st ++ [mkSnapshot (transforms st')]
    /\ timeline st' = timeline st
    /\ attributes st' = attributes st
    /\ next_id st' = next_id st.
Proof.
  intros Hnz Hm. rewrite (translate_moves _ _ _ _ _ m Hnz Hm).
  eexists. split; [reflexivity|]. simpl.
  split; [apply lookup_insert_eq|].
  split; [intros other Hother; now apply lookup_insert_ne|].
  repeat split.
Qed.

Lemma translate_frame_witness :
  exists st',
    translate example_tree 10 0 (-5) example_design = (st', Ok example_tree)
    /\ transforms st' !! 1%nat
       = Some (transformBy Matrix3D_create
                 (set_translation Matrix3D_create
                    (mkVector3D (10 / 10) (0 / 10) (-5 / 10))))
    /\ timeline st' = timeline example_design.
Proof.
  destruct (translate_frame example_tree 10 0 (-5) example_design
              Matrix3D_create) as (st' & Hrun & Htr & _ & _ & Htl & _).
  - intros (H & _). discriminate H.
  - reflexivity.
  - exists st'. auto.
Defined.

Section TouchingProperties.

Variable measureMinimumDistance :
  gmap nat Matrix3D -> Occurrence -> Occurrence -> result MeasureResults.

(** X12. [touching]: let [d] be the second measured position minus the
    first, per axis, as the measure manager reports them (internal units)
    for the target and the anchor.  If [d] is zero on all axes nothing
    changes.  Otherwise the target's transform is composed with the
    translation by ten times [d]: the difference is converted to display
    units twice before [translate] converts it back once.  One snapshot is
    added, and nothing is returned. *)
Theorem touching_moves_ten_times (anchor target : Occurrence) (st : Design)
    (measured : MeasureResults) (m : Matrix3D) :
  measureMinimumDistance (transforms st) target anchor = Ok measured ->
  transforms st !! occ_id target = Some m ->
  let dx := px (positionTwo measured) - px (positionOne measured) in
  let dy := py (positionTwo measured) - py (positionOne measured) in
  let dz := pz (positionTwo measured) - pz (positionOne measured) in
  let run := touching measureMinimumDistance anchor target st in
  (dx == 0 /\ dy == 0 /\ dz == 0 -> run = (st, Ok tt))
  /\ (~ (dx == 0 /\ dy == 0 /\ dz == 0) ->
      exists st' t,
        run = (st', Ok tt)
        /\ transforms st'
           = <[occ_id target :=
                 transformBy m (set_translation Matrix3D_create t)]>
               (transforms st)
        /\ vx t == 10 * dx /\ vy t == 10 * dy /\ vz t == 10 * dz
        /\ snapshots st' = snapshots st ++ [mkSnapshot (transforms st')]).
Proof.
  intros Hmeasure Hm dx dy dz run.
  assert (run = M_bind (translate target (dx * 10 * 10) (dy * 10 * 10)
                          (dz * 10 * 10)) (fun _ => M_ret tt) st) as Hrun.
  { unfold run, touching. run_monad. unfold M_bind at 1. rewrite Hmeasure.
    reflexivity. }
  assert (forall d, d * 10 * 10 == 0 <-> d == 0) as Hscaled
    by (intros d; now rewrite !scaled_zero).
  split.
  - intros H0. rewrite Hrun. unfold translate.
    assert ((Qeq_bool (dx * 10 * 10) 0 && Qeq_bool (dy * 10 * 10) 0
             && Qeq_bool (dz * 10 * 10) 0)%bool = true) as ->.
    { apply all_zero_test. now rewrite !Hscaled. }
    reflexivity.
  - intros Hnz. rewrite Hrun.
    assert (~ (dx * 10 * 10 == 0 /\ dy * 10 * 10 == 0 /\ dz * 10 * 10 == 0))
      as Hnz' by now rewrite !Hscaled.
    rewrite (bind_Ok _ _ _ _ _ (translate_moves _ _ _ _ _ m Hnz' Hm)).
    eexists _, _. split; [reflexivity|]. split; [reflexivity|].
    simpl. repeat split; field.
Qed.

End TouchingProperties.

Lemma touching_moves_ten_times_witness :
  exists st' t,
    touching (fun _ _ _ =>
                Ok (mkMeasureResults (mkPoint3D 0 0 0) (mkPoint3D 3 0 0)))
      example_tree example_tree example_design
    = (st', Ok tt)
    /\ transforms st'
       = <[1%nat := transformBy Matrix3D_create
                      (set_translation Matrix3D_create t)]>
           (transforms example_design)
    /\ vx t == 30.
Proof.
  destruct (touching_moves_ten_times
              (fun _ _ _ =>
                 Ok (mkMeasureResults (mkPoint3D 0 0 0) (mkPoint3D 3 0 0)))
              example_tree example_tree example_design
              (mkMeasureResults (mkPoint3D 0 0 0) (mkPoint3D 3 0 0))
              Matrix3D_create eq_refl eq_refl) as [_ Hmove].
  destruct Hmove as (st' & t & Hrun & Htr & Hx & _).
  - intros (H & _). discriminate H.
  - exists st', t. split; [exact Hrun|]. split; [exact Htr|].
    rewrite Hx. reflexivity.
Defined.

Lemma translate_returns (occurrence : Occurrence) (x y z : Q) (st : Design)
    (m : Matrix3D) :
  transforms st !! occ_id occurrence = Some m ->
  exists st' m',
    translate occurrence x y z st = (st', Ok occurrence)
    /\ transforms st' !! occ_id occurrence = Some m'
    /\ List.length (snapshots st')
       = (List.length (snapshots st)
          + if (Qeq_bool x 0 && Qeq_bool y 0 && Qeq_bool z 0)%bool
            then 0 else 1)%nat.
Proof.
  intros Hm.
  destruct (Qeq_bool x 0 && Qeq_bool y 0 && Qeq_bool z 0)%bool eqn:Htest.
  - exists st, m. unfold translate. rewrite Htest.
    split; [reflexivity|]. split; [exact Hm | lia].
  - assert (~ (x == 0 /\ y == 0 /\ z == 0)) as Hnz.
    { intros H. apply all_zero_test in H. congruence. }
    rewrite (translate_moves _ _ _ _ _ m Hnz Hm). eexists _, _.
    split; [reflexivity|]. simpl. split; [apply lookup_insert_eq|].
    rewrite length_app. reflexivity.
Qed.

(** X13. Moving along one axis at a time: [tx], then [ty], then [tz] on a
    node placed in the design return the node and add one snapshot for
    every amount that is not zero, where a single [translate] with the same
    three amounts adds one snapshot if any amount is not zero, and none
    otherwise. *)
Theorem one_axis_moves_add_a_snapshot_each (occurrence : Occurrence)
    (a b c : Q) (st : Design) (m : Matrix3D) :
  transforms st !! occ_id occurrence = Some m ->
  (exists st',
      (moved_x ← tx occurrence a; moved_y ← ty moved_x b; tz moved_y c) st
      = (st', Ok occurrence)
      /\ List.length (snapshots st')
         = (List.length (snapshots st) + nonzero_count a b c)%nat)
  /\ (exists st',
      translate occurrence a b c st = (st', Ok occurrence)
      /\ List.length (snapshots st')
         = (List.length (snapshots st)
            + if Nat.eqb (nonzero_count a b c) 0 then 0 else 1)%nat).
Proof.
  intros Hm. split.
  - unfold tx, ty, tz. run_monad.
    destruct (translate_returns occurrence a 0 0 st m Hm)
      as (st1 & m1 & Hrun1 & Hm1 & Hlen1).
    destruct (translate_returns occurrence 0 b 0 st1 m1 Hm1)
      as (st2 & m2 & Hrun2 & Hm2 & Hlen2).
    destruct (translate_returns occurrence 0 0 c st2 m2 Hm2)
      as (st3 & m3 & Hrun3 & _ & Hlen3).
    exists st3. rewrite (bind_Ok _ _ _ _ _ Hrun1), (bind_Ok _ _ _ _ _ Hrun2).
    split; [exact Hrun3|].
    rewrite Hlen3, Hlen2, Hlen1. unfold nonzero_count.
    change (Qeq_bool 0 0) with true. rewrite !andb_true_r. simpl.
    destruct (Qeq_bool a 0), (Qeq_bool b 0), (Qeq_bool c 0); simpl; lia.
  - destruct (translate_returns occurrence a b c st m Hm)
      as (st1 & m1 & Hrun & _ & Hlen).
    exists st1. split; [exact Hrun|]. rewrite Hlen. unfold nonzero_count.
    destruct (Qeq_bool a 0), (Qeq_bool b 0), (Qeq_bool c 0); reflexivity.
Qed.

Lemma one_axis_moves_add_a_snapshot_each_witness :
  exists st',
    (moved_x ← tx example_tree 5; moved_y ← ty moved_x 0; tz moved_y 7)
      example_design
    = (st', Ok example_tree)
    /\ List.length (snapshots st') = 2%nat.
Proof.
  destruct (one_axis_moves_add_a_snapshot_each example_tree 5 0 7
              example_design Matrix3D_create eq_refl)
    as [(st' & Hrun & Hlen) _].
  exists st'. split; [exact Hrun | exact Hlen].
Defined.

(** ** Joiner *)

Lemma register_all_entities (entities : list Entity) (self : Joiner) :
  fold_left (fun self entity => fst (Joiner_call self entity)) entities self
  = mkJoiner (_entities self ++ entities) (_name self) (_join_method self)
      (_occurrence self).
Proof.
  revert self. induction entities as [|e es IH]; intros self; simpl.
  - rewrite app_nil_r. now destruct self.
  - rewrite IH. simpl. now rewrite <- app_assoc.
Qed.

(** X14. A [with Joiner(join_method, name)] block that registers entities
    and ends without an exception does what the direct call of the join
    method on these entities and the name does, with the entities in the
    order of registration: the same change of the design, the same
    exception if the join raises, and otherwise [result()] hands back what
    the join returned. *)
Theorem Joiner_joins_on_exit
    (join_method : list Entity -> option string -> M Entity)
    (name : option string) (entities : list Entity) (st : Design) :
  match join_method entities name st with
  | (st', Ok joined) =>
      exists self,
        with_Joiner join_method name (register_all entities) st = (st', Ok self)
        /\ Joiner_result self = Ok joined
        /\ _entities self = entities
  | (st', Raise e) =>
      with_Joiner join_method name (register_all entities) st = (st', Raise e)
  end.
Proof.
  unfold with_Joiner, register_all. run_monad.
  rewrite register_all_entities. unfold Joiner_exit, Joiner_init. simpl.
  run_monad. unfold M_bind.
  destruct (join_method entities name st) as [st' [joined|e]].
  - eexists. split; [reflexivity|]. split; reflexivity.
  - reflexivity.
Qed.

(** X15. When the block of a [with Joiner(...)] statement raises, the join
    method is not called: the design is as the block left it and the
    exception of the block is raised again.  A joiner whose block did not
    end, or ended with an exception, has no result: [result()] raises
    [AttributeError], however many entities were registered. *)
Theorem Joiner_skips_join_on_error
    (join_method : list Entity -> option string -> M Entity)
    (name : option string) (block : Joiner -> M Joiner) (st st' : Design)
    (e : exn) (entities : list Entity) :
  block (Joiner_init join_method name) st = (st', Raise e) ->
  with_Joiner join_method name block st = (st', Raise e)
  /\ Joiner_exit (Joiner_init join_method name) (Some e) st'
     = (st', Ok (Joiner_init join_method name))
  /\ Joiner_result
       (fold_left (fun self entity => fst (Joiner_call self entity)) entities
          (Joiner_init join_method name))
     = Raise AttributeError.
Proof.
  intros Hblock. unfold with_Joiner. rewrite Hblock. simpl.
  split; [reflexivity|]. split; [reflexivity|].
  rewrite register_all_entities. reflexivity.
Qed.

Lemma Joiner_skips_join_on_error_witness :
  with_Joiner (union example_kernel) None (fun _ => raise IndexError)
    empty_design
  = (empty_design, Raise IndexError).
Proof.
  apply (Joiner_skips_join_on_error (union example_kernel) None
           (fun _ => raise IndexError) empty_design empty_design IndexError []).
  reflexivity.
Defined.

(** ** Profiles through a curve *)

Section FindProfiles.

Variable parentSketch : SketchCurve -> Sketch.
Variable profileLoops : Profile -> list (list SketchCurve).

Lemma curve_loop_existsb (contained_curve : SketchCurve)
    (profile_curves : list SketchCurve) :
  curve_loop contained_curve profile_curves
  = existsb (fun c => same_entity c contained_curve) profile_curves.
Proof.
  induction profile_curves as [|c cs IH]; simpl; [reflexivity|].
  rewrite IH. now destruct (same_entity c contained_curve).
Qed.

Lemma loops_loop_existsb (contained_curve : SketchCurve) (profile : Profile)
    (loops : list (list SketchCurve)) (ret : list Profile) :
  loops_loop contained_curve profile loops ret
  = if existsb (existsb (fun c => same_entity c contained_curve)) loops
    then ret ++ [profile] else ret.
Proof.
  induction loops as [|l ls IH]; simpl; [reflexivity|].
  rewrite curve_loop_existsb, IH.
  now destruct (existsb (fun c => same_entity c contained_curve) l).
Qed.

(** X16. [_find_profiles] returns exactly the profiles of the curve's
    sketch that have a loop running along the curve, in the order of the
    sketch; a profile is listed once for each time the sketch lists it,
    however many of its loops and profile curves lie on the curve. *)
Theorem _find_profiles_filters (contained_curve : SketchCurve) :
  _find_profiles parentSketch profileLoops contained_curve
  = List.filter (runs_along profileLoops contained_curve)
      (profiles (parentSketch contained_curve)).
Proof.
  unfold _find_profiles.
  change (List.filter (runs_along profileLoops contained_curve)
            (profiles (parentSketch contained_curve)))
    with ([] ++ List.filter (runs_along profileLoops contained_curve)
                  (profiles (parentSketch contained_curve))).
  generalize (@nil Profile) as ret.
  induction (profiles (parentSketch contained_curve)) as [|p ps IH];
    intros ret; simpl.
  - now rewrite app_nil_r.
  - rewrite IH, loops_loop_existsb. unfold runs_along at 2.
    destruct (existsb _ (profileLoops p)); simpl;
      [now rewrite <- app_assoc | reflexivity].
Qed.

End FindProfiles.

(** ** Joining and grouping nodes *)

Lemma split_first_step (collected bodies : list BRepBody) :
  fold_left
    (fun '(first_body, bodies) body =>
       match first_body with
       | None => (Some body, bodies)
       | Some _ => (first_body, bodies ++ [body])
       end) bodies (split_first collected)
  = split_first (collected ++ bodies).
Proof.
  revert collected. induction bodies as [|b bs IH]; intros collected; simpl.
  - now rewrite app_nil_r.
  - destruct collected as [|c cs]; simpl.
    + apply (IH [b]).
    + pose proof (IH (c :: cs ++ [b])) as H. simpl in H. rewrite H.
      now rewrite <- app_assoc.
Qed.

Lemma pure_loop {A B} (step : B -> A -> B) (xs : list A) (acc : B)
    (body : B -> A -> M B) (st : Design) :
  List.Forall (fun x => forall acc st, body acc x st = (st, Ok (step acc x)))
    xs ->
  for_fold xs acc body st = (st, Ok (fold_left step xs acc)).
Proof.
  intros Hbody.
  rewrite <- (app_nil_r xs) at 1.
  now rewrite (for_fold_prefix body step xs [] Hbody).
Qed.

Lemma fold_left_flat_map {A B} (f : A -> list B) (xs : list A) (acc : list B) :
  fold_left (fun acc x => acc ++ f x) xs acc = acc ++ flat_map f xs.
Proof.
  revert acc. induction xs as [|x xs IH]; intros acc; simpl.
  - now rewrite app_nil_r.
  - rewrite IH. now rewrite <- app_assoc.
Qed.

Lemma hidden_children_contribute_nothing (occurrences : list Occurrence)
    (target : nat) :
  List.filter isLightBulbOn
    (map (fun o => moved_and_hidden o target) occurrences) = [].
Proof. induction occurrences; simpl; auto. Qed.

Lemma hide_loop (occurrences : list Occurrence) (target : nat)
    (acc : list Occurrence) :
  fold_left
    (fun children occurrence =>
       match occurrence with
       | OccurrenceEntity o => children ++ [moved_and_hidden o target]
       | SketchEntity _ => children
       end) (map OccurrenceEntity occurrences) acc
  = acc ++ map (fun o => moved_and_hidden o target) occurrences.
Proof.
  revert acc. induction occurrences as [|o os IH]; intros acc; simpl.
  - now rewrite app_nil_r.
  - rewrite IH. now rewrite <- app_assoc.
Qed.

Lemma combineFeatures_add_returns (kernel : Kernel) (target : BRepBody)
    (tools : list BRepBody) (made : list TemporaryBody) (st : Design) :
  combine_result kernel JoinFeatureOperation target tools = Ok made ->
  exists st' bodies,
    combineFeatures_add kernel (Some target) tools st
    = (st', Ok (mkFeature (next_id st) bodies (S (next_id st))))
    /\ List.length bodies = List.length made.
Proof.
  intros Hmade. unfold combineFeatures_add, addNewComponent. run_monad.
  unfold M_bind at 1. rewrite Hmade.
  unfold M_bind at 1. unfold fresh at 1.
  unfold M_bind at 1. unfold M_bind at 1. unfold fresh at 1.
  unfold M_bind at 1. unfold M_bind at 1. unfold record at 1.
  cbn [next_id timeline transforms snapshots attributes].
  match goal with
  | |- context [M_bind (adopt_bodies ?c ?f ?m) _ ?s] =>
      destruct (adopt_bodies_returns c f m s) as (st1 & bodies & Hrun & Hlen)
  end.
  eexists _, bodies. split; [|exact Hlen].
  rewrite (bind_Ok _ _ _ _ _ Hrun). reflexivity.
Qed.

Lemma mbind_Ok {A B} (m : M A) (k : A -> M B) (st st' : Design) (a : A) :
  m st = (st', Ok a) -> (x ← m; k x) st = k a st'.
Proof. apply bind_Ok. Qed.

Lemma mbind_Raise {A B} (m : M A) (k : A -> M B) (st st' : Design) (e : exn) :
  m st = (st', Raise e) -> (x ← m; k x) st = (st', Raise e).
Proof. apply bind_Raise. Qed.

Lemma collect_bodies_loop (occurrences : list Occurrence)
    (collected : list BRepBody) (st : Design) :
  for_fold (map OccurrenceEntity occurrences) (split_first collected)
    (fun '(first_body, bodies) occurrence =>
       occurrence ← the_occurrence occurrence;
       mret (fold_left
               (fun '(first_body, bodies) body =>
                  match first_body with
                  | None => (Some body, bodies)
                  | Some _ => (first_body, bodies ++ [body])
                  end)
               (_occurrence_bodies occurrence) (first_body, bodies))) st
  = (st, Ok (split_first (collected ++ visible_bodies occurrences))).
Proof.
  revert collected. induction occurrences as [|o os IH]; intros collected.
  - simpl. now rewrite app_nil_r.
  - cbn [map for_fold]. unfold M_bind at 1.
    destruct (split_first collected) as [fb bs] eqn:Hsplit.
    cbn [the_occurrence]. unfold mbind, M_mbind, M_bind, mret, M_mret, M_ret.
    rewrite <- Hsplit, split_first_step.
    pose proof (IH (collected ++ _occurrence_bodies o)) as H.
    unfold mbind, M_mbind, M_bind, mret, M_mret, M_ret in H.
    rewrite H. unfold visible_bodies. simpl. now rewrite app_assoc.
Qed.

(** X17. [union] of nodes: the visible bodies of the arguments, taken node
    after node, are joined, the first one as target and the others as
    tools, in that order.  When the kernel makes the join, [union] returns
    a new node that holds the joined bodies and has the arguments as its
    children in argument order, each of them hidden; collecting the bodies
    of the result therefore yields the joined bodies only. *)
Theorem union_of_nodes_hides_arguments (kernel : Kernel)
    (occurrences : list Occurrence) (name : option string) (st : Design)
    (first : BRepBody) (others : list BRepBody) (made : list TemporaryBody) :
  visible_bodies occurrences = first :: others ->
  combine_result kernel JoinFeatureOperation first others = Ok made ->
  exists st' node,
    union kernel (map OccurrenceEntity occurrences) name st
    = (st', Ok (OccurrenceEntity node))
    /\ occ_id node = S (next_id st)
    /\ List.length (bRepBodies node) = List.length made
    /\ childOccurrences node
       = map (fun o => moved_and_hidden o (occ_id node)) occurrences
    /\ _occurrence_bodies node = bRepBodies node.
Proof.
  intros Hvisible Hmade.
  assert (union kernel (map OccurrenceEntity occurrences) name st
          = (occurrence ← _occurrence_union kernel
                            (map OccurrenceEntity occurrences) name;
             mret (OccurrenceEntity occurrence)) st) as ->.
  { destruct occurrences; reflexivity. }
  destruct (combineFeatures_add_returns kernel first others made st Hmade)
    as (st1 & bodies & Hcombine & Hlen).
  pose proof (collect_bodies_loop occurrences [] st) as Hcollect.
  simpl in Hcollect. rewrite Hvisible in Hcollect. simpl in Hcollect.
  exists st1. eexists.
  split.
  - unfold _occurrence_union.
    erewrite mbind_Ok; [reflexivity|].
    erewrite mbind_Ok; [|exact Hcollect]. cbv beta iota.
    erewrite mbind_Ok; [|exact Hcombine].
    erewrite mbind_Ok; [reflexivity|].
    apply (pure_loop
             (fun children occurrence =>
                match occurrence with
                | OccurrenceEntity o =>
                    children ++ [moved_and_hidden o (S (next_id st))]
                | SketchEntity _ => children
                end)).
    apply List.Forall_forall. intros e He acc st0.
    apply in_map_iff in He as (o & <- & _). reflexivity.
  - cbn [occ_id bRepBodies childOccurrences].
    split; [reflexivity|]. split; [exact Hlen|].
    pose proof (hide_loop occurrences (S (next_id st)) []) as Hchildren.
    simpl in Hchildren.
    split; [exact Hchildren|].
    rewrite _occurrence_bodies_eq. cbn [bRepBodies childOccurrences].
    rewrite Hchildren, hidden_children_contribute_nothing. simpl.
    now rewrite app_nil_r.
Qed.

Lemma union_of_nodes_hides_arguments_witness :
  exists st' node,
    union example_kernel
      (map OccurrenceEntity
         [leaf_occurrence 2 [example_body 12] true;
          leaf_occurrence 3 [example_body 13] true]) None example_design
    = (st', Ok (OccurrenceEntity node))
    /\ List.length (bRepBodies node) = 1%nat
    /\ _occurrence_bodies node = bRepBodies node.
Proof.
  destruct (union_of_nodes_hides_arguments example_kernel
              [leaf_occurrence 2 [example_body 12] true;
               leaf_occurrence 3 [example_body 13] true] None example_design
              (example_body 12) [example_body 13] [mkTemporaryBody [] []]
              eq_refl eq_refl)
    as (st' & node & Hrun & _ & Hlen & _ & Hbodies).
  exists st', node. auto.
Defined.

(** X18. [union] looks at its first argument only to choose between
    sketches and nodes.  When the first argument is a node and a sketch
    comes later, [union] raises [AttributeError] and the design is
    unchanged: the sketch has no bodies to collect, and nothing has been
    handed to the host yet. *)
Theorem union_of_nodes_rejects_sketch (kernel : Kernel)
    (first : Occurrence) (before : list Occurrence) (sketch : Sketch)
    (after : list Entity) (name : option string) (st : Design) :
  union kernel
    (map OccurrenceEntity (first :: before) ++ SketchEntity sketch :: after)
    name st
  = (st, Raise AttributeError).
Proof.
  cbn [map app union]. apply mbind_Raise.
  unfold _occurrence_union. apply mbind_Raise.
  change (OccurrenceEntity first
            :: map OccurrenceEntity before ++ SketchEntity sketch :: after)
    with (map OccurrenceEntity (first :: before)
            ++ SketchEntity sketch :: after).
  rewrite (for_fold_prefix _
             (fun '(first_body, bodies) occurrence =>
                match occurrence with
                | OccurrenceEntity o =>
                    fold_left
                      (fun '(first_body, bodies) body =>
                         match first_body with
                         | None => (Some body, bodies)
                         | Some _ => (first_body, bodies ++ [body])
                         end) (_occurrence_bodies o) (first_body, bodies)
                | SketchEntity _ => (first_body, bodies)
                end)).
  - cbn [for_fold]. apply bind_Raise.
    destruct (fold_left _ _ _) as [fb bs]. reflexivity.
  - apply List.Forall_forall. intros e He [fb bs] st0.
    apply in_map_iff in He as (o & <- & _). reflexivity.
Qed.

Lemma loft_sections_loop (sketches : list Sketch) (sections : list Profile)
    (st : Design) :
  List.Forall (fun s => List.length (profiles s) = 1%nat) sketches ->
  for_fold sketches sections
    (fun loft_sections sketch =>
       if (1 <? List.length (profiles sketch))%nat
       then raise (ValueError (multiple_profiles_message sketch))
       else loftSections_add loft_sections (item (profiles sketch) 0)) st
  = (st, Ok (sections ++ flat_map profiles sketches)).
Proof.
  intros Hone.
  rewrite (pure_loop (fun sections s => sections ++ profiles s)).
  - now rewrite fold_left_flat_map.
  - eapply List.Forall_impl; [|exact Hone].
    intros s Hs acc st0. apply (loft_accepts_single_profile acc s st0 Hs).
Qed.

(** X19. [loft] over sketches that have exactly one profile each hands
    these profiles to the kernel in the order of the arguments.  If the
    kernel refuses them, the exception is raised and the design is
    unchanged; if it makes the loft, a new node with an id of its own and
    one body per body made is returned. *)
Theorem loft_of_single_profile_sketches (kernel : Kernel)
    (sketches : list Sketch) (st : Design) :
  List.Forall (fun s => List.length (profiles s) = 1%nat) sketches ->
  match loft_result kernel (flat_map profiles sketches) with
  | Raise e => loft kernel sketches st = (st, Raise e)
  | Ok made =>
      exists st' node,
        loft kernel sketches st = (st', Ok node)
        /\ occ_id node = S (next_id st)
        /\ List.length (bRepBodies node) = List.length made
        /\ childOccurrences node = []
  end.
Proof.
  intros Hone. unfold loft.
  erewrite mbind_Ok; [|apply (loft_sections_loop sketches [] st Hone)].
  cbn [app].
  destruct (loft_result kernel (flat_map profiles sketches)) as [made|e] eqn:Hk.
  - destruct (adopt_bodies_returns (S (next_id st)) (next_id st) made
                (mkDesign (timeline st ++ [NewComponentItem (S (next_id st))])
                   (<[S (next_id st) := Matrix3D_create]> (transforms st))
                   (snapshots st) (attributes st) (S (S (next_id st)))))
      as (st1 & bodies & Hrun & Hlen).
    eexists _, _. split.
    + erewrite mbind_Ok; [|reflexivity].
      erewrite mbind_Ok; [|reflexivity].
      erewrite mbind_Ok; [|reflexivity].
      erewrite mbind_Ok; [|exact Hrun].
      reflexivity.
    + cbn [occ_id bRepBodies childOccurrences]. auto.
  - now apply mbind_Raise.
Qed.

Lemma loft_of_single_profile_sketches_witness :
  exists st' node,
    loft example_kernel
      [example_sketch "base" [example_profile 1];
       example_sketch "top" [example_profile 2]] empty_design
    = (st', Ok node)
    /\ occ_id node = 2%nat.
Proof.
  pose proof (loft_of_single_profile_sketches example_kernel
                [example_sketch "base" [example_profile 1];
                 example_sketch "top" [example_profile 2]] empty_design) as H.
  destruct H as (st' & node & Hrun & Hid & _).
  - repeat constructor.
  - exists st', node. auto.
Defined.

Lemma _occurrence_bodies_moved_into (occurrence : Occurrence) (target : nat) :
  _occurrence_bodies (moved_into occurrence target)
  = _occurrence_bodies occurrence.
Proof. now destruct occurrence. Qed.

Lemma move_loop (occurrences : list Occurrence) (target : nat)
    (acc : list Occurrence) :
  fold_left (fun moved o => moved ++ [moved_into o target]) occurrences acc
  = acc ++ map (fun o => moved_into o target) occurrences.
Proof. apply (append_map_loop (fun o => moved_into o target)). Qed.

(** X20. [component] puts the given nodes, in order and as visible as they
    were, below a new node that has no body of its own, an identity
    transform and a fresh id; the design gains this one component.  The
    bodies collected from the new node are the visible bodies of the
    arguments whose light bulb is on. *)
Theorem component_groups_nodes (occurrences : list Occurrence) (name : string)
    (st : Design) :
  exists st' node,
    component occurrences name st = (st', Ok node)
    /\ occ_id node = next_id st
    /\ childOccurrences node
       = map (fun o => moved_into o (next_id st)) occurrences
    /\ _occurrence_bodies node
       = visible_bodies (List.filter isLightBulbOn occurrences)
    /\ transforms st' = <[next_id st := Matrix3D_create]> (transforms st)
    /\ timeline st' = timeline st ++ [NewComponentItem (next_id st)]
    /\ snapshots st' = snapshots st.
Proof.
  eexists _, _. split.
  - unfold component. erewrite mbind_Ok; [|reflexivity].
    erewrite mbind_Ok; [reflexivity|].
    apply (pure_loop (fun moved o => moved ++ [moved_into o (next_id st)])).
    apply List.Forall_forall. intros o _ acc st0. reflexivity.
  - split; [reflexivity|].
    split; [cbn [childOccurrences]; apply (move_loop occurrences _ [])|].
    split; [|repeat split].
    rewrite _occurrence_bodies_eq. cbn [bRepBodies childOccurrences app].
    rewrite (move_loop occurrences _ []). cbn [app]. unfold visible_bodies.
    induction occurrences as [|o os IH]; [reflexivity|].
    destruct o as [id nm bodies sks context visible children].
    cbn [map List.filter moved_into isLightBulbOn].
    destruct visible; [|exact IH].
    cbn [flat_map]. rewrite IH. reflexivity.
Qed.

(** ** Intersection and difference *)

Lemma py_index_head {A} (x : A) (xs : list A) : py_index (x :: xs) 0 = Ok x.
Proof.
  unfold py_index. cbn [List.length]. rewrite Nat2Z.inj_succ.
  change (0 <? 0)%Z with false. cbv beta iota zeta.
  change (0 <=? 0)%Z with true.
  destruct (Z.ltb_spec 0 (Z.succ (Z.of_nat (List.length xs)))) as [_|H];
    [reflexivity | lia].
Qed.

Lemma loop_returns {A B} (body : B -> A -> M B) :
  (forall acc x st, exists st' acc', body acc x st = (st', Ok acc')) ->
  forall xs acc st, exists st' out, for_fold xs acc body st = (st', Ok out).
Proof.
  intros Hbody xs acc st.
  destruct (for_fold_measure (fun _ : B => 0%nat) (fun _ : A => 0%nat) body xs)
    with (acc := acc) (st := st) as (st' & out & Hrun & _).
  - apply List.Forall_forall. intros x _ acc0 st0.
    destruct (Hbody acc0 x st0) as (st1 & acc1 & H).
    exists st1, acc1. split; [exact H | reflexivity].
  - now exists st', out.
Qed.

Lemma copy_loop_returns (bodies : list BRepBody) (component : nat)
    (st : Design) :
  exists st' copies,
    for_fold bodies []
      (fun copies body =>
         copy ← copyToComponent body component; mret (copies ++ [copy])) st
    = (st', Ok copies)
    /\ List.length copies = List.length bodies.
Proof.
  destruct (for_fold_measure (@List.length BRepBody) (fun _ : BRepBody => 1%nat)
              (fun copies body =>
                 copy ← copyToComponent body component;
                 mret (copies ++ [copy])) bodies)
    with (acc := @nil BRepBody) (st := st) as (st' & copies & Hrun & Hlen).
  - apply List.Forall_forall. intros body _ acc st0.
    unfold copyToComponent.
    destruct (bRepBodies_add_returns component
                (mkTemporaryBody (map geometry (faces body)) []) (next_id st0)
                (mkDesign (timeline st0) (transforms st0) (snapshots st0)
                   (attributes st0) (S (next_id st0))))
      as (st1 & copy & Hcopy & _).
    exists st1, (acc ++ [copy]). split.
    + erewrite mbind_Ok; [reflexivity|].
      erewrite mbind_Ok; [exact Hcopy | reflexivity].
    + rewrite length_app. reflexivity.
  - exists st', copies. split; [exact Hrun|].
    rewrite Hlen, list_sum_ones. reflexivity.
Qed.

Section BooleansReturn.

Variable kernel : Kernel.
Hypothesis kernel_combines :
  forall operation target tools,
  exists made, combine_result kernel operation target tools = Ok made.

Lemma combine_in_place_returns (component : nat) (operation : FeatureOperations)
    (target : BRepBody) (tools : list BRepBody) (st : Design) :
  exists st' bodies,
    combine_in_place kernel component operation target tools st
    = (st', Ok bodies).
Proof.
  destruct (kernel_combines operation target tools) as (made & Hmade).
  destruct (adopt_bodies_returns component (next_id st) made
              (mkDesign (timeline st) (transforms st) (snapshots st)
                 (attributes st) (S (next_id st))))
    as (st1 & bodies & Hrun & _).
  eexists _, bodies. unfold combine_in_place.
  erewrite mbind_Ok; [|unfold lift; rewrite Hmade; reflexivity].
  erewrite mbind_Ok; [|reflexivity].
  erewrite mbind_Ok; [|exact Hrun].
  reflexivity.
Qed.

Lemma _do_difference_returns (component : nat) (bodies : list BRepBody)
    (tool : Occurrence) (st : Design) :
  exists st' bodies',
    _do_difference kernel component bodies tool st = (st', Ok bodies').
Proof.
  unfold _do_difference. apply loop_returns. intros acc target st0.
  destruct (combine_in_place_returns component CutFeatureOperation target
              (fold_left (fun tool_bodies tool_body => tool_bodies ++ [tool_body])
                 (_occurrence_bodies tool) []) st0) as (st1 & made & Hrun).
  exists st1, (acc ++ made). erewrite mbind_Ok; [reflexivity | exact Hrun].
Qed.

Lemma _do_intersection_returns (component : nat) (bodies : list BRepBody)
    (tool : Occurrence) (st : Design) :
  exists st' bodies',
    _do_intersection kernel component bodies tool st = (st', Ok bodies').
Proof.
  unfold _do_intersection. apply loop_returns. intros acc target st0.
  destruct (combine_in_place_returns component IntersectFeatureOperation target
              (_collection_of (_occurrence_bodies tool)) st0)
    as (st1 & made & Hrun).
  exists st1, (acc ++ made). erewrite mbind_Ok; [reflexivity | exact Hrun].
Qed.

End BooleansReturn.

Lemma hide_all_loop (occurrences : list Occurrence) (target : nat)
    (st : Design) :
  for_fold occurrences []
    (fun children occurrence =>
       mret (children ++ [moved_and_hidden occurrence target])) st
  = (st, Ok (map (fun o => moved_and_hidden o target) occurrences)).
Proof.
  rewrite (pure_loop (fun children o => children ++ [moved_and_hidden o target])).
  - now rewrite (append_map_loop (fun o => moved_and_hidden o target)).
  - apply List.Forall_forall. intros o _ acc st0. reflexivity.
Qed.

Lemma only_own_bodies (id : nat) (name : string) (bodies : list BRepBody)
    (context : option nat) (occurrences : list Occurrence) (target : nat) :
  _occurrence_bodies
    (mkOccurrence id name bodies [] context true
       (map (fun o => moved_and_hidden o target) occurrences))
  = bodies.
Proof.
  rewrite _occurrence_bodies_eq. cbn [bRepBodies childOccurrences].
  rewrite hidden_children_contribute_nothing. simpl. apply app_nil_r.
Qed.

(** The design after [addNewComponent(Matrix3D.create())]. *)
Ltac after_new_component st :=
  constr:(mkDesign (timeline st ++ [NewComponentItem (next_id st)])
            (<[next_id st := Matrix3D_create]> (transforms st))
            (snapshots st) (attributes st) (S (next_id st))).

Ltac boolean_result unfolding tool_returns :=
  match goal with
  | kernel : Kernel, base : Occurrence, tools : list Occurrence,
    name : option string, st : Design, Hk : (forall operation target tools, exists made, _) |- _ =>
      let st1 := after_new_component st in
      destruct (copy_loop_returns (_occurrence_bodies base) (next_id st) st1)
        as (st2 & copies & Hcopies & Hlen);
      destruct (loop_returns _
                  (fun bodies tool st0 =>
                     tool_returns kernel Hk (next_id st) bodies tool st0)
                  tools copies st2) as (st3 & bodies & Htools);
      exists st3;
      exists (mkOccurrence (next_id st) (name_or name (occ_name base)) bodies []
                (assemblyContext base) true
                (map (fun o => moved_and_hidden o (next_id st)) (base :: tools)));
      split;
      [ unfolding;
        erewrite mbind_Ok; [|unfold lift; rewrite py_index_head; reflexivity];
        erewrite mbind_Ok; [|reflexivity];
        erewrite mbind_Ok; [|exact Hcopies];
        erewrite mbind_Ok; [|exact Htools];
        erewrite mbind_Ok; [|apply hide_all_loop];
        reflexivity
      | split; [reflexivity|]; split; [reflexivity|]; split; [reflexivity|];
        split; [reflexivity|]; split; [apply only_own_bodies|];
        intros ->; simpl in Htools; inversion Htools; subst; exact Hlen ]
  end.

(** X21. [difference]: without arguments it raises [IndexError] and changes
    nothing.  With a base node and tools, and a kernel that makes every
    combine, it returns a new node with a fresh id, named by [name] or, when
    [name] is missing or empty, after the base, in the assembly context of
    the base; its children are the base and the tools in argument order,
    all hidden, so that its collected bodies are its own bodies; without
    tools these are as many copies as the base has visible bodies. *)
Theorem difference_result (kernel : Kernel) (base : Occurrence)
    (tools : list Occurrence) (name : option string) (st : Design) :
  (forall operation target tools,
      exists made, combine_result kernel operation target tools = Ok made) ->
  difference kernel [] name st = (st, Raise IndexError)
  /\ exists st' node,
       difference kernel (base :: tools) name st = (st', Ok node)
       /\ occ_id node = next_id st
       /\ occ_name node = name_or name (occ_name base)
       /\ assemblyContext node = assemblyContext base
       /\ childOccurrences node
          = map (fun o => moved_and_hidden o (next_id st)) (base :: tools)
       /\ _occurrence_bodies node = bRepBodies node
       /\ (tools = [] ->
           List.length (bRepBodies node)
           = List.length (_occurrence_bodies base)).
Proof.
  intros Hk. split; [reflexivity|].
  boolean_result ltac:(unfold difference) _do_difference_returns.
Qed.

(** X22. [intersection] behaves in the same way: [IndexError] without
    arguments; otherwise a new node named by [name] or after the base, in
    the context of the base, whose children are the arguments in order, all
    hidden, and whose collected bodies are its own bodies; with the base
    alone these are as many copies as the base has visible bodies. *)
Theorem intersection_result (kernel : Kernel) (base : Occurrence)
    (tools : list Occurrence) (name : option string) (st : Design) :
  (forall operation target tools,
      exists made, combine_result kernel operation target tools = Ok made) ->
  intersection kernel [] name st = (st, Raise IndexError)
  /\ exists st' node,
       intersection kernel (base :: tools) name st = (st', Ok node)
       /\ occ_id node = next_id st
       /\ occ_name node = name_or name (occ_name base)
       /\ assemblyContext node = assemblyContext base
       /\ childOccurrences node
          = map (fun o => moved_and_hidden o (next_id st)) (base :: tools)
       /\ _occurrence_bodies node = bRepBodies node
       /\ (tools = [] ->
           List.length (bRepBodies node)
           = List.length (_occurrence_bodies base)).
Proof.
  intros Hk. split; [reflexivity|].
  boolean_result ltac:(unfold intersection) _do_intersection_returns.
Qed.

Lemma difference_result_witness :
  exists st' node,
    difference example_kernel
      [example_tree; leaf_occurrence 4 [example_body 14] true] (Some "")
      example_design
    = (st', Ok node)
    /\ occ_name node = "Assembly"
    /\ _occurrence_bodies node = bRepBodies node.
Proof.
  destruct (difference_result example_kernel example_tree
              [leaf_occurrence 4 [example_body 14] true] (Some "")
              example_design)
    as (_ & st' & node & Hrun & _ & Hname & _ & _ & Hbodies & _).
  - intros operation target tools. eexists. reflexivity.
  - exists st', node. split; [exact Hrun|]. split; [exact Hname | exact Hbodies].
Defined.

Lemma intersection_result_witness :
  exists st' node,
    intersection example_kernel [example_tree] None example_design
    = (st', Ok node)
    /\ List.length (bRepBodies node) = 3%nat.
Proof.
  destruct (intersection_result example_kernel example_tree [] None
              example_design)
    as (_ & st' & node & Hrun & _ & _ & _ & _ & _ & Hcopies).
  - intros operation target tools. eexists. reflexivity.
  - exists st', node. split; [exact Hrun|]. now rewrite Hcopies.
Defined.

(** ** Duplicating a node *)

Lemma for_fold_counted {A B} (I : nat -> B -> Prop) (body : B -> A -> M B) :
  (forall n acc x st, I n acc ->
     exists st' acc', body acc x st = (st', Ok acc') /\ I (S n) acc') ->
  forall xs n acc st, I n acc ->
    exists st' out,
      for_fold xs acc body st = (st', Ok out)
      /\ I (n + List.length xs)%nat out.
Proof.
  intros Hbody xs. induction xs as [|x xs IH]; intros n acc st Hacc; simpl.
  - exists st, acc. split; [reflexivity|]. now rewrite Nat.add_0_r.
  - destruct (Hbody n acc x st Hacc) as (st1 & acc1 & Hrun & Hacc1).
    destruct (IH (S n) acc1 st1 Hacc1) as (st2 & out & Hrest & Hout).
    exists st2, out. rewrite (bind_Ok _ _ _ _ _ Hrun).
    split; [exact Hrest|]. now rewrite Nat.add_succ_r.
Qed.

(** X23. [duplicate] first creates the result component and moves the node
    into it, and only then reads [values[0]]: with no values it raises
    [IndexError] after the design has gained the new component, and [func]
    is not called.  With at least one value and a [func] that returns, the
    result has one child per value: the node itself, moved, and then
    further visible occurrences of its component, each with the bodies of
    the node. *)
Theorem duplicate_one_child_per_value {V R} (func : Occurrence -> V -> M R)
    (value : V) (values : list V) (occurrence : Occurrence) (st : Design) :
  (forall o v st0, exists st1 r, func o v st0 = (st1, Ok r)) ->
  (exists st',
      duplicate func [] occurrence st = (st', Raise IndexError)
      /\ timeline st' = timeline st ++ [NewComponentItem (next_id st)]
      /\ transforms st' = <[next_id st := Matrix3D_create]> (transforms st))
  /\ exists st' node copies,
       duplicate func (value :: values) occurrence st = (st', Ok node)
       /\ occ_id node = next_id st
       /\ childOccurrences node
          = moved_into occurrence (next_id st) :: copies
       /\ List.length copies = List.length values
       /\ List.Forall
            (fun copy =>
               bRepBodies copy = bRepBodies occurrence
               /\ isLightBulbOn copy = true
               /\ assemblyContext copy = Some (next_id st)) copies.
Proof.
  intros Hfunc. split.
  - exists (mkDesign (timeline st ++ [NewComponentItem (next_id st)])
              (<[next_id st := Matrix3D_create]> (transforms st))
              (snapshots st) (attributes st) (S (next_id st))).
    split; [|split; reflexivity].
    unfold duplicate. erewrite mbind_Ok; [|reflexivity].
    now apply mbind_Raise.
  - destruct (Hfunc (moved_into occurrence (next_id st)) value
                (mkDesign (timeline st ++ [NewComponentItem (next_id st)])
                   (<[next_id st := Matrix3D_create]> (transforms st))
                   (snapshots st) (attributes st) (S (next_id st))))
      as (st1 & r & Hfirst).
    destruct (for_fold_counted
                (fun n copies =>
                   List.length copies = n
                   /\ List.Forall
                        (fun copy =>
                           bRepBodies copy = bRepBodies occurrence
                           /\ isLightBulbOn copy = true
                           /\ assemblyContext copy = Some (next_id st)) copies)
                (fun copies v =>
                   duplicate_occurrence ←
                     addExistingComponent (next_id st)
                       (moved_into occurrence (next_id st)) Matrix3D_create;
                   _ ← func duplicate_occurrence v;
                   mret (copies ++ [duplicate_occurrence])))
      with (xs := values) (n := 0%nat) (acc := @nil Occurrence) (st := st1)
      as (st2 & copies & Hloop & Hlen & Hall).
    + intros n acc v st0 [Hn Hacc].
      destruct (Hfunc
                  (mkOccurrence (next_id st0)
                     (occ_name (moved_into occurrence (next_id st)))
                     (bRepBodies (moved_into occurrence (next_id st)))
                     (sketches (moved_into occurrence (next_id st)))
                     (Some (next_id st)) true
                     (childOccurrences (moved_into occurrence (next_id st))))
                  v
                  (mkDesign (timeline st0)
                     (<[next_id st0 := Matrix3D_create]> (transforms st0))
                     (snapshots st0) (attributes st0) (S (next_id st0))))
        as (st1' & r' & Hcall).
      eexists _, _. split.
      * erewrite mbind_Ok; [|reflexivity].
        erewrite mbind_Ok; [|exact Hcall]. reflexivity.
      * split; [rewrite length_app; simpl; lia|].
        apply List.Forall_app. split; [exact Hacc|].
        constructor; [|constructor]. now destruct occurrence.
    + split; [reflexivity | constructor].
    + exists st2. eexists. exists copies. split.
      * unfold duplicate.
        erewrite mbind_Ok; [|reflexivity].
        erewrite mbind_Ok; [|unfold lift; rewrite py_index_head; reflexivity].
        erewrite mbind_Ok; [|exact Hfirst].
        erewrite mbind_Ok; [|exact Hloop].
        reflexivity.
      * split; [reflexivity|]. split; [reflexivity|].
        split; [exact Hlen | exact Hall].
Qed.

Lemma duplicate_one_child_per_value_witness :
  exists st' node copies,
    duplicate tx [0; 10; 20] example_tree example_design = (st', Ok node)
    /\ childOccurrences node = moved_into example_tree 20 :: copies
    /\ List.length copies = 2%nat.
Proof.
  destruct (duplicate_one_child_per_value
              (fun o v st0 =>
                 match transforms st0 !! occ_id o with
                 | Some _ => tx o v st0
                 | None => (st0, Ok o)
                 end) 0 [10; 20] example_tree example_design)
    as (_ & st' & node & copies & Hrun & _ & Hchildren & Hlen & _).
  - intros o v st0. destruct (transforms st0 !! occ_id o) as [m|] eqn:Hm.
    + destruct (translate_returns o v 0 0 st0 m Hm) as (st1 & _ & Hrun & _).
      exists st1, o. exact Hrun.
    + now exists st0, o.
  - exists st', node, copies. split; [|split; [exact Hchildren | exact Hlen]].
    rewrite <- Hrun. reflexivity.
Defined.

(** ** The bounding box encloses what was measured *)

Lemma encloses_refl (b : BoundingBox3D) : encloses b b.
Proof. unfold encloses. repeat split; apply Qle_refl. Qed.

Lemma encloses_trans (a b c : BoundingBox3D) :
  encloses a b -> encloses b c -> encloses a c.
Proof.
  unfold encloses.
  intros [(H1 & H2 & H3) (H4 & H5 & H6)] [(G1 & G2 & G3) (G4 & G5 & G6)].
  repeat split; eapply Qle_trans; eauto.
Qed.

Lemma combine_encloses_left (b other : BoundingBox3D) :
  encloses (combine b other) b.
Proof.
  unfold encloses, combine. simpl.
  repeat split; auto using Q.le_min_l, Q.le_max_l.
Qed.

Lemma combine_encloses_right (b other : BoundingBox3D) :
  encloses (combine b other) other.
Proof.
  unfold encloses, combine. simpl.
  repeat split; auto using Q.le_min_r, Q.le_max_r.
Qed.

Lemma fold_combine_encloses (boxes : list BoundingBox3D) (b : BoundingBox3D) :
  encloses (fold_left combine boxes b) b
  /\ List.Forall (encloses (fold_left combine boxes b)) boxes.
Proof.
  revert b. induction boxes as [|x xs IH]; intros b; simpl.
  - split; [apply encloses_refl | constructor].
  - destruct (IH (combine b x)) as [Hacc Hrest]. split.
    + eapply encloses_trans; [exact Hacc | apply combine_encloses_left].
    + constructor; [|exact Hrest].
      eapply encloses_trans; [exact Hacc | apply combine_encloses_right].
Qed.

Lemma wires_loop {A B C} (f : A -> result B) (wrap : B -> C) (xs : list A)
    (made : list B) (acc : list C) :
  rmap f xs = Ok made ->
  rfold_left (fun bodies x => wire ← f x; Ok (bodies ++ [wrap wire])) xs acc
  = Ok (acc ++ map wrap made).
Proof.
  revert made acc. induction xs as [|x xs IH]; simpl; intros made acc H.
  - inversion H; subst. simpl. now rewrite app_nil_r.
  - unfold mbind, result_bind, rbind in *.
    destruct (f x) as [y|]; [|discriminate].
    destruct (rmap f xs) as [ys|] eqn:Hrest; [|discriminate].
    inversion H; subst. rewrite (IH ys (acc ++ [wrap y]) eq_refl).
    simpl. now rewrite <- app_assoc.
Qed.

Lemma measuring_loop (measure : AnyBody -> result OrientedBoundingBox3D)
    (bodies : list AnyBody) (measured : list OrientedBoundingBox3D)
    (b : BoundingBox3D) :
  rmap measure bodies = Ok measured ->
  rfold_left
    (fun bounding_box body =>
       oriented ← measure body;
       let body_bounding_box := _oriented_bounding_box_to_bounding_box oriented in
       match bounding_box with
       | None => Ok (Some body_bounding_box)
       | Some bounding_box => Ok (Some (combine bounding_box body_bounding_box))
       end) bodies (Some b)
  = Ok (Some (fold_left combine
                (map _oriented_bounding_box_to_bounding_box measured) b)).
Proof.
  revert measured b. induction bodies as [|x xs IH]; simpl; intros measured b H.
  - inversion H; subst. reflexivity.
  - unfold mbind, result_bind, rbind in *.
    destruct (measure x) as [o|]; [|discriminate].
    destruct (rmap measure xs) as [os|] eqn:Hrest; [|discriminate].
    inversion H; subst. simpl. now rewrite (IH os _ eq_refl).
Qed.

Lemma measuring_from_nothing
    (measure : AnyBody -> result OrientedBoundingBox3D)
    (bodies : list AnyBody) (measured : list OrientedBoundingBox3D) :
  rmap measure bodies = Ok measured ->
  rfold_left
    (fun bounding_box body =>
       oriented ← measure body;
       let body_bounding_box := _oriented_bounding_box_to_bounding_box oriented in
       match bounding_box with
       | None => Ok (Some body_bounding_box)
       | Some bounding_box => Ok (Some (combine bounding_box body_bounding_box))
       end) bodies None
  = Ok match measured with
       | [] => None
       | first :: others =>
           Some (fold_left combine
                   (map _oriented_bounding_box_to_bounding_box others)
                   (_oriented_bounding_box_to_bounding_box first))
       end.
Proof.
  destruct bodies as [|x xs]; simpl; intros H.
  - inversion H; subst. reflexivity.
  - unfold mbind, result_bind, rbind in *.
    destruct (measure x) as [o|]; [|discriminate].
    destruct (rmap measure xs) as [os|] eqn:Hrest; [|discriminate].
    inversion H; subst. simpl.
    pose proof (measuring_loop measure xs os
                  (_oriented_bounding_box_to_bounding_box o) Hrest) as Hloop.
    unfold mbind, result_bind, rbind in Hloop. exact Hloop.
Qed.

(** X24. When the kernel makes a wire body of every visible sketch of the
    node and measures every visible body and every wire body, the box that
    [_get_exact_bounding_box] returns encloses the box of each measured
    body; it is [None] when there is nothing to measure, and for a single
    body it is the box of that body. *)
Theorem bounding_box_encloses_every_body (kernel : Kernel)
    (placements : gmap nat Matrix3D) (occurrence : Occurrence)
    (wires : list TemporaryBody) (measured : list OrientedBoundingBox3D) :
  rmap (wire_in_context kernel occurrence) (_occurrence_sketches occurrence)
  = Ok wires ->
  rmap (measure_along_world_axes kernel placements)
    (map Persistent (_occurrence_bodies occurrence) ++ map Temporary wires)
  = Ok measured ->
  match measured with
  | [] => _get_exact_bounding_box kernel placements occurrence = Ok None
  | first :: others =>
      exists b,
        _get_exact_bounding_box kernel placements occurrence = Ok (Some b)
        /\ List.Forall
             (fun oriented =>
                encloses b (_oriented_bounding_box_to_bounding_box oriented))
             measured
        /\ (others = [] -> b = _oriented_bounding_box_to_bounding_box first)
  end.
Proof.
  intros Hwires Hmeasured.
  assert (_get_exact_bounding_box kernel placements occurrence
          = Ok match measured with
               | [] => None
               | first :: others =>
                   Some (fold_left combine
                           (map _oriented_bounding_box_to_bounding_box others)
                           (_oriented_bounding_box_to_bounding_box first))
               end) as Hrun.
  { unfold _get_exact_bounding_box.
    pose proof (wires_loop (wire_in_context kernel occurrence) Temporary
                  (_occurrence_sketches occurrence) wires
                  (map Persistent (_occurrence_bodies occurrence)) Hwires)
      as Hbodies.
    unfold wire_in_context in Hbodies.
    unfold mbind at 1, result_bind at 1, rbind at 1. rewrite Hbodies.
    exact (measuring_from_nothing (measure_along_world_axes kernel placements)
             _ measured Hmeasured). }
  destruct measured as [|first others]; [exact Hrun|].
  eexists. split; [exact Hrun|].
  destruct (fold_combine_encloses
              (map _oriented_bounding_box_to_bounding_box others)
              (_oriented_bounding_box_to_bounding_box first)) as [Hacc Hrest].
  split.
  - constructor; [exact Hacc|].
    apply List.Forall_forall. intros o Ho.
    rewrite List.Forall_forall in Hrest. apply Hrest. now apply in_map.
  - intros ->. reflexivity.
Qed.

Lemma bounding_box_encloses_every_body_witness :
  exists b,
    _get_exact_bounding_box example_kernel ∅ example_tree = Ok (Some b)
    /\ encloses b
         (_oriented_bounding_box_to_bounding_box
            (mkOrientedBoundingBox3D (mkPoint3D 1 1 1) (mkVector3D 1 0 0)
               (mkVector3D 0 1 0) 2 2 2)).
Proof.
  pose proof (bounding_box_encloses_every_body example_kernel ∅ example_tree
                [] _ eq_refl eq_refl) as (b & Hrun & Hall & _).
  exists b. split; [exact Hrun|].
  inversion Hall; subst. assumption.
Defined.

(** ** What a failed union of sketches leaves behind *)

Lemma for_fold_adds {A B} (count : Design -> nat) (weight : A -> nat)
    (body : B -> A -> M B) :
  (forall acc x st st' acc',
      body acc x st = (st', Ok acc') ->
      count st' = (count st + weight x)%nat) ->
  forall xs acc st st' out,
    for_fold xs acc body st = (st', Ok out) ->
    count st' = (count st + list_sum (map weight xs))%nat.
Proof.
  intros Hbody xs. induction xs as [|x xs IH]; simpl; intros acc st st' out H.
  - inversion H; subst. lia.
  - unfold M_bind in H.
    destruct (body acc x st) as [st1 [acc1|e]] eqn:Hx; [|discriminate].
    rewrite (IH _ _ _ _ H), (Hbody _ _ _ _ _ Hx). lia.
Qed.

Lemma list_sum_zeros {A} (xs : list A) :
  list_sum (map (fun _ : A => 0%nat) xs) = 0%nat.
Proof. induction xs; simpl; auto. Qed.

Lemma for_fold_keeps {A B} (count : Design -> nat) (body : B -> A -> M B) :
  (forall acc x st st' acc',
      body acc x st = (st', Ok acc') -> count st' = count st) ->
  forall xs acc st st' out,
    for_fold xs acc body st = (st', Ok out) -> count st' = count st.
Proof.
  intros Hbody xs acc st st' out H.
  rewrite (for_fold_adds count (fun _ => 0%nat) body
             (fun acc x st st' acc' Hx =>
                eq_trans (Hbody acc x st st' acc' Hx) (plus_n_O _))
             xs acc st st' out H).
  rewrite list_sum_zeros. lia.
Qed.

Lemma bRepBodies_add_extrusions (component : nat) (body : TemporaryBody)
    (feature : nat) (st st' : Design) (new_body : BRepBody) :
  bRepBodies_add component body feature st = (st', Ok new_body) ->
  extrusions st' = extrusions st.
Proof.
  unfold bRepBodies_add. run_monad. unfold M_bind at 1. unfold fresh at 1.
  unfold M_bind at 1.
  destruct (for_fold (temp_faces body) [] _ _) as [st1 [new_faces|e]] eqn:Hloop;
    [|discriminate].
  assert (extrusions st1 = extrusions st) as Hcount.
  { etransitivity.
    - eapply (for_fold_keeps extrusions); [|exact Hloop].
      intros acc x s s' acc'. unfold M_bind, fresh.
      intros H. inversion H; subst. reflexivity.
    - reflexivity. }
  unfold M_bind, record. intros H. inversion H; subst.
  rewrite <- Hcount. unfold extrusions. simpl.
  rewrite List.filter_app, length_app. simpl. lia.
Qed.

Lemma adopt_bodies_extrusions (component feature : nat)
    (made : list TemporaryBody) (st st' : Design) (bodies : list BRepBody) :
  adopt_bodies component feature made st = (st', Ok bodies) ->
  extrusions st' = extrusions st.
Proof.
  unfold adopt_bodies. intros H.
  eapply (for_fold_keeps extrusions); [|exact H].
  intros acc x s s' acc'. run_monad. unfold M_bind.
  destruct (bRepBodies_add component x feature s) as [s1 [b|e]] eqn:Hb;
    [|discriminate].
  intros Hx. inversion Hx; subst.
  exact (bRepBodies_add_extrusions _ _ _ _ _ _ Hb).
Qed.

Lemma _extrude_extrusions (kernel : Kernel) (entity : Entity) (amount : Q)
    (st st' : Design) (feature : Feature) :
  _extrude kernel entity amount st = (st', Ok feature) ->
  extrusions st' = S (extrusions st).
Proof.
  unfold _extrude. run_monad. unfold M_bind at 1.
  destruct (the_sketch entity st) as [s0 [sketch|e]] eqn:Hsk; [|discriminate].
  assert (s0 = st) as ->.
  { destruct entity; unfold the_sketch in Hsk; revert Hsk; run_monad;
      intros Hsk; inversion Hsk; reflexivity. }
  unfold M_bind at 1.
  destruct (as_num (_cm (VNum amount))) as [height|e]; [|discriminate].
  unfold M_bind at 1.
  destruct (extrude_result kernel _ height) as [made|e]; [|discriminate].
  unfold M_bind at 1. unfold fresh at 1.
  unfold M_bind at 1.
  destruct (adopt_bodies root _ made _) as [s1 [bodies|e]] eqn:Hadopt;
    [|discriminate].
  pose proof (adopt_bodies_extrusions _ _ _ _ _ _ Hadopt) as Hcount.
  unfold M_bind, record. intros H. inversion H; subst.
  unfold extrusions in *. simpl in *.
  rewrite List.filter_app, length_app. simpl. lia.
Qed.

Lemma extrude_loop_extrusions (kernel : Kernel) (entities : list Entity)
    (st st' : Design) (out : list Feature * list BRepBody) :
  for_fold entities ([], [])
    (fun '(intermediate_features, bodies) sketch =>
       extrude_feature ← _extrude kernel sketch 1;
       mret (intermediate_features ++ [extrude_feature],
             fold_left (fun bodies body => bodies ++ [body])
               (feature_bodies extrude_feature) bodies)) st
  = (st', Ok out) ->
  extrusions st' = (extrusions st + List.length entities)%nat.
Proof.
  intros H.
  rewrite <- (list_sum_ones entities).
  eapply (for_fold_adds extrusions (fun _ : Entity => 1%nat)); [|exact H].
  intros [fs bs] x s s' acc'. run_monad. unfold M_bind.
  destruct (_extrude kernel x 1 s) as [s1 [f|e]] eqn:Hx; [|discriminate].
  intros Hr. inversion Hr; subst.
  rewrite (_extrude_extrusions _ _ _ _ _ _ Hx). lia.
Qed.

(** X25. A union of sketches that fails for want of a second body does
    not take back what it did: when every extrusion succeeds and the
    extrusions yield at most one body in total, [union] raises
    [IndexError] (no body) or [UnboundLocalError] (one body), and the
    timeline of the design it leaves holds one more extrude feature for
    every argument. *)
Theorem failed_sketch_union_keeps_extrusions (kernel : Kernel)
    (entities : list Entity) (mades : list (list TemporaryBody))
    (name : option string) (st : Design) :
  rmap (extruded kernel) entities = Ok mades ->
  entities <> [] ->
  (List.length (concat mades) <= 1)%nat ->
  exists st',
    union kernel entities name st
    = (st', Raise (if Nat.eqb (List.length (concat mades)) 0
                   then IndexError else UnboundLocalError))
    /\ extrusions st' = (extrusions st + List.length entities)%nat.
Proof.
  intros Hmades Hne Hfew.
  rewrite (union_of_sketches kernel entities mades name st Hmades Hne).
  destruct (extrude_loop kernel entities mades st Hmades)
    as (st1 & features & bodies & Hloop & Hlen).
  exists st1. split; [|exact (extrude_loop_extrusions _ _ _ _ _ Hloop)].
  apply bind_Raise. unfold _sketch_union. run_monad.
  rewrite (bind_Ok _ _ _ _ _ Hloop).
  destruct bodies as [|body [|? ?]]; simpl in Hlen; rewrite <- Hlen in *;
    [reflexivity | reflexivity | simpl in Hfew; lia].
Qed.

Lemma failed_sketch_union_keeps_extrusions_witness :
  exists st',
    union example_kernel
      [SketchEntity (example_sketch "outline" [example_profile 1]);
       SketchEntity (example_sketch "hole" [])]
      None empty_design
    = (st', Raise UnboundLocalError)
    /\ extrusions st' = 2%nat.
Proof.
  apply (failed_sketch_union_keeps_extrusions example_kernel
           [SketchEntity (example_sketch "outline" [example_profile 1]);
            SketchEntity (example_sketch "hole" [])]
           [[mkTemporaryBody [] []]; []] None empty_design);
    [reflexivity | discriminate | simpl; lia].
Defined.

(** ** Turning about one axis at a time *)

Lemma rotate_returns (occurrence : Occurrence) (x y z : Q)
    (center : option (Q * Q * Q)) (st : Design) (m : Matrix3D) :
  transforms st !! occ_id occurrence = Some m ->
  exists st' m',
    rotate occurrence x y z center st = (st', Ok occurrence)
    /\ transforms st' !! occ_id occurrence = Some m'
    /\ (forall other, other <> occ_id occurrence ->
          transforms st' !! other = transforms st !! other)
    /\ timeline st' = timeline st
    /\ List.length (snapshots st')
       = (List.length (snapshots st)
          + if (Qeq_bool x 0 && Qeq_bool y 0 && Qeq_bool z 0)%bool
            then 0 else 1)%nat.
Proof.
  intros Hm.
  destruct (Qeq_bool x 0 && Qeq_bool y 0 && Qeq_bool z 0)%bool eqn:Htest.
  - exists st, m. unfold rotate. rewrite Htest.
    split; [reflexivity|]. repeat split; [exact Hm | lia].
  - assert (~ (x == 0 /\ y == 0 /\ z == 0)) as Hnz.
    { intros H. apply all_zero_test in H. congruence. }
    rewrite (rotate_moves _ _ _ _ _ _ m Hnz Hm). eexists _, _.
    split; [reflexivity|]. simpl. split; [apply lookup_insert_eq|].
    split; [intros other Hother; now apply lookup_insert_ne|].
    split; [reflexivity|]. rewrite length_app. reflexivity.
Qed.

(** X26. Turning about one axis at a time: [rx], then [ry], then [rz] on a
    node placed in the design, about any pivot, return the node and add one
    snapshot for every angle that is not zero; the placement of every other
    node and the timeline stay as they were. *)
Theorem one_axis_turns_add_a_snapshot_each (occurrence : Occurrence)
    (a b c : Q) (center : option (Q * Q * Q)) (st : Design) (m : Matrix3D) :
  transforms st !! occ_id occurrence = Some m ->
  exists st',
    (turned_x ← rx occurrence a center;
     turned_y ← ry turned_x b center;
     rz turned_y c center) st
    = (st', Ok occurrence)
    /\ List.length (snapshots st')
       = (List.length (snapshots st) + nonzero_count a b c)%nat
    /\ (forall other, other <> occ_id occurrence ->
          transforms st' !! other = transforms st !! other)
    /\ timeline st' = timeline st.
Proof.
  intros Hm. unfold rx, ry, rz. run_monad.
  destruct (rotate_returns occurrence a 0 0 center st m Hm)
    as (st1 & m1 & Hrun1 & Hm1 & Hother1 & Htl1 & Hlen1).
  destruct (rotate_returns occurrence 0 b 0 center st1 m1 Hm1)
    as (st2 & m2 & Hrun2 & Hm2 & Hother2 & Htl2 & Hlen2).
  destruct (rotate_returns occurrence 0 0 c center st2 m2 Hm2)
    as (st3 & m3 & Hrun3 & _ & Hother3 & Htl3 & Hlen3).
  exists st3. rewrite (bind_Ok _ _ _ _ _ Hrun1), (bind_Ok _ _ _ _ _ Hrun2).
  split; [exact Hrun3|]. split; [|split].
  - rewrite Hlen3, Hlen2, Hlen1. unfold nonzero_count.
    change (Qeq_bool 0 0) with true. rewrite !andb_true_r. simpl.
    destruct (Qeq_bool a 0), (Qeq_bool b 0), (Qeq_bool c 0); simpl; lia.
  - intros other Hother.
    rewrite (Hother3 _ Hother), (Hother2 _ Hother). exact (Hother1 _ Hother).
  - congruence.
Qed.

Lemma one_axis_turns_add_a_snapshot_each_witness :
  exists st',
    (turned_x ← rx example_tree 90 (Some (10, 0, 0));
     turned_y ← ry turned_x 0 (Some (10, 0, 0));
     rz turned_y 45 (Some (10, 0, 0))) example_design
    = (st', Ok example_tree)
    /\ List.length (snapshots st') = 2%nat
    /\ timeline st' = timeline example_design.
Proof.
  destruct (one_axis_turns_add_a_snapshot_each example_tree 90 0 45
              (Some (10, 0, 0)) example_design Matrix3D_create eq_refl)
    as (st' & Hrun & Hlen & _ & Htl).
  exists st'. split; [exact Hrun|]. split; [exact Hlen | exact Htl].
Defined.

(** ** A box whose face is not found *)

Lemma mark_missing_face (face_name : string) (st : Design) :
  exists st',
    _mark_face None face_name st = (st', Raise AttributeError)
    /\ timeline st' = timeline st.
Proof. eexists. split; reflexivity. Qed.

Lemma mark_found_face (face : BRepFace) (face_name : string) (st : Design) :
  exists st',
    _mark_face (Some face) face_name st = (st', Ok tt)
    /\ timeline st' = timeline st.
Proof. eexists. split; reflexivity. Qed.

Ltac mark_next :=
  match goal with
  | |- context [M_bind (_mark_face ?wanted ?n) _ ?s] =>
      let Hfound := fresh "Hfound" in
      let Hrun := fresh "Hrun" in
      let Hsame := fresh "Hsame" in
      let s' := fresh "st" in
      lazymatch wanted with
      | context [findBRepUsingPoint ?k ?bodies ?p] =>
          destruct (findBRepUsingPoint k bodies p) as [|? ?] eqn:Hfound
      end;
      cbn [item nth_error];
      [ destruct (mark_missing_face n s) as (s' & Hrun & Hsame);
        exists s'; split; [apply bind_Raise; exact Hrun | congruence]
      | match goal with
        | |- context [_mark_face (Some ?face) n] =>
            destruct (mark_found_face face n s) as (s' & Hrun & Hsame);
            rewrite (bind_Ok _ _ _ _ _ Hrun); cbv beta
        end ]
  end.

(** X27. [box] needs a face at each of its six face points: when the
    kernel makes the body and the component is created, but the lookup at
    some face point comes back empty, [box] raises [AttributeError] (from
    marking the missing face) and returns no node; the component and its
    body stay in the timeline as they were created. *)
Theorem box_without_a_face_raises (kernel : Kernel) (x y z : Q)
    (name : string) (st st1 : Design) (body : TemporaryBody)
    (node : Occurrence) :
  createBox kernel (box_shape (x / 10) (y / 10) (z / 10)) = Ok body ->
  _create_component [body] name st = (st1, Ok node) ->
  List.Exists (fun p => findBRepUsingPoint kernel (bRepBodies node) p = [])
    (box_face_points (x / 10) (y / 10) (z / 10)) ->
  exists st',
    box kernel x y z name st = (st', Raise AttributeError)
    /\ timeline st' = timeline st1.
Proof.
  intros Hmade Hnode Hmissing. unfold box. run_monad.
  unfold M_bind at 1. cbn [_cm _convert_units rmap over10 mbind result_bind rbind].
  unfold M_bind at 1. fold (box_shape (x / 10) (y / 10) (z / 10)).
  rewrite Hmade. rewrite (bind_Ok _ _ _ _ _ Hnode).
  unfold box_face_points in Hmissing.
  mark_next. mark_next. mark_next. mark_next. mark_next. mark_next.
  exfalso.
  repeat match goal with
         | H : List.Exists _ (_ :: _) |- _ =>
             apply List.Exists_cons in H as [H|H]; [congruence|]
         end.
  inversion Hmissing.
Qed.

Lemma box_without_a_face_raises_witness :
  exists st',
    box lidless_kernel 10 20 30 "Box" empty_design
    = (st', Raise AttributeError).
Proof.
  pose (made := match createBox lidless_kernel
                        (box_shape (10 / 10) (20 / 10) (30 / 10)) with
                | Ok made => made
                | Raise _ => mkTemporaryBody [] []
                end).
  pose (created := _create_component [made] "Box" empty_design).
  pose (node := match snd created with
                | Ok node => node
                | Raise _ => leaf_occurrence 0 [] true
                end).
  destruct (box_without_a_face_raises lidless_kernel 10 20 30 "Box"
              empty_design (fst created) made node) as (st' & Hrun & _).
  - vm_compute. reflexivity.
  - vm_compute. reflexivity.
  - apply List.Exists_cons_tl, List.Exists_cons_hd. vm_compute. reflexivity.
  - exists st'. exact Hrun.
Defined.
